(** * SUHS-MRV: the facility simulation engine, embedded and verified

    A shallow embedding of [src/physics.py] and [src/generator.py].

    Numbers.  Python floats are modelled by exact rationals ([Q]); a float
    that may hold the not-a-number sentinel is an [option Q] with [None]
    for [nan].  Rounding is therefore not modelled: every statement below
    is about the arithmetic the code writes down, carried out exactly.
    An operation that overflows to [inf], produces [nan] from [inf * 0],
    or underflows to 0 has no counterpart here, and a value that rounding
    would push across a boundary of the compressibility table is looked
    up on its exact side.  The statements are worded with that in mind:
    numeric identities hold up to rounding, and statements about raising
    say when the code raises, not what number it returns.
    A literal with an exponent is written out in full ([1.0e6] is
    [1000000.0], [0.000000001] stands for the source's one billionth).

    Errors.  A Python exception ([ZeroDivisionError], [IndexError],
    [ValueError]) is [None] in the [option] monad.

    Randomness.  The shared [numpy.random.Generator] is an abstract state
    threaded through every draw, in the order of the source. *)

From Stdlib Require Import String Ascii DecimalString QArith Qminmax Lqa ZArith
  Lia List Bool Permutation Sorted.
Import ListNotations.
Open Scope Q_scope.

(* ================================================================== *)
(** ** Python arithmetic on floats *)
(* ================================================================== *)

Definition Qlt_bool (x y : Q) : bool := negb (Qle_bool y x).

(** Python's [max(a, b)]: the first argument unless the second is larger. *)
Definition py_max (a b : Q) : Q := if Qlt_bool a b then b else a.

(** Python's [min(a, b)]: the first argument unless the second is smaller. *)
Definition py_min (a b : Q) : Q := if Qlt_bool b a then b else a.

(** Float division: raises [ZeroDivisionError] on a zero divisor. *)
Definition py_div (a b : Q) : option Q :=
  if Qeq_bool b 0 then None else Some (a / b).

(** The option monad carries exceptions of the pure helpers. *)
Definition obind {A B : Type} (m : option A) (f : A -> option B) : option B :=
  match m with
  | Some a => f a
  | None => None
  end.

Declare Scope err_scope.
Delimit Scope err_scope with err.
Notation "x <-? m ;; k" := (obind m (fun x => k))
  (at level 61, m at next level, right associativity) : err_scope.

(** [for _ in range(n): x = body(x)] with a body that may raise. *)
Fixpoint for_range {A : Type} (n : nat) (body : A -> option A) (x : A)
  : option A :=
  match n with
  | O => Some x
  | S k => obind (body x) (for_range k body)
  end.

(* ================================================================== *)
(** ** physics.py: configuration views *)
(* ================================================================== *)

(** One entry of [compressibility_segments]: a dict with the keys
    [pressure_min_mpa], [pressure_max_mpa] and [Z]. *)
Record Segment : Type := mkSegment {
  seg_pressure_min_mpa : Q;
  seg_pressure_max_mpa : Q;
  seg_Z : Q
}.

Record ThermoConfig : Type := mkThermoConfig {
  gas_constant_R_J_per_molK : Q;
  molar_mass_H2_kg_per_mol : Q;
  compressibility_segments : list Segment
}.

Record TemperatureNoiseConfig : Type := mkTemperatureNoiseConfig {
  tn_distribution : string;
  tn_mean : Q;
  tn_std : Q
}.

Record LossConfig : Type := mkLossConfig {
  loss_min : Q;
  loss_max : Q;
  static_leak_min_kg_per_year : Q;
  static_leak_max_kg_per_year : Q
}.

Record PurityConfig : Type := mkPurityConfig {
  inlet_mean : Q;
  inlet_std : Q;
  inlet_min : Q;
  inlet_max : Q;
  outlet_noise_mean : Q;
  outlet_noise_std : Q;
  outlet_noise_min : Q;
  outlet_noise_max : Q
}.

Record ValidationConfig : Type := mkValidationConfig {
  pressure_margin_mpa : Q;
  temperature_min_c : Q;
  temperature_max_c : Q;
  purity_min_pct : Q;
  purity_max_pct : Q;
  loss_fraction_min : Q;
  loss_fraction_max : Q;
  allow_missing_values : bool;
  mass_balance_tolerance_fraction : Q
}.

(* ================================================================== *)
(** ** physics.py: thermodynamics *)
(* ================================================================== *)

(** The [for seg in ...: if pmin <= p < pmax: return Z] scan. *)
Fixpoint find_segment (pressure_mpa : Q) (segs : list Segment) : option Q :=
  match segs with
  | [] => None
  | seg :: rest =>
      if Qle_bool (seg_pressure_min_mpa seg) pressure_mpa
         && Qlt_bool pressure_mpa (seg_pressure_max_mpa seg)
      then Some (seg_Z seg)
      else find_segment pressure_mpa rest
  end.

(** [segs[-1]]: [IndexError] on the empty list. *)
Fixpoint last_segment (segs : list Segment) : option Segment :=
  match segs with
  | [] => None
  | [seg] => Some seg
  | _ :: rest => last_segment rest
  end.

Definition get_compressibility_z (pressure_mpa : Q) (thermo : ThermoConfig)
  : option Q :=
  match find_segment pressure_mpa (compressibility_segments thermo) with
  | Some z => Some z
  | None => option_map seg_Z (last_segment (compressibility_segments thermo))
  end.

Definition mass_from_pvt (pressure_mpa temperature_c volume_m3 : Q)
    (thermo : ThermoConfig) : option Q :=
  if Qle_bool volume_m3 0 then Some 0
  else
    let pressure_pa := pressure_mpa * 1000000.0 in
    let temperature_k := temperature_c + 273.15 in
    (Z <-? get_compressibility_z pressure_mpa thermo ;;
     let R := gas_constant_R_J_per_molK thermo in
     let M := molar_mass_H2_kg_per_mol thermo in
     n_moles <-? py_div (pressure_pa * volume_m3) (Z * R * temperature_k) ;;
     let mass_kg := n_moles * M in
     Some (py_max mass_kg 0))%err.

(** One pass of the loop body of [pressure_from_mass]. *)
Definition pressure_update (thermo : ThermoConfig)
    (n_moles temperature_k volume_m3 pressure_pa : Q) : option Q :=
  (let pressure_mpa := pressure_pa / 1000000.0 in
   Z <-? get_compressibility_z pressure_mpa thermo ;;
   py_div (Z * n_moles * gas_constant_R_J_per_molK thermo * temperature_k)
          (py_max volume_m3 0.000000001))%err.

Definition pressure_from_mass (mass_kg temperature_c volume_m3 : Q)
    (thermo : ThermoConfig) : option Q :=
  if Qle_bool volume_m3 0 || Qle_bool mass_kg 0 then Some 0
  else
    let temperature_k := temperature_c + 273.15 in
    let M := molar_mass_H2_kg_per_mol thermo in
    (n_moles <-? py_div mass_kg M ;;
     pressure_pa <-? for_range 5
        (pressure_update thermo n_moles temperature_k volume_m3) 10000000.0 ;;
     let pressure_mpa_final := pressure_pa / 1000000.0 in
     Some (py_max pressure_mpa_final 0))%err.

(** The fixed-point solve as the specification words it: five updates
    [P := Z(P) * n * R * T / volume], seeded at 10 MPa (1e7 Pa). *)
Definition spec_update (thermo : ThermoConfig)
    (n_moles temperature_k volume_m3 pressure_pa : Q) : option Q :=
  (Z <-? get_compressibility_z (pressure_pa / 1000000.0) thermo ;;
   Some (Z * n_moles * gas_constant_R_J_per_molK thermo * temperature_k
         / volume_m3))%err.

Definition spec_five_iterations (thermo : ThermoConfig)
    (n_moles temperature_k volume_m3 : Q) : option Q :=
  (p1 <-? spec_update thermo n_moles temperature_k volume_m3 10000000.0 ;;
   p2 <-? spec_update thermo n_moles temperature_k volume_m3 p1 ;;
   p3 <-? spec_update thermo n_moles temperature_k volume_m3 p2 ;;
   p4 <-? spec_update thermo n_moles temperature_k volume_m3 p3 ;;
   spec_update thermo n_moles temperature_k volume_m3 p4)%err.

Definition pressure_from_mass_spec (mass_kg temperature_c volume_m3 : Q)
    (thermo : ThermoConfig) : option Q :=
  if Qle_bool volume_m3 0 || Qle_bool mass_kg 0 then Some 0
  else
    (n_moles <-? py_div mass_kg (molar_mass_H2_kg_per_mol thermo) ;;
     p <-? spec_five_iterations thermo n_moles (temperature_c + 273.15)
             volume_m3 ;;
     Some (py_max (p / 1000000.0) 0))%err.

(** The remaining helpers of physics.py that the weekly loop calls and
    that draw nothing. *)
Definition compute_cycle_losses_kg (working_gas_kg loss_fraction : Q) : Q :=
  if Qle_bool working_gas_kg 0 || Qle_bool loss_fraction 0 then 0
  else py_max (working_gas_kg * loss_fraction) 0.

Definition Qabs_py (x : Q) : Q := if Qlt_bool x 0 then - x else x.

Definition mass_balance_residual_fraction
    (injected_kg withdrawn_kg losses_kg delta_storage_kg : Q) : Q :=
  let eps := 0.000000001 in
  let numerator :=
    Qabs_py (injected_kg - withdrawn_kg - losses_kg - delta_storage_kg) in
  let denom := py_max (Qabs_py injected_kg) eps in
  numerator / denom.

(** Validation helpers. *)
Definition check_pressure_within_bounds (pressure_mpa p_min_mpa p_max_mpa
    margin_mpa : Q) : bool :=
  let lower := p_min_mpa - margin_mpa in
  let upper := p_max_mpa + margin_mpa in
  Qle_bool lower pressure_mpa && Qle_bool pressure_mpa upper.

Definition check_purity_range (purity_pct : Q) (vcfg : ValidationConfig)
  : bool :=
  Qle_bool (purity_min_pct vcfg) purity_pct
  && Qle_bool purity_pct (purity_max_pct vcfg).

(* ================================================================== *)
(** ** The shared random generator *)
(* ================================================================== *)

(** The operations of [numpy.random.Generator] that the program calls.
    Each takes the generator state and returns the draw with the next
    state, or [None] where numpy raises [ValueError].

    - [rng_integers low high]: [rng.integers(low, high)], [high] excluded;
    - [rng_choice_index n p]: the position picked by [rng.choice(a)] or
      [rng.choice(a, p=p)] in an [a] of length [n];
    - [rng_choice_no_replace a size]: [rng.choice(a, size, replace=False)];
    - [rng_uniform], [rng_normal]: as in numpy;
    - [rng_lognormal m sigma]: [rng.lognormal(mean=np.log(m), sigma)]. *)
Class Generator (G : Type) : Type := {
  default_rng : Z -> G;
  rng_integers : Z -> Z -> G -> option (Z * G);
  rng_choice_index : nat -> option (list Q) -> G -> option (nat * G);
  rng_choice_no_replace : list nat -> Z -> G -> option (list nat * G);
  rng_uniform : Q -> Q -> G -> option (Q * G);
  rng_normal : Q -> Q -> G -> option (Q * G);
  rng_lognormal : Q -> Q -> G -> option (Q * G)
}.

(** What numpy documents about the draws. *)
Class GeneratorLaws (G : Type) `{Generator G} : Prop := {
  rng_integers_range : forall low high g k g',
    rng_integers low high g = Some (k, g') -> (low <= k < high)%Z;
  rng_choice_index_range : forall n p g i g',
    rng_choice_index n p g = Some (i, g') -> (i < n)%nat;
  rng_choice_no_replace_spec : forall a size g l g',
    rng_choice_no_replace a size g = Some (l, g') ->
    (0 <= size)%Z /\ length l = Z.to_nat size /\ incl l a /\
    (NoDup a -> NoDup l);
  rng_uniform_range : forall low high g u g',
    rng_uniform low high g = Some (u, g') ->
    low <= high -> low <= u <= high
}.

(** Computations that draw from the generator and may raise. *)
Definition M (G A : Type) : Type := G -> option (A * G).

Definition ret {G A : Type} (a : A) : M G A := fun g => Some (a, g).

Definition bind {G A B : Type} (m : M G A) (f : A -> M G B) : M G B :=
  fun g => match m g with
           | Some (a, g') => f a g'
           | None => None
           end.

(** A pure helper that may raise, run inside the loop. *)
Definition lift {G A : Type} (o : option A) : M G A :=
  fun g => match o with
           | Some a => Some (a, g)
           | None => None
           end.

Declare Scope rng_scope.
Delimit Scope rng_scope with rng.
Notation "x <- m ;; k" := (bind m (fun x => k))
  (at level 61, m at next level, right associativity) : rng_scope.
Notation "' pat <- m ;; k" := (bind m (fun x => match x with pat => k end))
  (at level 61, pat pattern, m at next level, right associativity) : rng_scope.

(** [for a in l: s = f(a, s)]. *)
Fixpoint foldM {G A S : Type} (f : A -> S -> M G S) (l : list A) (s : S)
  : M G S :=
  match l with
  | [] => ret s
  | a :: rest => bind (f a s) (foldM f rest)
  end.

(** [enumerate(l)]. *)
Definition enumerate {A : Type} (l : list A) : list (nat * A) :=
  combine (seq 0 (length l)) l.

(** [values / values.sum()] on a numpy array: a zero sum gives a vector
    of [nan] (here [None]), which [rng.choice] then refuses. *)
Definition np_normalise (weights : list Q) : option (list Q) :=
  let total := fold_left Qplus weights 0 in
  if Qeq_bool total 0 then None
  else Some (map (fun w => w / total) weights).

(* ================================================================== *)
(** ** Samplers of physics.py *)
(* ================================================================== *)

Section Samplers.
Context {G : Type} `{Generator G}.
Local Open Scope rng_scope.

(** [rng.choice(a)]. *)
Definition choice_uniform {A : Type} (a : list A) : M G A :=
  i <- rng_choice_index (length a) None ;;
  lift (nth_error a i).

(** [rng.choice(a, p=probs)]. *)
Definition choice_weighted {A : Type} (a : list A) (probs : option (list Q))
  : M G A :=
  match probs with
  | None => fun _ => None
  | Some p =>
      i <- rng_choice_index (length a) (Some p) ;;
      lift (nth_error a i)
  end.

Definition compute_temperature_c (depth_m base_temperature_c
    gradient_c_per_km : Q) (noise_cfg : TemperatureNoiseConfig) : M G Q :=
  let depth_km := depth_m / 1000.0 in
  let temperature := base_temperature_c + gradient_c_per_km * depth_km in
  noise <- (if String.eqb (tn_distribution noise_cfg) "normal"%string
            then rng_normal (tn_mean noise_cfg) (tn_std noise_cfg)
            else ret 0) ;;
  ret (temperature + noise).

Definition sample_loss_fraction (loss_cfg : LossConfig) : M G Q :=
  rng_uniform (loss_min loss_cfg) (loss_max loss_cfg).

Definition sample_inlet_purity_pct (purity_cfg : PurityConfig) : M G Q :=
  val <- rng_normal (inlet_mean purity_cfg) (inlet_std purity_cfg) ;;
  let val := py_max (inlet_min purity_cfg) val in
  let val := py_min (inlet_max purity_cfg) val in
  ret val.

Definition update_purity_out_pct (purity_in_pct : Q)
    (purity_cfg : PurityConfig) : M G Q :=
  noise <- rng_normal (outlet_noise_mean purity_cfg)
                      (outlet_noise_std purity_cfg) ;;
  let purity_out := purity_in_pct + noise in
  let purity_out := py_max 0 purity_out in
  let purity_out := py_min 100 purity_out in
  let purity_out := py_max (inlet_min purity_cfg) purity_out in
  let purity_out := py_min (inlet_max purity_cfg) purity_out in
  ret purity_out.

(** generator.py *)
Definition _sample_lognormal_bounded (mean sigma min_val max_val : Q)
  : M G Q :=
  value <- rng_lognormal mean sigma ;;
  ret (py_max min_val (py_min value max_val)).

Definition _sample_uniform (min_val max_val : Q) : M G Q :=
  rng_uniform min_val max_val.

End Samplers.

(* ================================================================== *)
(** ** generator.py: the parsed configuration *)
(* ================================================================== *)

Record RangeCfg : Type := mkRangeCfg {
  range_min : Q;
  range_max : Q
}.

Record LognormalCfg : Type := mkLognormalCfg {
  ln_mean : Q;
  ln_sigma : Q;
  ln_min : Q;
  ln_max : Q
}.

(** [cfg["facility_types"]["salt_cavern"]]. *)
Record SaltCavernCfg : Type := mkSaltCavernCfg {
  salt_depth_m : RangeCfg;
  salt_cavern_volume_m3 : LognormalCfg;
  salt_pressure_min_mpa : Q;
  salt_pressure_max_mpa : Q;
  salt_working_gas_fraction_of_total : Q;
  salt_base_temperature_c : Q;
  salt_temperature_gradient_c_per_km : Q
}.

(** [cfg["facility_types"]["porous_reservoir"]]. *)
Record PorousReservoirCfg : Type := mkPorousReservoirCfg {
  porous_depth_m : RangeCfg;
  porous_porosity : RangeCfg;
  porous_permeability_mD : LognormalCfg;
  porous_pressure_min_mpa : Q;
  porous_pressure_max_mpa : Q;
  porous_working_gas_fraction_of_pore_volume : Q;
  porous_base_temperature_c : Q;
  porous_temperature_gradient_c_per_km : Q
}.

(** [cfg["cycling"]]. *)
Record CyclingCfg : Type := mkCyclingCfg {
  min_cycles_per_year : Z;
  max_cycles_per_year : Z;
  max_relative_change_per_cycle : Q;
  cycle_mass_fraction_min : Q;
  cycle_mass_fraction_max : Q;
  injection_heavy_fraction : Q;
  withdrawal_heavy_fraction : Q;
  balanced_fraction : Q
}.

Record MassDistCfg : Type := mkMassDistCfg {
  relative_mean : Q;
  relative_sigma : Q;
  min_fraction_of_capacity : Q;
  max_fraction_of_capacity : Q
}.

(** [cfg["distributions"]]. *)
Record DistributionsCfg : Type := mkDistributionsCfg {
  injection_mass_kg : MassDistCfg;
  withdrawal_mass_kg : MassDistCfg;
  pressure_noise_mean : Q;
  pressure_noise_std : Q
}.

(** The whole document.  [start_date] is the parsed date, counted in
    days; the views of physics.py are stored as [build_*_config] returns
    them. *)
Record Config : Type := mkConfig {
  n_facilities : Z;
  facility_type_weights : list (string * Q);
  random_seed : Z;
  start_date : Z;
  n_years : Z;
  salt_cavern : SaltCavernCfg;
  porous_reservoir : PorousReservoirCfg;
  cycling : CyclingCfg;
  distributions : DistributionsCfg;
  thermodynamics : ThermoConfig;
  temperature_noise_c : TemperatureNoiseConfig;
  losses : LossConfig;
  purity : PurityConfig;
  validation : ValidationConfig
}.

Definition build_thermo_config (cfg : Config) := thermodynamics cfg.
Definition build_temperature_noise_config (cfg : Config) :=
  temperature_noise_c cfg.
Definition build_loss_config (cfg : Config) := losses cfg.
Definition build_purity_config (cfg : Config) := purity cfg.
Definition build_validation_config (cfg : Config) := validation cfg.

(* ================================================================== *)
(** ** generator.py: rows of the three tables *)
(* ================================================================== *)

(** One row of [facility_metadata]. *)
Record Facility : Type := mkFacility {
  facility_id : string;
  facility_type : string;
  country_code : string;
  region : string;
  latitude : Q;
  longitude : Q;
  depth_m : Q;
  cavern_volume_m3 : Q;
  porosity : option Q;
  permeability_mD : option Q;
  pressure_min_mpa : Q;
  pressure_max_mpa : Q
}.

(** One row of [facility_timeseries]. *)
Record WeeklyRecord : Type := mkWeeklyRecord {
  ts_facility_id : string;
  ts_timestamp : Z;
  ts_cycle_index : Z;
  ts_is_cycle_active : bool;
  ts_h2_injected_kg : Q;
  ts_h2_withdrawn_kg : Q;
  ts_working_gas_kg : Q;
  ts_cushion_gas_kg : Q;
  ts_losses_kg : Q;
  ts_pressure_mpa : Q;
  ts_temperature_c : Q;
  ts_purity_in_pct : Q;
  ts_purity_out_pct : Q;
  ts_cycle_efficiency : option Q
}.

(** One row of [cycle_summary]. *)
Record CycleRecord : Type := mkCycleRecord {
  cy_facility_id : string;
  cy_cycle_index : Z;
  cy_cycle_start : Z;
  cy_cycle_end : Z;
  cy_total_injected_kg : Q;
  cy_total_withdrawn_kg : Q;
  cy_total_losses_kg : Q;
  cy_avg_pressure_mpa : option Q;
  cy_avg_temperature_c : Q;
  cy_cycle_efficiency : option Q
}.

(** The variables the weekly loop carries from one week to the next. *)
Record LoopState : Type := mkLoopState {
  st_working_gas_kg : Q;
  st_last_cycle_fraction : Q;
  st_cycle_index : Z;
  st_records : list WeeklyRecord;
  st_cycle_records : list CycleRecord
}.

(** The variables an iteration has set when it leaves the
    [if is_active: ... else: ...] block. *)
Record WeekVars : Type := mkWeekVars {
  wv_cycle_index : Z;
  wv_last_cycle_fraction : Q;
  wv_working_gas_kg : Q;
  wv_h2_injected_kg : Q;
  wv_h2_withdrawn_kg : Q;
  wv_cycle_efficiency : option Q;
  wv_purity_in_pct : option Q;
  wv_purity_out_pct : option Q;
  wv_total_cycle_losses_kg : Q;
  wv_cycle_records : list CycleRecord
}.

(* ================================================================== *)
(** ** generator.py: pure pieces of the weekly loop *)
(* ================================================================== *)

(** Lines 424-429: clip the drawn fraction, cap the move away from the
    previous cycle's fraction, clip again. *)
Definition ramp_cycle_fraction (cap_min_frac cap_max_frac max_delta_frac
    last_cycle_fraction target_frac : Q) : Q :=
  let target_frac := py_max cap_min_frac (py_min target_frac cap_max_frac) in
  let delta := target_frac - last_cycle_fraction in
  let delta := py_max (- max_delta_frac) (py_min delta max_delta_frac) in
  let cycle_frac := last_cycle_fraction + delta in
  py_max cap_min_frac (py_min cycle_frac cap_max_frac).

(** The value of [last_cycle_fraction + delta] on line 428, before the
    second clip. *)
Definition ramp_before_reclip (cap_min_frac cap_max_frac max_delta_frac
    last_cycle_fraction target_frac : Q) : Q :=
  let target_frac := py_max cap_min_frac (py_min target_frac cap_max_frac) in
  let delta := target_frac - last_cycle_fraction in
  let delta := py_max (- max_delta_frac) (py_min delta max_delta_frac) in
  last_cycle_fraction + delta.

(** Lines 457-469: the two [if]s that bring the inventory back into
    [0, capacity].  Returns working gas, injected, withdrawn. *)
Definition clamp_inventory (working_capacity_kg working_gas_kg
    h2_injected_kg h2_withdrawn_kg : Q) : Q * Q * Q :=
  let '(working_gas_kg, h2_withdrawn_kg) :=
    if Qlt_bool working_gas_kg 0 then
      let deficit := - working_gas_kg in
      let reduction := py_min deficit h2_withdrawn_kg in
      (0, h2_withdrawn_kg - reduction)
    else (working_gas_kg, h2_withdrawn_kg) in
  let '(working_gas_kg, h2_injected_kg) :=
    if Qlt_bool working_capacity_kg working_gas_kg then
      let excess := working_gas_kg - working_capacity_kg in
      let reduction := py_min excess h2_injected_kg in
      (working_capacity_kg, h2_injected_kg - reduction)
    else (working_gas_kg, h2_injected_kg) in
  (working_gas_kg, h2_injected_kg, h2_withdrawn_kg).

(** The clamping policy as the specification words it: a deficit is
    taken out of the withdrawal only, an excess out of the injection only,
    and an inventory inside [0, capacity] is left alone.  [result] is the
    inventory after the net update; the primed values are the recorded
    ones. *)
Definition spec_clamp_outcome (capacity result injected withdrawn
    working_gas' injected' withdrawn' : Q) : Prop :=
  (result < 0 ->
     working_gas' = 0 /\
     withdrawn' = withdrawn - py_min (- result) withdrawn /\
     injected' = injected) /\
  (capacity < result ->
     working_gas' = capacity /\
     injected' = injected - py_min (result - capacity) injected /\
     withdrawn' = withdrawn) /\
  (0 <= result -> result <= capacity ->
     working_gas' = result /\ injected' = injected /\
     withdrawn' = withdrawn).

(** Lines 475-478. *)
Definition cycle_efficiency_of (h2_injected_kg h2_withdrawn_kg : Q)
  : option Q :=
  if Qlt_bool 0 h2_injected_kg
  then Some (h2_withdrawn_kg / h2_injected_kg)
  else None.

(** [records[-1]]. *)
Definition last_record (records : list WeeklyRecord) : option WeeklyRecord :=
  nth_error records (length records - 1).

(* ================================================================== *)
(** ** generator.py: dictionaries keyed by year *)
(* ================================================================== *)

(** A dict in insertion order, as Python iterates it. *)
Definition YearDict (V : Type) : Type := list (Z * V).

Fixpoint dict_get {V : Type} (year : Z) (d : YearDict V) : option V :=
  match d with
  | [] => None
  | (y, v) :: rest => if Z.eqb y year then Some v else dict_get year rest
  end.

(** [d[year] = v]. *)
Fixpoint dict_set {V : Type} (year : Z) (v : V) (d : YearDict V)
  : YearDict V :=
  match d with
  | [] => [(year, v)]
  | (y, w) :: rest =>
      if Z.eqb y year then (y, v) :: rest
      else (y, w) :: dict_set year v rest
  end.

(** [d.setdefault(year, []).append(idx)]. *)
Fixpoint setdefault_append (year : Z) (idx : nat) (d : YearDict (list nat))
  : YearDict (list nat) :=
  match d with
  | [] => [(year, [idx])]
  | (y, l) :: rest =>
      if Z.eqb y year then (y, l ++ [idx]) :: rest
      else (y, l) :: setdefault_append year idx rest
  end.

(** [active.sort()]. *)
Fixpoint insert_sorted (x : nat) (l : list nat) : list nat :=
  match l with
  | [] => [x]
  | y :: rest => if Nat.leb x y then x :: l else y :: insert_sorted x rest
  end.

Definition sort_indices (l : list nat) : list nat :=
  fold_right insert_sorted [] l.

(** [idx in active_indices]. *)
Definition index_in (idx : nat) (active_indices : list nat) : bool :=
  existsb (Nat.eqb idx) active_indices.

(* ================================================================== *)
(** ** generator.py: the cycle summary's average pressure *)
(* ================================================================== *)

(** [Series.mean()] of a group. *)
Definition mean (values : list Q) : option Q :=
  match values with
  | [] => None
  | _ => Some (fold_left Qplus values 0 / inject_Z (Z.of_nat (length values)))
  end.

(** Lines 560-579: the weekly rows with a positive [cycle_index] are
    grouped by facility and cycle, their pressures averaged, and the
    averages left-joined onto the cycle rows; a cycle with no weekly row
    keeps [nan]. *)
Definition pressures_of_cycle (ts_df : list WeeklyRecord) (c : CycleRecord)
  : list Q :=
  map ts_pressure_mpa
    (filter (fun r =>
       Z.ltb 0 (ts_cycle_index r)
       && String.eqb (ts_facility_id r) (cy_facility_id c)
       && Z.eqb (ts_cycle_index r) (cy_cycle_index c)) ts_df).

Definition set_avg_pressure (c : CycleRecord) (avg : option Q) : CycleRecord :=
  mkCycleRecord (cy_facility_id c) (cy_cycle_index c) (cy_cycle_start c)
    (cy_cycle_end c) (cy_total_injected_kg c) (cy_total_withdrawn_kg c)
    (cy_total_losses_kg c) avg (cy_avg_temperature_c c)
    (cy_cycle_efficiency c).

Definition fill_avg_pressure (ts_df : list WeeklyRecord)
    (cycles_df : list CycleRecord) : list CycleRecord :=
  map (fun c => set_avg_pressure c (mean (pressures_of_cycle ts_df c)))
      cycles_df.

(** What lines 491-504 and 539-556 write for one active week: the cycle
    row and the weekly row are built from the same variables of the
    iteration, [avg_pressure_mpa] apart. *)
Definition cycle_row_of_week (r : WeeklyRecord) (c : CycleRecord) : Prop :=
  cy_facility_id c = ts_facility_id r /\
  cy_cycle_index c = ts_cycle_index r /\
  cy_cycle_start c = ts_timestamp r /\
  cy_cycle_end c = (ts_timestamp r + 7)%Z /\
  cy_total_injected_kg c = ts_h2_injected_kg r /\
  cy_total_withdrawn_kg c = ts_h2_withdrawn_kg r /\
  cy_total_losses_kg c = ts_losses_kg r /\
  cy_avg_temperature_c c = ts_temperature_c r /\
  cy_cycle_efficiency c = ts_cycle_efficiency r.

(** [f"UHS_{n:03d}"]. *)
Definition format_facility_id (n : nat) : string :=
  let digits := NilEmpty.string_of_uint (Nat.to_uint n) in
  let pad := match String.length digits with
             | 1%nat => "00"%string
             | 2%nat => "0"%string
             | _ => ""%string
             end in
  ("UHS_" ++ pad ++ digits)%string.

(* ================================================================== *)
(** ** generator.py: the functions that draw *)
(* ================================================================== *)

Section Generation.
Context {G : Type} `{Generator G}.

(** [ts.year] of the calendar, for a date counted in days. *)
Variable year_of : Z -> Z.

Local Open Scope rng_scope.

Definition countries : list string :=
  ["US"; "DE"; "NL"; "FR"; "NO"]%string.
Definition regions : list string :=
  ["Gulf Coast"; "North Sea"; "Onshore EU"; "Offshore EU"; "Nordic"]%string.

(** The body of the [for i in range(n_facilities)] loop. *)
Definition create_facility (cfg : Config) (type_probs : option (list Q))
    (i : nat) : M G Facility :=
  let facility_types := map fst (facility_type_weights cfg) in
  let salt_cfg := salt_cavern cfg in
  let porous_cfg := porous_reservoir cfg in
  facility_type <- choice_weighted facility_types type_probs ;;
  country_code <- choice_uniform countries ;;
  region <- choice_uniform regions ;;
  latitude <- rng_uniform (-60.0) 60.0 ;;
  longitude <- rng_uniform (-180.0) 180.0 ;;
  if String.eqb facility_type "salt_cavern" then
    depth <- _sample_uniform (range_min (salt_depth_m salt_cfg))
                             (range_max (salt_depth_m salt_cfg)) ;;
    let cav_conf := salt_cavern_volume_m3 salt_cfg in
    cavern_volume_m3 <- _sample_lognormal_bounded (ln_mean cav_conf)
        (ln_sigma cav_conf) (ln_min cav_conf) (ln_max cav_conf) ;;
    ret (mkFacility (format_facility_id (i + 1)) facility_type
           country_code region latitude longitude depth cavern_volume_m3
           None None
           (salt_pressure_min_mpa salt_cfg) (salt_pressure_max_mpa salt_cfg))
  else
    depth <- _sample_uniform (range_min (porous_depth_m porous_cfg))
                             (range_max (porous_depth_m porous_cfg)) ;;
    let poro_conf := porous_porosity porous_cfg in
    let perm_conf := porous_permeability_mD porous_cfg in
    porosity <- _sample_uniform (range_min poro_conf) (range_max poro_conf) ;;
    permeability <- _sample_lognormal_bounded (ln_mean perm_conf)
        (ln_sigma perm_conf) (ln_min perm_conf) (ln_max perm_conf) ;;
    let cav_conf := salt_cavern_volume_m3 salt_cfg in
    cavern_volume_m3 <- _sample_lognormal_bounded (ln_mean cav_conf)
        (ln_sigma cav_conf) (ln_min cav_conf) (ln_max cav_conf) ;;
    ret (mkFacility (format_facility_id (i + 1)) facility_type
           country_code region latitude longitude depth cavern_volume_m3
           (Some porosity) (Some permeability)
           (porous_pressure_min_mpa porous_cfg)
           (porous_pressure_max_mpa porous_cfg)).

Definition create_facilities (cfg : Config) : M G (list Facility) :=
  let type_probs := np_normalise (map snd (facility_type_weights cfg)) in
  foldM (fun i rows => row <- create_facility cfg type_probs i ;;
                       ret (rows ++ [row]))
        (seq 0 (Z.to_nat (n_facilities cfg))) [].

(** [start + timedelta(weeks=i)] for [i] in [range(n_years * 52)]. *)
Definition generate_time_index (start_date n_years : Z) : list Z :=
  let n_weeks := (n_years * 52)%Z in
  map (fun i => (start_date + 7 * Z.of_nat i)%Z) (seq 0 (Z.to_nat n_weeks)).

(** Lines 234-237. *)
Definition group_by_year (time_index : list Z) : YearDict (list nat) :=
  fold_left (fun d it => setdefault_append (year_of (snd it)) (fst it) d)
            (enumerate time_index) [].

Definition assign_active_cycles_per_year (cfg : Config)
    (time_index : list Z) : M G (YearDict (list nat)) :=
  let cyc_cfg := cycling cfg in
  let min_c := min_cycles_per_year cyc_cfg in
  let max_c := max_cycles_per_year cyc_cfg in
  let year_to_indices := group_by_year time_index in
  foldM (fun (it : Z * list nat) year_active_indices =>
           let '(year, indices) := it in
           let n_indices := Z.of_nat (length indices) in
           n_cycles <- rng_integers min_c (max_c + 1) ;;
           let n_cycles := Z.min n_cycles n_indices in
           active <- rng_choice_no_replace indices n_cycles ;;
           let active := sort_indices active in
           ret (dict_set year active year_active_indices))
        year_to_indices [].

Definition _compute_facility_capacity_kg (facility_row : Facility)
    (cfg : Config) (thermo_cfg : ThermoConfig)
    (temp_noise_cfg : TemperatureNoiseConfig) : M G (Q * Q) :=
  let ftype := facility_type facility_row in
  let depth_m := depth_m facility_row in
  let volume_m3 := cavern_volume_m3 facility_row in
  let '(working_frac, base_T, grad, pmax) :=
    if String.eqb ftype "salt_cavern" then
      let fcfg := salt_cavern cfg in
      (salt_working_gas_fraction_of_total fcfg,
       salt_base_temperature_c fcfg,
       salt_temperature_gradient_c_per_km fcfg,
       salt_pressure_max_mpa fcfg)
    else
      let fcfg := porous_reservoir cfg in
      (porous_working_gas_fraction_of_pore_volume fcfg,
       porous_base_temperature_c fcfg,
       porous_temperature_gradient_c_per_km fcfg,
       porous_pressure_max_mpa fcfg) in
  temp_c <- compute_temperature_c depth_m base_T grad temp_noise_cfg ;;
  total_mass_kg <- lift (mass_from_pvt pmax temp_c volume_m3 thermo_cfg) ;;
  let working_capacity_kg := py_max (total_mass_kg * working_frac) 0 in
  let cushion_gas_kg := py_max (total_mass_kg - working_capacity_kg) 0 in
  ret (working_capacity_kg, cushion_gas_kg).

Definition mode_choices : list string :=
  ["injection_heavy"; "withdrawal_heavy"; "balanced"]%string.

(** Lines 434-444: injected and withdrawn mass of the drawn mode. *)
Definition draw_flows (mode : string) (target_mass : Q) : M G (Q * Q) :=
  if String.eqb mode "injection_heavy" then
    u <- rng_uniform 0.1 0.6 ;;
    ret (target_mass, target_mass * u)
  else if String.eqb mode "withdrawal_heavy" then
    u <- rng_uniform 0.1 0.6 ;;
    ret (target_mass * u, target_mass)
  else
    let base := target_mass in
    u <- rng_uniform (-0.1) 0.1 ;;
    let eps := u * target_mass in
    ret (py_max (base + eps) 0, py_max (base - eps) 0).

(** Lines 418-506: the [if is_active:] branch.  [working_gas_kg] is the
    inventory after the static leak of line 407. *)
Definition active_cycle (facility_row : Facility) (cfg : Config)
    (loss_cfg : LossConfig) (purity_cfg : PurityConfig)
    (mode_probs : option (list Q))
    (working_capacity_kg static_losses_kg : Q)
    (ts : Z) (temperature_c : Q) (st : LoopState) (working_gas_kg : Q)
  : M G WeekVars :=
  let cyc_cfg := cycling cfg in
  let dist_cfg := distributions cfg in
  let injection_mean := relative_mean (injection_mass_kg dist_cfg) in
  let injection_sigma := relative_sigma (injection_mass_kg dist_cfg) in
  let max_delta_frac := max_relative_change_per_cycle cyc_cfg in
  let cap_min_frac := cycle_mass_fraction_min cyc_cfg in
  let cap_max_frac := cycle_mass_fraction_max cyc_cfg in
  let cycle_index := (st_cycle_index st + 1)%Z in
  mode <- choice_weighted mode_choices mode_probs ;;
  target_frac <- rng_lognormal injection_mean injection_sigma ;;
  let cycle_frac := ramp_cycle_fraction cap_min_frac cap_max_frac
                      max_delta_frac (st_last_cycle_fraction st)
                      target_frac in
  let last_cycle_fraction := cycle_frac in
  let target_mass := working_capacity_kg * cycle_frac in
  flows <- draw_flows mode target_mass ;;
  let '(h2_injected_kg, h2_withdrawn_kg) := flows in
  loss_fraction <- sample_loss_fraction loss_cfg ;;
  let dynamic_losses_kg :=
    compute_cycle_losses_kg working_gas_kg loss_fraction in
  let prev_working := working_gas_kg in
  let working_gas_kg :=
    working_gas_kg + h2_injected_kg - h2_withdrawn_kg
    - dynamic_losses_kg - static_losses_kg in
  let '(working_gas_kg, h2_injected_kg, h2_withdrawn_kg) :=
    clamp_inventory working_capacity_kg working_gas_kg
                    h2_injected_kg h2_withdrawn_kg in
  let total_cycle_losses_kg := dynamic_losses_kg + static_losses_kg in
  let delta_storage_kg := working_gas_kg - prev_working in
  let cycle_efficiency :=
    cycle_efficiency_of h2_injected_kg h2_withdrawn_kg in
  purity_in_pct <- sample_inlet_purity_pct purity_cfg ;;
  purity_out_pct <- update_purity_out_pct purity_in_pct purity_cfg ;;
  let _ := mass_balance_residual_fraction h2_injected_kg h2_withdrawn_kg
             total_cycle_losses_kg delta_storage_kg in
  ret (mkWeekVars cycle_index last_cycle_fraction working_gas_kg
         h2_injected_kg h2_withdrawn_kg cycle_efficiency
         (Some purity_in_pct) (Some purity_out_pct) total_cycle_losses_kg
         (st_cycle_records st ++
          [mkCycleRecord (facility_id facility_row) cycle_index ts
             (ts + 7)%Z h2_injected_kg h2_withdrawn_kg
             total_cycle_losses_kg None temperature_c cycle_efficiency])).

(** Lines 507-509: the [else:] branch. *)
Definition inactive_week (static_losses_kg : Q) (st : LoopState)
    (working_gas_kg : Q) : WeekVars :=
  mkWeekVars (st_cycle_index st) (st_last_cycle_fraction st) working_gas_kg
    0 0 None None None static_losses_kg (st_cycle_records st).

(** [idx in year_active_indices.get(ts.year, [])]. *)
Definition week_is_active (year_active_indices : YearDict (list nat))
    (idx : nat) (ts : Z) : bool :=
  let active_indices :=
    match dict_get (year_of ts) year_active_indices with
    | Some a => a
    | None => []
    end in
  index_in idx active_indices.

(** Lines 392-555: one pass of the weekly loop. *)
Definition simulate_week (facility_row : Facility) (cfg : Config)
    (thermo_cfg : ThermoConfig) (temp_noise_cfg : TemperatureNoiseConfig)
    (loss_cfg : LossConfig) (purity_cfg : PurityConfig)
    (val_cfg : ValidationConfig)
    (year_active_indices : YearDict (list nat))
    (mode_probs : option (list Q))
    (working_capacity_kg cushion_gas_kg static_leak_per_week : Q)
    (it : nat * Z) (st : LoopState) : M G LoopState :=
  let '(idx, ts) := it in
  let volume_m3 := cavern_volume_m3 facility_row in
  let '(base_T, grad) :=
    if String.eqb (facility_type facility_row) "salt_cavern" then
      (salt_base_temperature_c (salt_cavern cfg),
       salt_temperature_gradient_c_per_km (salt_cavern cfg))
    else
      (porous_base_temperature_c (porous_reservoir cfg),
       porous_temperature_gradient_c_per_km (porous_reservoir cfg)) in
  let pmin := pressure_min_mpa facility_row in
  let pmax := pressure_max_mpa facility_row in
  let dist_cfg := distributions cfg in
  let is_active := week_is_active year_active_indices idx ts in
  temperature_c <- compute_temperature_c (depth_m facility_row) base_T grad
                     temp_noise_cfg ;;
  let working_gas_kg :=
    py_max (st_working_gas_kg st - static_leak_per_week) 0 in
  let static_losses_kg := static_leak_per_week in
  wv <- (if is_active
         then active_cycle facility_row cfg loss_cfg purity_cfg mode_probs
                working_capacity_kg static_losses_kg ts temperature_c st
                working_gas_kg
         else ret (inactive_week static_losses_kg st working_gas_kg)) ;;
  let total_gas_kg := wv_working_gas_kg wv + cushion_gas_kg in
  pressure_mpa <- lift (pressure_from_mass total_gas_kg temperature_c
                          volume_m3 thermo_cfg) ;;
  noise <- rng_normal (pressure_noise_mean dist_cfg)
                      (pressure_noise_std dist_cfg) ;;
  let pressure_mpa := pressure_mpa + noise in
  let pressure_mpa :=
    py_max (pmin - pressure_margin_mpa val_cfg) pressure_mpa in
  let pressure_mpa :=
    py_min (pmax + pressure_margin_mpa val_cfg) pressure_mpa in
  let '(purity_in_pct, purity_out_pct) :=
    match wv_purity_in_pct wv, wv_purity_out_pct wv with
    | Some p_in, Some p_out => (p_in, p_out)
    | _, _ =>
        match last_record (st_records st) with
        | Some r => (ts_purity_in_pct r, ts_purity_out_pct r)
        | None => (inlet_mean purity_cfg, inlet_mean purity_cfg)
        end
    end in
  ret (mkLoopState (wv_working_gas_kg wv) (wv_last_cycle_fraction wv)
         (wv_cycle_index wv)
         (st_records st ++
          [mkWeeklyRecord (facility_id facility_row) ts
             (if is_active then wv_cycle_index wv else 0%Z) is_active
             (wv_h2_injected_kg wv) (wv_h2_withdrawn_kg wv)
             (wv_working_gas_kg wv) cushion_gas_kg
             (wv_total_cycle_losses_kg wv) pressure_mpa temperature_c
             purity_in_pct purity_out_pct (wv_cycle_efficiency wv)])
         (wv_cycle_records wv)).

Definition simulate_facility_timeseries (facility_row : Facility)
    (cfg : Config) (thermo_cfg : ThermoConfig)
    (temp_noise_cfg : TemperatureNoiseConfig) (loss_cfg : LossConfig)
    (purity_cfg : PurityConfig) (val_cfg : ValidationConfig)
    (time_index : list Z) (year_active_indices : YearDict (list nat))
  : M G (list WeeklyRecord * list CycleRecord) :=
  let cyc_cfg := cycling cfg in
  caps <- _compute_facility_capacity_kg facility_row cfg thermo_cfg
            temp_noise_cfg ;;
  let '(working_capacity_kg, cushion_gas_kg) := caps in
  let working_gas_kg := working_capacity_kg * 0.5 in
  static_leak_per_year <- _sample_uniform
      (static_leak_min_kg_per_year loss_cfg)
      (static_leak_max_kg_per_year loss_cfg) ;;
  let static_leak_per_week := static_leak_per_year / 52.0 in
  let mode_probs := np_normalise
      [injection_heavy_fraction cyc_cfg;
       withdrawal_heavy_fraction cyc_cfg;
       balanced_fraction cyc_cfg] in
  let last_cycle_fraction := 0.1 in
  let cycle_index := 0%Z in
  st <- foldM (simulate_week facility_row cfg thermo_cfg temp_noise_cfg
                 loss_cfg purity_cfg val_cfg year_active_indices mode_probs
                 working_capacity_kg cushion_gas_kg static_leak_per_week)
              (enumerate time_index)
              (mkLoopState working_gas_kg last_cycle_fraction cycle_index
                 [] []) ;;
  let ts_df := st_records st in
  let cycles_df := st_cycle_records st in
  ret (ts_df, fill_avg_pressure ts_df cycles_df).

(** The states the weekly loop of one facility can be in: the initial
    one of lines 349, 389 and 390, and any state a pass of the loop
    produces from one of them. *)
Inductive loop_reachable (facility_row : Facility) (cfg : Config)
    (thermo_cfg : ThermoConfig) (temp_noise_cfg : TemperatureNoiseConfig)
    (loss_cfg : LossConfig) (purity_cfg : PurityConfig)
    (val_cfg : ValidationConfig)
    (year_active_indices : YearDict (list nat))
    (mode_probs : option (list Q))
    (working_capacity_kg cushion_gas_kg static_leak_per_week : Q)
  : LoopState -> Prop :=
| reach_init :
    loop_reachable facility_row cfg thermo_cfg temp_noise_cfg loss_cfg
      purity_cfg val_cfg year_active_indices mode_probs
      working_capacity_kg cushion_gas_kg static_leak_per_week
      (mkLoopState (working_capacity_kg * 0.5) 0.1 0 [] [])
| reach_week : forall st it g st' g',
    loop_reachable facility_row cfg thermo_cfg temp_noise_cfg loss_cfg
      purity_cfg val_cfg year_active_indices mode_probs
      working_capacity_kg cushion_gas_kg static_leak_per_week st ->
    simulate_week facility_row cfg thermo_cfg temp_noise_cfg loss_cfg
      purity_cfg val_cfg year_active_indices mode_probs
      working_capacity_kg cushion_gas_kg static_leak_per_week it st g
      = Some (st', g') ->
    loop_reachable facility_row cfg thermo_cfg temp_noise_cfg loss_cfg
      purity_cfg val_cfg year_active_indices mode_probs
      working_capacity_kg cushion_gas_kg static_leak_per_week st'.

(** [pd.concat(frames)]: [ValueError] when there is no frame. *)
Definition pd_concat {A : Type} (frames : list (list A)) : option (list A) :=
  match frames with
  | [] => None
  | _ => Some (concat frames)
  end.

(** The pipeline of [generate_uhs_dataset], up to the three tables it
    returns (writing them to disk is left out). *)
Definition generate_uhs_dataset (cfg : Config)
  : option (list Facility * list WeeklyRecord * list CycleRecord) :=
  let rng := default_rng (random_seed cfg) in
  let thermo_cfg := build_thermo_config cfg in
  let temp_noise_cfg := build_temperature_noise_config cfg in
  let loss_cfg := build_loss_config cfg in
  let purity_cfg := build_purity_config cfg in
  let val_cfg := build_validation_config cfg in
  let run : M G _ :=
    facility_df <- create_facilities cfg ;;
    let time_index := generate_time_index (start_date cfg) (n_years cfg) in
    year_active_indices <- assign_active_cycles_per_year cfg time_index ;;
    frames <- foldM (fun row (acc : list (list WeeklyRecord)
                                   * list (list CycleRecord)) =>
                res <- simulate_facility_timeseries row cfg thermo_cfg
                         temp_noise_cfg loss_cfg purity_cfg val_cfg
                         time_index year_active_indices ;;
                ret (fst acc ++ [fst res], snd acc ++ [snd res]))
             facility_df ([], []) ;;
    let '(ts_frames, cycle_frames) := frames in
    timeseries_df <- lift (pd_concat ts_frames) ;;
    let cycle_summary_df :=
      match cycle_frames with
      | [] => []
      | _ => concat cycle_frames
      end in
    ret (facility_df, timeseries_df, cycle_summary_df) in
  option_map fst (run rng).

End Generation.

(* ================================================================== *)
(** ** A concrete generator, calendar and configuration for examples *)
(* ================================================================== *)

(** A linear congruential generator on 64-bit states.  It stands in for
    numpy's bit generator in the examples: the draws are deterministic,
    stay inside the documented ranges and refuse what numpy refuses. *)
Definition lcg_next (s : Z) : Z :=
  ((6364136223846793005 * s + 1442695040888963407) mod 2 ^ 64)%Z.

(** The top eight bits of the state, as a fraction in [0, 1). *)
Definition lcg_unit (s : Z) : Q := Qmake (s / 2 ^ 56 mod 256) 256.

(** [a[k:] + a[:k]]. *)
Definition rotate {A : Type} (k : nat) (a : list A) : list A :=
  skipn k a ++ firstn k a.

(** The position at which the running sum of the weights passes [u]. *)
Fixpoint pick_by_weight (p : list Q) (u : Q) : nat :=
  match p with
  | [] => 0%nat
  | w :: rest => if Qlt_bool u w then 0%nat
                 else S (pick_by_weight rest (u - w))
  end.

(** numpy's checks on [p]: one weight per element, none negative, sum 1. *)
Definition valid_probabilities (n : nat) (p : list Q) : bool :=
  Nat.eqb (length p) n && forallb (Qle_bool 0) p
  && Qeq_bool (fold_left Qplus p 0) 1.

#[export] Instance lcg_generator : Generator Z := {
  default_rng seed := lcg_next (seed mod 2 ^ 64);
  rng_integers low high s :=
    if (low <? high)%Z
    then Some ((low + (lcg_next s / 2 ^ 32) mod (high - low))%Z, lcg_next s)
    else None;
  rng_choice_index n p s :=
    match n, p with
    | O, _ => None
    | _, None =>
        Some (Z.to_nat ((lcg_next s / 2 ^ 32) mod Z.of_nat n), lcg_next s)
    | _, Some w =>
        if valid_probabilities n w
        then Some (Nat.min (pick_by_weight w (lcg_unit (lcg_next s)))
                           (n - 1), lcg_next s)
        else None
    end;
  rng_choice_no_replace a size s :=
    if (size <? 0)%Z || (Z.of_nat (length a) <? size)%Z then None
    else
      let k := Z.to_nat ((lcg_next s / 2 ^ 32) mod Z.of_nat (length a)) in
      Some (firstn (Z.to_nat size) (rotate k a), lcg_next s);
  rng_uniform low high s :=
    Some (low + (high - low) * lcg_unit (lcg_next s), lcg_next s);
  rng_normal mean std s :=
    if Qlt_bool std 0 then None
    else Some (mean + std * (2 * lcg_unit (lcg_next s) - 1), lcg_next s);
  rng_lognormal m sigma s :=
    if Qlt_bool sigma 0 then None
    else Some (m * (1 + sigma * lcg_unit (lcg_next s)), lcg_next s)
}.

(** The Gregorian year of a day counted from 1970-01-01. *)
Definition gregorian_year (days : Z) : Z :=
  let z := (days + 719468)%Z in
  let era := (z / 146097)%Z in
  let doe := (z - era * 146097)%Z in
  let yoe := ((doe - doe / 1460 + doe / 36524 - doe / 146096) / 365)%Z in
  let doy := (doe - (365 * yoe + yoe / 4 - yoe / 100))%Z in
  let mp := ((5 * doy + 2) / 153)%Z in
  let m := (if mp <? 10 then mp + 3 else mp - 9)%Z in
  (yoe + era * 400 + (if m <=? 2 then 1 else 0))%Z.

Definition example_thermo : ThermoConfig :=
  mkThermoConfig 8.314 0.002016
    [mkSegment 0 10 1.0; mkSegment 10 20 1.06; mkSegment 20 40 1.13].

Definition example_salt : SaltCavernCfg :=
  mkSaltCavernCfg (mkRangeCfg 800 1500) (mkLognormalCfg 500000 0.4 100000 1000000)
    6 18 0.6 15 30.

Definition example_porous : PorousReservoirCfg :=
  mkPorousReservoirCfg (mkRangeCfg 1000 2500) (mkRangeCfg 0.1 0.3)
    (mkLognormalCfg 100 0.5 10 1000) 8 25 0.5 20 30.

Definition example_distributions : DistributionsCfg :=
  mkDistributionsCfg (mkMassDistCfg 0.2 0.5 0.05 0.4)
    (mkMassDistCfg 0.2 0.5 0.05 0.4) 0 0.05.

(** 2024-01-01 is day 19723. *)
Definition example_config (n_fac : Z) (cyc : CyclingCfg)
    (noise : TemperatureNoiseConfig) (losses : LossConfig) : Config :=
  mkConfig n_fac [("salt_cavern", 0.6); ("porous_reservoir", 0.4)]%string
    42 19723 1 example_salt example_porous
    cyc example_distributions example_thermo noise losses
    (mkPurityConfig 99.9 0.05 99.5 100 (-0.02) 0.01 (-0.1) 0.05)
    (mkValidationConfig 0.5 (-10) 120 95 100 0 0.1 false 0.000001).

Definition example_noise : TemperatureNoiseConfig :=
  mkTemperatureNoiseConfig "normal" 0 0.5.

(** Every week of the single year is a cycle, for one facility. *)
Definition full_year_config : Config :=
  example_config 1 (mkCyclingCfg 52 52 0.1 0.3 0.4 1 0 0)
    example_noise (mkLossConfig 0 0 100 1000).

(** Two facilities, three to five cycles in the year. *)
Definition two_facility_config : Config :=
  example_config 2 (mkCyclingCfg 3 5 0.05 0.05 0.4 0.4 0.4 0.2)
    example_noise (mkLossConfig 0 0 100 1000).

(** A short run of one facility: six weeks, three of them active. *)
Definition short_config : Config :=
  example_config 1 (mkCyclingCfg 3 5 0.05 0.05 0.4 0.4 0.4 0.2)
    example_noise (mkLossConfig 0.001 0.01 100 1000).

Definition example_facility : Facility :=
  mkFacility "UHS_001" "salt_cavern" "DE" "North Sea" 53 8 1200 500000
    None None 6 18.

(** A cavern so small that the weekly leak exceeds its working gas. *)
Definition tiny_facility : Facility :=
  mkFacility "UHS_002" "salt_cavern" "NL" "North Sea" 52 5 1000 1
    None None 6 18.

Definition example_weeks : list Z :=
  firstn 6 (generate_time_index 19723 1).

Definition example_schedule : YearDict (list nat) :=
  [(2024%Z, [1; 2; 4]%nat)].

(** The short run of a facility, from seed 42. *)
Abbreviation run_of fr :=
  (simulate_facility_timeseries gregorian_year fr short_config
     (build_thermo_config short_config)
     (build_temperature_noise_config short_config)
     (build_loss_config short_config) (build_purity_config short_config)
     (build_validation_config short_config)
     example_weeks example_schedule (default_rng 42)) (only parsing).

Abbreviation example_run := (run_of example_facility) (only parsing).
Abbreviation tiny_run := (run_of tiny_facility) (only parsing).

(** The capacity, cushion gas and weekly leak the short run computes
    before its loop, with the generator state the loop starts from. *)
Definition example_setup : option (Q * Q * Q * Z) :=
  match _compute_facility_capacity_kg example_facility short_config
          (build_thermo_config short_config)
          (build_temperature_noise_config short_config) (default_rng 42) with
  | Some ((cap, cush), g1) =>
      match _sample_uniform
              (static_leak_min_kg_per_year (build_loss_config short_config))
              (static_leak_max_kg_per_year (build_loss_config short_config))
              g1 with
      | Some (leak_year, g2) => Some (cap, cush, leak_year / 52.0, g2)
      | None => None
      end
  | None => None
  end.

Definition example_cap : Q :=
  Eval vm_compute in
    match example_setup with Some (c, _, _, _) => c | None => 0 end.
Definition example_cushion : Q :=
  Eval vm_compute in
    match example_setup with Some (_, k, _, _) => k | None => 0 end.
Definition example_leak : Q :=
  Eval vm_compute in
    match example_setup with Some (_, _, l, _) => l | None => 0 end.
Definition example_g0 : Z :=
  Eval vm_compute in
    match example_setup with Some (_, _, _, g) => g | None => 0%Z end.

Definition example_mode_probs : option (list Q) :=
  np_normalise
    [injection_heavy_fraction (cycling short_config);
     withdrawal_heavy_fraction (cycling short_config);
     balanced_fraction (cycling short_config)].

(** One pass of the short run's loop, and the state after its first [n]
    weeks. *)
Abbreviation example_simulate_week :=
  (simulate_week gregorian_year example_facility short_config
     (build_thermo_config short_config)
     (build_temperature_noise_config short_config)
     (build_loss_config short_config) (build_purity_config short_config)
     (build_validation_config short_config) example_schedule
     example_mode_probs example_cap example_cushion example_leak)
  (only parsing).

Abbreviation example_state_after n :=
  (foldM example_simulate_week (firstn n (enumerate example_weeks))
     (mkLoopState (example_cap * 0.5) 0.1 0 [] []) example_g0)
  (only parsing).

(** A cycle run from the initial state of the short run. *)
Abbreviation example_active_cycle :=
  (active_cycle example_facility short_config
     (build_loss_config short_config) (build_purity_config short_config)
     example_mode_probs example_cap example_leak 19730 51
     (mkLoopState (example_cap * 0.5) 0.1 0 [] [])
     (py_max (example_cap * 0.5 - example_leak) 0) example_g0)
  (only parsing).

(** The short run of the tiny cavern: its capacity, cushion gas and weekly
    leak, the loop's starting generator state, one pass of its loop and the
    state after its first [n] weeks.  The weekly leak is larger than the
    whole capacity, so every cycle ends below 0 before the clamp. *)
Definition tiny_setup : option (Q * Q * Q * Z) :=
  match _compute_facility_capacity_kg tiny_facility short_config
          (build_thermo_config short_config)
          (build_temperature_noise_config short_config) (default_rng 42) with
  | Some ((cap, cush), g1) =>
      match _sample_uniform
              (static_leak_min_kg_per_year (build_loss_config short_config))
              (static_leak_max_kg_per_year (build_loss_config short_config))
              g1 with
      | Some (leak_year, g2) => Some (cap, cush, leak_year / 52.0, g2)
      | None => None
      end
  | None => None
  end.

Definition tiny_cap : Q :=
  Eval vm_compute in
    match tiny_setup with Some (c, _, _, _) => c | None => 0 end.
Definition tiny_cushion : Q :=
  Eval vm_compute in
    match tiny_setup with Some (_, k, _, _) => k | None => 0 end.
Definition tiny_leak : Q :=
  Eval vm_compute in
    match tiny_setup with Some (_, _, l, _) => l | None => 0 end.
Definition tiny_g0 : Z :=
  Eval vm_compute in
    match tiny_setup with Some (_, _, _, g) => g | None => 0%Z end.

Abbreviation tiny_simulate_week :=
  (simulate_week gregorian_year tiny_facility short_config
     (build_thermo_config short_config)
     (build_temperature_noise_config short_config)
     (build_loss_config short_config) (build_purity_config short_config)
     (build_validation_config short_config) example_schedule
     example_mode_probs tiny_cap tiny_cushion tiny_leak)
  (only parsing).

Abbreviation tiny_state_after n :=
  (foldM tiny_simulate_week (firstn n (enumerate example_weeks))
     (mkLoopState (tiny_cap * 0.5) 0.1 0 [] []) tiny_g0)
  (only parsing).

(** A year of the example cavern in which every week is an
    injection-heavy cycle, so that the inventory reaches the capacity: the
    schedule, the mode weights, one pass of the loop and the state after
    the first [n] weeks.  Capacity, cushion gas, leak and starting
    generator state are those of the short run, which computes them from
    the same entries of the configuration. *)
Definition full_year_schedule : YearDict (list nat) :=
  [(2024%Z, seq 0 52)].

Definition full_year_mode_probs : option (list Q) :=
  np_normalise
    [injection_heavy_fraction (cycling full_year_config);
     withdrawal_heavy_fraction (cycling full_year_config);
     balanced_fraction (cycling full_year_config)].

Abbreviation full_year_simulate_week :=
  (simulate_week gregorian_year example_facility full_year_config
     (build_thermo_config full_year_config)
     (build_temperature_noise_config full_year_config)
     (build_loss_config full_year_config)
     (build_purity_config full_year_config)
     (build_validation_config full_year_config) full_year_schedule
     full_year_mode_probs example_cap example_cushion example_leak)
  (only parsing).

Abbreviation full_year_state_after n :=
  (foldM full_year_simulate_week
     (firstn n (enumerate (generate_time_index 19723 1)))
     (mkLoopState (example_cap * 0.5) 0.1 0 [] []) example_g0)
  (only parsing).

(* ================================================================== *)
(** ** Proofs: arithmetic helpers and the equation of state *)
(* ================================================================== *)

Lemma Qle_bool_spec (x y : Q) : BoolSpec (x <= y) (y < x) (Qle_bool x y).
Proof.
  destruct (Qle_bool x y) eqn:E; constructor.
  - now apply Qle_bool_iff.
  - apply Qnot_le_lt. intro C. apply Qle_bool_iff in C. congruence.
Qed.

Lemma Qlt_bool_spec (x y : Q) : BoolSpec (x < y) (y <= x) (Qlt_bool x y).
Proof.
  unfold Qlt_bool. destruct (Qle_bool_spec y x); constructor; assumption.
Qed.

Lemma Qeq_bool_spec (x y : Q) : BoolSpec (x == y) (~ x == y) (Qeq_bool x y).
Proof.
  destruct (Qeq_bool x y) eqn:E; constructor.
  - now apply Qeq_bool_iff.
  - intro C. apply Qeq_bool_iff in C. congruence.
Qed.

Lemma Qlt_bool_cases a b :
  (a < b /\ Qlt_bool a b = true) \/ (b <= a /\ Qlt_bool a b = false).
Proof. destruct (Qlt_bool_spec a b); auto. Qed.

Lemma Qle_bool_cases a b :
  (a <= b /\ Qle_bool a b = true) \/ (b < a /\ Qle_bool a b = false).
Proof. destruct (Qle_bool_spec a b); auto. Qed.

Lemma Qeq_bool_cases a b :
  (a == b /\ Qeq_bool a b = true) \/ (~ a == b /\ Qeq_bool a b = false).
Proof. destruct (Qeq_bool_spec a b); auto. Qed.

Lemma py_max_cases a b : (a < b /\ py_max a b = b) \/ (b <= a /\ py_max a b = a).
Proof. unfold py_max. destruct (Qlt_bool_spec a b); auto. Qed.

Lemma py_min_cases a b : (b < a /\ py_min a b = b) \/ (a <= b /\ py_min a b = a).
Proof. unfold py_min. destruct (Qlt_bool_spec b a); auto. Qed.

Ltac split_on L :=
  let H := fresh "Hc" in let E := fresh "Ec" in
  destruct L as [[H E] | [H E]]; rewrite E in *; clear E.

Ltac qcase1 :=
  match goal with
  | |- context [py_max ?a ?b] => split_on (py_max_cases a b)
  | |- context [py_min ?a ?b] => split_on (py_min_cases a b)
  | |- context [Qlt_bool ?a ?b] => split_on (Qlt_bool_cases a b)
  | |- context [Qle_bool ?a ?b] => split_on (Qle_bool_cases a b)
  | |- context [Qeq_bool ?a ?b] => split_on (Qeq_bool_cases a b)
  | H : context [py_max ?a ?b] |- _ => split_on (py_max_cases a b)
  | H : context [py_min ?a ?b] |- _ => split_on (py_min_cases a b)
  | H : context [Qlt_bool ?a ?b] |- _ => split_on (Qlt_bool_cases a b)
  | H : context [Qle_bool ?a ?b] |- _ => split_on (Qle_bool_cases a b)
  | H : context [Qeq_bool ?a ?b] |- _ => split_on (Qeq_bool_cases a b)
  end.

Ltac py_cases := repeat qcase1.
Ltac qbool := repeat qcase1.

Lemma py_div_nonzero a b : ~ b == 0 -> py_div a b = Some (a / b).
Proof. intros Hb. unfold py_div. qbool; [contradiction | reflexivity]. Qed.

Lemma obind_ret {A} (m : option A) : obind m (fun x => Some x) = m.
Proof. destruct m; reflexivity. Qed.

Lemma for_range_ext {A} n (f g : A -> option A) x :
  (forall y, f y = g y) -> for_range n f x = for_range n g x.
Proof.
  intros E. revert x. induction n as [|n IH]; intros x; simpl; [reflexivity|].
  rewrite E. destruct (g x); simpl; auto.
Qed.

Lemma for_range_snoc {A} n (f : A -> option A) x :
  for_range (S n) f x = obind (for_range n f x) f.
Proof.
  revert x. induction n as [|n IH]; intros x.
  - simpl. destruct (f x); reflexivity.
  - change (for_range (S (S n)) f x) with (obind (f x) (for_range (S n) f)).
    simpl for_range at 2. destruct (f x) as [y|]; simpl; [|reflexivity].
    apply IH.
Qed.

Lemma pressure_update_spec_update th n Tk V p :
  pressure_update th n Tk V p = spec_update th n Tk (py_max V 0.000000001) p.
Proof.
  unfold pressure_update, spec_update.
  destruct (get_compressibility_z (p / 1000000.0) th) as [z|]; simpl; [|reflexivity].
  apply py_div_nonzero. py_cases; lra.
Qed.

Lemma five_updates th n Tk V :
  for_range 5 (pressure_update th n Tk V) 10000000.0
  = spec_five_iterations th n Tk (py_max V 0.000000001).
Proof.
  rewrite (for_range_ext 5 _ (spec_update th n Tk (py_max V 0.000000001)))
    by (intro; apply pressure_update_spec_update).
  unfold spec_five_iterations. simpl.
  repeat (match goal with |- obind ?m _ = obind ?m _ => destruct m; simpl; [|reflexivity] end).
  apply obind_ret.
Qed.

(** Claim C3, amended.  [pressure_from_mass] returns 0 whenever the volume
    or the mass is not positive (before it reads the thermodynamic table or
    divides).  Otherwise, with a non-zero molar mass, it is exactly the five
    updates of the specification, seeded at 10 MPa, each recomputing Z at
    the current estimate, with [max(volume, 1e-9)] as the divisor and the
    final estimate floored at 0; for a volume of at least 1e-9 m3 the
    divisor is the volume itself and the code agrees with
    [pressure_from_mass_spec]. *)
Theorem pressure_from_mass_fixed_point (m T V : Q) (th : ThermoConfig) :
  (V <= 0 \/ m <= 0 -> pressure_from_mass m T V th = Some 0) /\
  (0 < V -> 0 < m -> ~ molar_mass_H2_kg_per_mol th == 0 ->
     pressure_from_mass m T V th =
     obind (spec_five_iterations th (m / molar_mass_H2_kg_per_mol th)
              (T + 273.15) (py_max V 0.000000001))
           (fun p => Some (py_max (p / 1000000.0) 0))) /\
  (0.000000001 <= V -> 0 < m -> ~ molar_mass_H2_kg_per_mol th == 0 ->
     pressure_from_mass m T V th = pressure_from_mass_spec m T V th).
Proof.
  assert (G2 : 0 < V -> 0 < m -> ~ molar_mass_H2_kg_per_mol th == 0 ->
     pressure_from_mass m T V th =
     obind (spec_five_iterations th (m / molar_mass_H2_kg_per_mol th)
              (T + 273.15) (py_max V 0.000000001))
           (fun p => Some (py_max (p / 1000000.0) 0))).
  { intros HV Hm HM. unfold pressure_from_mass.
    destruct (Qle_bool_spec V 0); [lra|].
    destruct (Qle_bool_spec m 0); [lra|]. cbv zeta. simpl orb.
    rewrite (py_div_nonzero _ _ HM). unfold obind at 1.
    rewrite five_updates. reflexivity. }
  split; [|split; [exact G2|]].
  - intros [HV | Hm]; unfold pressure_from_mass.
    + destruct (Qle_bool_spec V 0); [reflexivity | lra].
    + destruct (Qle_bool_spec m 0); [now rewrite orb_true_r | lra].
  - intros HV Hm HM. rewrite G2 by (assumption || lra).
    unfold pressure_from_mass_spec.
    destruct (Qle_bool_spec V 0); [lra|].
    destruct (Qle_bool_spec m 0); [lra|]. simpl orb. cbv iota.
    rewrite (py_div_nonzero _ _ HM). unfold obind at 3.
    assert (E : py_max V 0.000000001 = V) by (py_cases; [lra | reflexivity]).
    rewrite E. reflexivity.
Qed.

(* ---------- C3 counterexample ---------- *)
(** Claim C3, as stated, fails for a positive volume under one billionth
    of a cubic metre: the source divides by [max(volume_m3, 1e-9)], not by
    the volume.  At 0.5e-9 m3 the five updates written with [/ volume]
    give twice the pressure the code returns. *)
Lemma pressure_from_mass_tiny_volume :
  exists a b,
    pressure_from_mass 1 20 0.0000000005 example_thermo = Some a /\
    pressure_from_mass_spec 1 20 0.0000000005 example_thermo = Some b /\
    0 < a /\ b == 2 * a /\ ~ a == b.
Proof.
  eexists. eexists. split; [vm_compute; reflexivity|].
  split; [vm_compute; reflexivity|]. split; [reflexivity|].
  split; [reflexivity | discriminate].
Qed.

(* ---------- C4 ---------- *)
Lemma find_segment_in p segs z :
  find_segment p segs = Some z -> exists seg, In seg segs /\ z = seg_Z seg.
Proof.
  induction segs as [|s rest IH]; simpl; [discriminate|].
  destruct (_ && _).
  - intros [= <-]. exists s. auto.
  - intros E. destruct (IH E) as (seg & Hin & ->). exists seg. auto.
Qed.

Lemma last_segment_in segs :
  segs <> [] -> exists seg, In seg segs /\ last_segment segs = Some seg.
Proof.
  induction segs as [|s rest IH]; [congruence|]. intros _.
  destruct rest as [|s' rest'].
  - exists s. simpl. auto.
  - destruct IH as (seg & Hin & E); [congruence|].
    exists seg. split; [right; exact Hin|]. exact E.
Qed.

Lemma get_compressibility_z_in_table p th :
  compressibility_segments th <> [] ->
  exists seg, In seg (compressibility_segments th) /\
              get_compressibility_z p th = Some (seg_Z seg).
Proof.
  intros Hne. unfold get_compressibility_z.
  destruct (find_segment p (compressibility_segments th)) as [z|] eqn:E.
  - destruct (find_segment_in _ _ _ E) as (seg & Hin & ->). eauto.
  - destruct (last_segment_in _ Hne) as (seg & Hin & ->). simpl. eauto.
Qed.

Lemma pressure_update_total th n Tk V p :
  compressibility_segments th <> [] ->
  exists seg, In seg (compressibility_segments th) /\
    pressure_update th n Tk V p =
    Some (seg_Z seg * n * gas_constant_R_J_per_molK th * Tk
          / py_max V 0.000000001).
Proof.
  intros Hne. rewrite pressure_update_spec_update. unfold spec_update.
  destruct (get_compressibility_z_in_table (p / 1000000.0) th Hne)
    as (seg & Hin & ->).
  exists seg. split; [exact Hin | reflexivity].
Qed.

Lemma for_range_pressure_update_total th n Tk V k p :
  compressibility_segments th <> [] ->
  exists q, for_range k (pressure_update th n Tk V) p = Some q.
Proof.
  intros Hne. revert p. induction k as [|k IH]; intros p; simpl; [eauto|].
  destruct (pressure_update_total th n Tk V p Hne) as (seg & _ & ->).
  simpl. apply IH.
Qed.

Lemma Qdiv_le_cross a b c d :
  0 < b -> 0 < d -> a * d <= c * b -> a / b <= c / d.
Proof.
  intros Hb Hd H.
  apply Qle_shift_div_l; [exact Hd|].
  assert (E : a / b * d == a * d / b) by (field; lra).
  rewrite E. apply Qle_shift_div_r; [exact Hb|]. exact H.
Qed.

(** Claim C4, amended.  For a positive pressure, a temperature above
    absolute zero and a volume of at least 1e-9 m3, with positive gas
    constant and molar mass and a non-empty table whose factors all lie in
    [[zlo, zhi]] with [0 < zlo]: both conversions return, and the pressure
    recovered from [mass_from_pvt P T V] is [P * z4 / zP], where [zP] is
    the factor the table gives at [P] and [z4] the factor it gives at the
    solver's fourth iterate [p4], the one the fifth update reads.  So the
    result lies between [P * zlo / zhi] and [P * zhi / zlo], and it is [P]
    when the two factors agree, as they must for a single-factor table;
    the error is a mismatch of table segments, not a shortfall of the
    iteration.  The identity is one of exact arithmetic: rounding perturbs
    it in the last digits and, for an iterate on a segment boundary, may
    change which factor [z4] is. *)
Theorem pressure_mass_round_trip (P T V zlo zhi : Q) (th : ThermoConfig) :
  0 < P -> - 273.15 < T -> 0.000000001 <= V ->
  0 < gas_constant_R_J_per_molK th ->
  0 < molar_mass_H2_kg_per_mol th ->
  compressibility_segments th <> [] ->
  0 < zlo ->
  (forall seg, In seg (compressibility_segments th) ->
               zlo <= seg_Z seg <= zhi) ->
  exists m r zP p4 z4,
    mass_from_pvt P T V th = Some m /\
    pressure_from_mass m T V th = Some r /\
    get_compressibility_z P th = Some zP /\
    for_range 4
      (pressure_update th (m / molar_mass_H2_kg_per_mol th) (T + 273.15) V)
      10000000.0 = Some p4 /\
    get_compressibility_z (p4 / 1000000.0) th = Some z4 /\
    r == P * (z4 / zP) /\
    P * (zlo / zhi) <= r <= P * (zhi / zlo).
Proof.
  intros HP HT HV HR HM Hne Hzlo Htab.
  set (R := gas_constant_R_J_per_molK th) in *.
  set (M := molar_mass_H2_kg_per_mol th) in *.
  destruct (get_compressibility_z_in_table P th Hne) as (sP & HinP & EP).
  destruct (Htab _ HinP) as [HzP1 HzP2].
  set (zP := seg_Z sP) in *.
  set (Tk := T + 273.15).
  assert (HTk : 0 < Tk) by (unfold Tk; lra).
  assert (Hden : 0 < zP * R * Tk).
  { apply Qmult_lt_0_compat; [apply Qmult_lt_0_compat|]; lra. }
  set (n0 := P * 1000000.0 * V / (zP * R * Tk)).
  assert (Hn0 : 0 < n0).
  { unfold n0. apply Qlt_shift_div_l; [exact Hden|].
    rewrite Qmult_0_l. apply Qmult_lt_0_compat; [|lra].
    apply Qmult_lt_0_compat; lra. }
  assert (Hm0 : 0 < n0 * M) by (apply Qmult_lt_0_compat; lra).
  assert (Emass : mass_from_pvt P T V th = Some (n0 * M)).
  { unfold mass_from_pvt. destruct (Qle_bool_spec V 0); [lra|].
    cbv zeta. rewrite EP. simpl obind. fold zP R Tk.
    rewrite py_div_nonzero by lra. simpl obind. fold n0 M.
    f_equal. unfold py_max. destruct (Qlt_bool_spec (n0 * M) 0); [lra|reflexivity]. }
  destruct (for_range_pressure_update_total th (n0 * M / M) Tk V 4 10000000.0 Hne)
    as (p4 & E4).
  destruct (get_compressibility_z_in_table (p4 / 1000000.0) th Hne)
    as (s4 & Hin4 & Ez4).
  destruct (Htab _ Hin4) as [Hz41 Hz42].
  set (z4 := seg_Z s4) in *.
  assert (EV : py_max V 0.000000001 = V).
  { unfold py_max. destruct (Qlt_bool_spec V 0.000000001); [lra|reflexivity]. }
  set (p5 := z4 * (n0 * M / M) * R * Tk / V).
  assert (E5 : pressure_update th (n0 * M / M) Tk V p4 = Some p5).
  { rewrite pressure_update_spec_update. unfold spec_update.
    rewrite Ez4, EV. reflexivity. }
  assert (Er : p5 / 1000000.0 == P * (z4 / zP)).
  { unfold p5, n0. field. repeat split; lra. }
  assert (Hdiv : 0 < z4 / zP).
  { apply Qlt_shift_div_l; lra. }
  assert (Hpos : 0 < p5 / 1000000.0).
  { rewrite Er. apply Qmult_lt_0_compat; lra. }
  assert (Emax : py_max (p5 / 1000000.0) 0 = p5 / 1000000.0).
  { unfold py_max. destruct (Qlt_bool_spec (p5 / 1000000.0) 0); [lra|reflexivity]. }
  exists (n0 * M), (p5 / 1000000.0), zP, p4, z4.
  split; [exact Emass|]. split.
  { unfold pressure_from_mass.
    destruct (Qle_bool_spec V 0); [lra|].
    destruct (Qle_bool_spec (n0 * M) 0); [lra|]. simpl orb. cbv iota zeta.
    fold M. rewrite py_div_nonzero by lra. unfold obind at 1.
    fold Tk. rewrite for_range_snoc, E4. simpl obind at 2.
    rewrite E5. simpl obind. rewrite Emax. reflexivity. }
  split; [exact EP|]. split; [exact E4|]. split; [exact Ez4|].
  split; [exact Er|]. rewrite Er.
  assert (Hlo : zlo / zhi <= z4 / zP) by (apply Qdiv_le_cross; nra).
  assert (Hhi : z4 / zP <= zhi / zlo) by (apply Qdiv_le_cross; nra).
  split; nra.
Qed.

(** Claim C4, as stated, fails: the round trip is not within a small
    tolerance of [P].  With the example table, 9.9 MPa at 20 degrees C in
    500000 m3 comes back as 10.494 MPa, 6 % high.  The seed of 10 MPa lies
    in the segment with factor 1.06, while 9.9 MPa has factor 1.0; the
    first update already gives 1.06 * 9.9 MPa and that value is a fixed
    point of the update, so more iterations would not come closer. *)
Lemma pressure_mass_round_trip_other_fixed_point :
  exists m r p',
    mass_from_pvt 9.9 20 500000 example_thermo = Some m /\
    pressure_from_mass m 20 500000 example_thermo = Some r /\
    r == 10.494 /\ r - 9.9 == 0.06 * 9.9 /\
    pressure_update example_thermo
      (m / molar_mass_H2_kg_per_mol example_thermo) (20 + 273.15) 500000
      (r * 1000000.0) = Some p' /\
    p' == r * 1000000.0.
Proof.
  destruct (mass_from_pvt 9.9 20 500000 example_thermo) as [m|] eqn:Em.
  2:{ vm_compute in Em. discriminate Em. }
  pose proof Em as Em'. vm_compute in Em'. injection Em' as <-.
  match type of Em with
  | _ = Some ?m0 =>
      destruct (pressure_from_mass m0 20 500000 example_thermo)
        as [r|] eqn:Er
  end.
  2:{ vm_compute in Er. discriminate Er. }
  pose proof Er as Er'. vm_compute in Er'. injection Er' as <-.
  match type of Er with
  | pressure_from_mass ?m0 _ _ _ = Some ?r0 =>
      destruct (pressure_update example_thermo
                  (m0 / molar_mass_H2_kg_per_mol example_thermo)
                  (20 + 273.15) 500000 (r0 * 1000000.0)) as [p'|] eqn:Ep
  end.
  2:{ vm_compute in Ep. discriminate Ep. }
  pose proof Ep as Ep'. vm_compute in Ep'. injection Ep' as <-.
  do 3 eexists. split; [reflexivity|]. split; [exact Er|].
  split; [vm_compute; reflexivity|]. split; [vm_compute; reflexivity|].
  split; [exact Ep|]. vm_compute. reflexivity.
Qed.

(** Claim C4, amended, at 12 MPa, 40 degrees C and 500000 m3, with the
    example table, whose factors lie between 1.0 and 1.13. *)
Lemma pressure_mass_round_trip_witness :
  exists m r zP p4 z4,
    mass_from_pvt 12 40 500000 example_thermo = Some m /\
    pressure_from_mass m 40 500000 example_thermo = Some r /\
    get_compressibility_z 12 example_thermo = Some zP /\
    for_range 4
      (pressure_update example_thermo
         (m / molar_mass_H2_kg_per_mol example_thermo) (40 + 273.15) 500000)
      10000000.0 = Some p4 /\
    get_compressibility_z (p4 / 1000000.0) example_thermo = Some z4 /\
    r == 12 * (z4 / zP) /\
    12 * (1.0 / 1.13) <= r <= 12 * (1.13 / 1.0).
Proof.
  apply (pressure_mass_round_trip 12 40 500000 1.0 1.13 example_thermo);
    try reflexivity; try (simpl; discriminate).
  intros seg [<- | [<- | [<- | []]]]; simpl; split; discriminate.
Defined.

(* ================================================================== *)
(** ** Proofs: the generator monad and the shape of one pass *)
(* ================================================================== *)

(* ---------- the monad ---------- *)
Lemma bind_inv {G A B} (m : M G A) (f : A -> M G B) g b g' :
  bind m f g = Some (b, g') ->
  exists a g1, m g = Some (a, g1) /\ f a g1 = Some (b, g').
Proof.
  unfold bind. destruct (m g) as [[a g1]|]; [|discriminate]. eauto.
Qed.

Lemma ret_inv {G A} (a b : A) (g g' : G) :
  ret a g = Some (b, g') -> b = a /\ g' = g.
Proof. unfold ret. intros [= -> ->]. auto. Qed.

Lemma lift_inv {G A} (o : option A) (g g' : G) a :
  lift o g = Some (a, g') -> o = Some a /\ g' = g.
Proof. unfold lift. destruct o; [|discriminate]. intros [= -> ->]. auto. Qed.

Tactic Notation "inv_bind" hyp(H) :=
  let a := fresh "a" in let g := fresh "g" in
  let E := fresh "E" in
  apply bind_inv in H; destruct H as (a & g & E & H).

Tactic Notation "inv_bind" hyp(H) "as" ident(a) ident(g) ident(E) :=
  apply bind_inv in H; destruct H as (a & g & E & H).

Ltac inv_ret H :=
  let E1 := fresh "Eret" in let E2 := fresh "Eret" in
  apply ret_inv in H; destruct H as [E1 E2]; subst;
  try (progress (inversion E1); subst; clear E1).

Lemma foldM_invariant {G A S} (f : A -> S -> M G S) (I : S -> Prop) l :
  (forall a s g s' g', In a l -> I s -> f a s g = Some (s', g') -> I s') ->
  forall s g s' g', I s -> foldM f l s g = Some (s', g') -> I s'.
Proof.
  induction l as [|a l IH]; intros Hstep s g s' g' Hs H; simpl in H.
  - inv_ret H. exact Hs.
  - inv_bind H. eapply IH; [| |exact H].
    + intros; eapply Hstep; eauto. right; assumption.
    + eapply Hstep; eauto. left; reflexivity.
Qed.

Section Sim.
Context {G : Type} `{Generator G}.
Variable year_of : Z -> Z.

Lemma active_cycle_inv fr cfg lc pc mp cap sl ts T st wg g wv g' :
  active_cycle fr cfg lc pc mp cap sl ts T st wg g = Some (wv, g') ->
  exists mode tf inj0 wdr0 lf p_in p_out g1 g2 g3 g4,
    choice_weighted mode_choices mp g = Some (mode, g1) /\
    rng_lognormal (relative_mean (injection_mass_kg (distributions cfg)))
        (relative_sigma (injection_mass_kg (distributions cfg))) g1
      = Some (tf, g2) /\
    let cf := ramp_cycle_fraction
                (cycle_mass_fraction_min (cycling cfg))
                (cycle_mass_fraction_max (cycling cfg))
                (max_relative_change_per_cycle (cycling cfg))
                (st_last_cycle_fraction st) tf in
    draw_flows mode (cap * cf) g2 = Some ((inj0, wdr0), g3) /\
    sample_loss_fraction lc g3 = Some (lf, g4) /\
    let dyn := compute_cycle_losses_kg wg lf in
    let res := clamp_inventory cap (wg + inj0 - wdr0 - dyn - sl) inj0 wdr0 in
    let eff := cycle_efficiency_of (snd (fst res)) (snd res) in
    wv = mkWeekVars (st_cycle_index st + 1) cf (fst (fst res))
           (snd (fst res)) (snd res) eff (Some p_in) (Some p_out)
           (dyn + sl)
           (st_cycle_records st ++
            [mkCycleRecord (facility_id fr) (st_cycle_index st + 1) ts
               (ts + 7) (snd (fst res)) (snd res) (dyn + sl) None T eff]).
Proof.
  unfold active_cycle. intros H0.
  inv_bind H0 as mode g1 Emode. inv_bind H0 as tf g2 Etf.
  inv_bind H0 as flows g3 Eflows. destruct flows as [inj0 wdr0].
  inv_bind H0 as lf g4 Elf.
  destruct (clamp_inventory _ _ _ _) as [[wg' inj'] wdr'] eqn:Ecl.
  inv_bind H0 as p_in g5 Ein. inv_bind H0 as p_out g6 Eout. inv_ret H0.
  exists mode, tf, inj0, wdr0, lf, p_in, p_out, g1, g2, g3, g4.
  split; [exact Emode|]. split; [exact Etf|]. cbv zeta.
  split; [exact Eflows|]. split; [exact Elf|].
  rewrite Ecl. reflexivity.
Qed.

(** The record a week appends, given what the iteration computed. *)
Lemma simulate_week_inv fr cfg th tn lc pc vc sched mp cap cush leak
      idx ts st g st' g' :
  simulate_week year_of fr cfg th tn lc pc vc sched mp cap cush leak
                (idx, ts) st g = Some (st', g') ->
  exists T g1 wv g2 p0 noise p_in p_out,
    (if week_is_active year_of sched idx ts
     then active_cycle fr cfg lc pc mp cap leak ts T st
            (py_max (st_working_gas_kg st - leak) 0) g1 = Some (wv, g2)
     else wv = inactive_week leak st
                 (py_max (st_working_gas_kg st - leak) 0)) /\
    pressure_from_mass (wv_working_gas_kg wv + cush) T
      (cavern_volume_m3 fr) th = Some p0 /\
    st' = mkLoopState (wv_working_gas_kg wv) (wv_last_cycle_fraction wv)
            (wv_cycle_index wv)
            (st_records st ++
             [mkWeeklyRecord (facility_id fr) ts
                (if week_is_active year_of sched idx ts
                 then wv_cycle_index wv else 0%Z)
                (week_is_active year_of sched idx ts)
                (wv_h2_injected_kg wv) (wv_h2_withdrawn_kg wv)
                (wv_working_gas_kg wv) cush
                (wv_total_cycle_losses_kg wv)
                (py_min (pressure_max_mpa fr + pressure_margin_mpa vc)
                   (py_max (pressure_min_mpa fr - pressure_margin_mpa vc)
                      (p0 + noise)))
                T p_in p_out (wv_cycle_efficiency wv)])
            (wv_cycle_records wv).
Proof.
  unfold simulate_week. intros H0.
  destruct (if String.eqb (facility_type fr) "salt_cavern" then _ else _)
    as [base_T grad].
  inv_bind H0 as T g1 ET. inv_bind H0 as wv g2 Ewv.
  inv_bind H0 as p0 g3 Ep. apply lift_inv in Ep. destruct Ep as [Ep ->].
  inv_bind H0 as noise g4 En.
  match type of H0 with
  | (let '(_, _) := ?x in _) _ = _ => destruct x as [p_in p_out]
  end.
  inv_ret H0.
  exists T, g1, wv, g2, p0, noise, p_in, p_out.
  split; [|split; [exact Ep | reflexivity]].
  destruct (week_is_active year_of sched idx ts).
  - exact Ewv.
  - inv_ret Ewv. reflexivity.
Qed.

Lemma simulate_facility_timeseries_inv fr cfg th tn lc pc vc ti sched g
      ts_df cycles g' :
  simulate_facility_timeseries year_of fr cfg th tn lc pc vc ti sched g
    = Some ((ts_df, cycles), g') ->
  exists cap cush g1 leak_year g2 st,
    _compute_facility_capacity_kg fr cfg th tn g = Some ((cap, cush), g1) /\
    _sample_uniform (static_leak_min_kg_per_year lc)
                    (static_leak_max_kg_per_year lc) g1
      = Some (leak_year, g2) /\
    foldM (simulate_week year_of fr cfg th tn lc pc vc sched
             (np_normalise
                [injection_heavy_fraction (cycling cfg);
                 withdrawal_heavy_fraction (cycling cfg);
                 balanced_fraction (cycling cfg)])
             cap cush (leak_year / 52.0))
          (enumerate ti)
          (mkLoopState (cap * 0.5) 0.1 0 [] []) g2 = Some (st, g') /\
    ts_df = st_records st /\
    cycles = fill_avg_pressure (st_records st) (st_cycle_records st).
Proof.
  unfold simulate_facility_timeseries. intros H0.
  inv_bind H0 as caps g1 Ecap. destruct caps as [cap cush].
  inv_bind H0 as leak_year g2 Eleak. inv_bind H0 as st g3 Eloop.
  inv_ret H0.
  exists cap, cush, g1, leak_year, g2, st. auto.
Qed.

Lemma capacity_nonneg fr cfg th tn g cap cush g' :
  _compute_facility_capacity_kg fr cfg th tn g = Some ((cap, cush), g') ->
  0 <= cap /\ 0 <= cush.
Proof.
  unfold _compute_facility_capacity_kg. intros H0.
  destruct (if String.eqb (facility_type fr) "salt_cavern" then _ else _)
    as [[[wf bT] gr] pm].
  inv_bind H0 as T g1 ET. inv_bind H0 as tot g2 Etot. inv_ret H0.
  split; py_cases; lra.
Qed.

(** Every record of a run was appended by one pass of the loop, so a
    property that each pass gives its record, from a state satisfying an
    invariant the passes keep, holds of all records. *)
Lemma records_of_loop (step : nat * Z -> LoopState -> M G LoopState)
      (I : LoopState -> Prop) (P : WeeklyRecord -> Prop) items :
  (forall it st g st' g', In it items -> I st ->
     step it st g = Some (st', g') ->
     I st' /\ exists r, st_records st' = st_records st ++ [r] /\ P r) ->
  forall st g st' g',
    I st -> Forall P (st_records st) ->
    foldM step items st g = Some (st', g') ->
    I st' /\ Forall P (st_records st').
Proof.
  intros Hstep st g st' g' HI HP Hrun.
  apply (foldM_invariant step
           (fun s => I s /\ Forall P (st_records s)) items)
    with (s := st) (g := g) (g' := g'); auto.
  intros it s g0 s' g0' Hin [HIs HPs] E.
  destruct (Hstep _ _ _ _ _ Hin HIs E) as (HI' & r & -> & Hr).
  split; [exact HI'|]. apply Forall_app. split; [exact HPs|].
  constructor; [exact Hr | constructor].
Qed.

Lemma records_of_run (step : nat * Z -> LoopState -> M G LoopState)
      (I : LoopState -> Prop) (P : WeeklyRecord -> Prop) items
      st g st' g' :
  foldM step items st g = Some (st', g') ->
  st_records st = [] ->
  I st ->
  (forall it s g0 s' g0', In it items -> I s ->
     step it s g0 = Some (s', g0') ->
     I s' /\ exists r, st_records s' = st_records s ++ [r] /\ P r) ->
  Forall P (st_records st').
Proof.
  intros Hrun Hnil HI Hstep.
  refine (proj2 (records_of_loop step I P items Hstep st g st' g' HI _ Hrun)).
  rewrite Hnil. constructor.
Qed.
End Sim.

(* ================================================================== *)
(** ** Proofs: invariants of the records of a run *)
(* ================================================================== *)

Lemma clamp_inventory_bounds cap x i w :
  0 <= cap ->
  0 <= fst (fst (clamp_inventory cap x i w)) <= cap.
Proof.
  intros Hcap. unfold clamp_inventory.
  destruct (Qlt_bool_spec x 0).
  - destruct (Qlt_bool_spec cap 0); simpl; lra.
  - destruct (Qlt_bool_spec cap x); simpl; lra.
Qed.

Lemma clamp_inventory_injected_nonneg cap x i w :
  0 <= i -> 0 <= snd (fst (clamp_inventory cap x i w)).
Proof.
  intros Hi. unfold clamp_inventory.
  destruct (Qlt_bool_spec x 0).
  - destruct (Qlt_bool_spec cap 0); simpl; [|exact Hi].
    py_cases; lra.
  - destruct (Qlt_bool_spec cap x); simpl; [|exact Hi].
    py_cases; lra.
Qed.

Lemma ramp_cycle_fraction_lower lo hi md last tf :
  lo <= ramp_cycle_fraction lo hi md last tf.
Proof. unfold ramp_cycle_fraction. py_cases; lra. Qed.

Lemma cycle_efficiency_of_spec i w :
  0 <= i ->
  (i == 0 -> cycle_efficiency_of i w = None) /\
  (~ i == 0 -> cycle_efficiency_of i w = Some (w / i)).
Proof.
  intros Hi. unfold cycle_efficiency_of.
  destruct (Qlt_bool_spec 0 i); split; intros; try reflexivity; lra.
Qed.

Lemma compute_cycle_losses_kg_nonneg wg lf :
  0 <= compute_cycle_losses_kg wg lf.
Proof.
  unfold compute_cycle_losses_kg.
  destruct (Qle_bool wg 0 || Qle_bool lf 0); [lra|]. py_cases; lra.
Qed.

Lemma last_record_snoc l r : last_record (l ++ [r]) = Some r.
Proof.
  unfold last_record. rewrite length_app. simpl.
  replace (length l + 1 - 1)%nat with (length l + 0)%nat by lia.
  rewrite nth_error_app2 by lia.
  replace (length l + 0 - length l)%nat with 0%nat by lia. reflexivity.
Qed.

Lemma nth_error_snoc_pair {A} (l : list A) (x : A) k a b :
  nth_error (l ++ [x]) k = Some a ->
  nth_error (l ++ [x]) (S k) = Some b ->
  (nth_error l k = Some a /\ nth_error l (S k) = Some b) \/
  (nth_error l (length l - 1) = Some a /\ l <> [] /\ b = x
   /\ S k = length l).
Proof.
  intros Ha Hb.
  destruct (Nat.lt_ge_cases (S k) (length l)) as [Hlt | Hge].
  - left. rewrite nth_error_app1 in Ha by lia.
    rewrite nth_error_app1 in Hb by lia. auto.
  - right.
    assert (Hk : (S k < length (l ++ [x]))%nat)
      by (apply nth_error_Some; congruence).
    rewrite length_app in Hk. simpl in Hk.
    assert (Ek : S k = length l) by lia.
    rewrite nth_error_app1 in Ha by lia.
    rewrite nth_error_app2 in Hb by lia.
    replace (S k - length l)%nat with 0%nat in Hb by lia.
    simpl in Hb. injection Hb as <-.
    replace (length l - 1)%nat with k by lia.
    repeat split; auto. destruct l; simpl in *; [lia | congruence].
Qed.

Section Run.
Context {G : Type} `{Generator G}.
Variable year_of : Z -> Z.

(** Claim C8.  Every weekly record of a facility carries the cushion-gas
    mass that [_compute_facility_capacity_kg] returned before the loop: the
    loop state has no cushion-gas field and no pass changes it. *)
Theorem cushion_gas_constant fr cfg th tn lc pc vc ti sched g
      ts_df cycles g' :
  simulate_facility_timeseries year_of fr cfg th tn lc pc vc ti sched g
    = Some ((ts_df, cycles), g') ->
  exists cap cush g1,
    _compute_facility_capacity_kg fr cfg th tn g = Some ((cap, cush), g1) /\
    forall r, In r ts_df -> ts_cushion_gas_kg r = cush.
Proof.
  intros Hrun.
  destruct (simulate_facility_timeseries_inv _ _ _ _ _ _ _ _ _ _ _ _ _ _ Hrun)
    as (cap & cush & g1 & ly & g2 & st & Ecap & _ & Eloop & -> & _).
  exists cap, cush, g1. split; [exact Ecap|].
  apply Forall_forall.
  apply (records_of_run _ (fun _ => True)
           (fun r => ts_cushion_gas_kg r = cush) _ _ _ _ _ Eloop);
    [reflexivity | exact I |].
  intros [idx ts] s g0 s' g0' _ _ E. split; [exact I|].
  destruct (simulate_week_inv _ _ _ _ _ _ _ _ _ _ _ _ _ _ _ _ _ _ _ E)
    as (T & g3 & wv & g4 & p0 & nz & pin & pout & _ & _ & ->).
  eexists. split; [reflexivity|]. reflexivity.
Qed.

Context `{!GeneratorLaws G}.

Lemma static_leak_nonneg (lc : LossConfig) g ly g' :
  0 <= static_leak_min_kg_per_year lc ->
  static_leak_min_kg_per_year lc <= static_leak_max_kg_per_year lc ->
  _sample_uniform (static_leak_min_kg_per_year lc)
                  (static_leak_max_kg_per_year lc) g = Some (ly, g') ->
  0 <= ly / 52.0.
Proof.
  intros H0 H1 E. unfold _sample_uniform in E.
  apply rng_uniform_range in E; [|exact H1].
  apply Qle_shift_div_l; lra.
Qed.

(** Claim C1.  For every weekly record that [simulate_facility_timeseries]
    produces, the recorded working gas lies between 0 and the working-gas
    capacity that [_compute_facility_capacity_kg] returned before the loop.
    The configured static leak range is taken non-negative, as a leak rate
    is: a negative leak would let an inactive week, which is never clamped
    from above, push the inventory over the capacity. *)
Theorem working_gas_within_capacity fr cfg th tn lc pc vc ti sched g
      ts_df cycles g' :
  0 <= static_leak_min_kg_per_year lc ->
  static_leak_min_kg_per_year lc <= static_leak_max_kg_per_year lc ->
  simulate_facility_timeseries year_of fr cfg th tn lc pc vc ti sched g
    = Some ((ts_df, cycles), g') ->
  exists cap cush g1,
    _compute_facility_capacity_kg fr cfg th tn g = Some ((cap, cush), g1) /\
    forall r, In r ts_df -> 0 <= ts_working_gas_kg r <= cap.
Proof.
  intros Hl0 Hl1 Hrun.
  destruct (simulate_facility_timeseries_inv _ _ _ _ _ _ _ _ _ _ _ _ _ _ Hrun)
    as (cap & cush & g1 & ly & g2 & st & Ecap & Eleak & Eloop & -> & _).
  exists cap, cush, g1. split; [exact Ecap|].
  destruct (capacity_nonneg _ _ _ _ _ _ _ _ Ecap) as [Hcap _].
  pose proof (static_leak_nonneg _ _ _ _ Hl0 Hl1 Eleak) as Hleak.
  apply Forall_forall.
  apply (records_of_run _
            (fun s => 0 <= st_working_gas_kg s <= cap)
            (fun r => 0 <= ts_working_gas_kg r <= cap) _ _ _ _ _ Eloop);
    [reflexivity | simpl; lra |].
  intros [idx ts] s g0 s' g0' _ Hs E.
  destruct (simulate_week_inv _ _ _ _ _ _ _ _ _ _ _ _ _ _ _ _ _ _ _ E)
    as (T & g3 & wv & g4 & p0 & nz & pin & pout & Hwv & _ & ->).
  assert (Hb : 0 <= wv_working_gas_kg wv <= cap).
  { destruct (week_is_active year_of sched idx ts).
    - destruct (active_cycle_inv _ _ _ _ _ _ _ _ _ _ _ _ _ _ Hwv)
        as (mode & tf & inj0 & wdr0 & lf & p_in & p_out & g5 & g6 & g7
            & g8 & _ & _ & _ & _ & ->).
      simpl. apply clamp_inventory_bounds. exact Hcap.
    - subst wv. simpl. py_cases; lra. }
  split; [exact Hb|]. eexists. split; [reflexivity|]. exact Hb.
Qed.

Lemma draw_flows_nonneg mode tm g i w g' :
  0 <= tm ->
  draw_flows mode tm g = Some ((i, w), g') -> 0 <= i /\ 0 <= w.
Proof.
  intros Htm. unfold draw_flows.
  destruct (String.eqb mode "injection_heavy");
    [|destruct (String.eqb mode "withdrawal_heavy")]; intros E;
    inv_bind E as u g1 Eu; inv_ret E;
    try (apply rng_uniform_range in Eu; [|lra]).
  - split; [lra | nra].
  - split; [nra | lra].
  - split; py_cases; lra.
Qed.

(** Claim C7.  With a non-negative lower bound on the cycle-mass
    fraction, in every weekly record and every cycle record of a run the
    efficiency is [nan] exactly when the recorded (post-clamping) injected
    mass is 0, and is withdrawn / injected otherwise. *)
Theorem cycle_efficiency_nan_iff_no_injection fr cfg th tn lc pc vc ti
      sched g ts_df cycles g' :
  0 <= cycle_mass_fraction_min (cycling cfg) ->
  simulate_facility_timeseries year_of fr cfg th tn lc pc vc ti sched g
    = Some ((ts_df, cycles), g') ->
  (forall r, In r ts_df ->
     (ts_cycle_efficiency r = None <-> ts_h2_injected_kg r == 0) /\
     (~ ts_h2_injected_kg r == 0 ->
      ts_cycle_efficiency r
      = Some (ts_h2_withdrawn_kg r / ts_h2_injected_kg r))) /\
  (forall c, In c cycles ->
     (cy_cycle_efficiency c = None <-> cy_total_injected_kg c == 0) /\
     (~ cy_total_injected_kg c == 0 ->
      cy_cycle_efficiency c
      = Some (cy_total_withdrawn_kg c / cy_total_injected_kg c))).
Proof.
  intros Hmin Hrun.
  destruct (simulate_facility_timeseries_inv _ _ _ _ _ _ _ _ _ _ _ _ _ _ Hrun)
    as (cap & cush & g1 & ly & g2 & st & Ecap & Eleak & Eloop & -> & ->).
  destruct (capacity_nonneg _ _ _ _ _ _ _ _ Ecap) as [Hcap _].
  assert (Heff : forall i w, 0 <= i ->
            (cycle_efficiency_of i w = None <-> i == 0) /\
            (~ i == 0 -> cycle_efficiency_of i w = Some (w / i))).
  { intros i w Hi. destruct (cycle_efficiency_of_spec i w Hi) as [A B].
    split; [split|exact B]; [|exact A].
    intros E. destruct (Qeq_bool_spec i 0) as [Hz|Hz]; [exact Hz|].
    rewrite (B Hz) in E. discriminate. }
  set (Pr := fun r =>
     (ts_cycle_efficiency r = None <-> ts_h2_injected_kg r == 0) /\
     (~ ts_h2_injected_kg r == 0 ->
      ts_cycle_efficiency r
      = Some (ts_h2_withdrawn_kg r / ts_h2_injected_kg r))).
  set (Pc := fun c =>
     (cy_cycle_efficiency c = None <-> cy_total_injected_kg c == 0) /\
     (~ cy_total_injected_kg c == 0 ->
      cy_cycle_efficiency c
      = Some (cy_total_withdrawn_kg c / cy_total_injected_kg c))).
  assert (Hall : Forall Pc (st_cycle_records st) /\ Forall Pr (st_records st)).
  { refine (foldM_invariant _
      (fun s => Forall Pc (st_cycle_records s) /\ Forall Pr (st_records s))
      _ _ _ _ _ _ _ Eloop); [|simpl; split; constructor].
    intros [idx ts] s g0 s' g0' _ [HPc HPr] E.
    destruct (simulate_week_inv _ _ _ _ _ _ _ _ _ _ _ _ _ _ _ _ _ _ _ E)
      as (T & g3 & wv & g4 & p0 & nz & pin & pout & Hwv & _ & ->).
    simpl.
    destruct (week_is_active year_of sched idx ts).
    - destruct (active_cycle_inv _ _ _ _ _ _ _ _ _ _ _ _ _ _ Hwv)
        as (mode & tf & inj0 & wdr0 & lf & p_in & p_out & g5 & g6 & g7
            & g8 & _ & _ & Hfl & _ & ->).
      simpl.
      assert (Hinj : 0 <= snd (fst (clamp_inventory cap
                 (py_max (st_working_gas_kg s - ly / 52.0) 0 + inj0 - wdr0
                  - compute_cycle_losses_kg
                      (py_max (st_working_gas_kg s - ly / 52.0) 0) lf
                  - ly / 52.0) inj0 wdr0))).
      { apply clamp_inventory_injected_nonneg.
        apply draw_flows_nonneg in Hfl; [tauto|].
        pose proof (ramp_cycle_fraction_lower
          (cycle_mass_fraction_min (cycling cfg))
          (cycle_mass_fraction_max (cycling cfg))
          (max_relative_change_per_cycle (cycling cfg))
          (st_last_cycle_fraction s) tf). nra. }
      split; apply Forall_app; (split; [assumption|]);
        (constructor; [|constructor]); apply Heff; exact Hinj.
    - subst wv. simpl. split; [exact HPc|].
      apply Forall_app. split; [exact HPr|].
      constructor; [|constructor]. unfold Pr. simpl.
      split; [split; intros; reflexivity|]. intros C. exfalso. apply C.
      reflexivity. }
  destruct Hall as [HPc HPr]. split.
  - apply Forall_forall. exact HPr.
  - intros c Hc. unfold fill_avg_pressure in Hc. apply in_map_iff in Hc.
    destruct Hc as (c0 & <- & Hc0).
    rewrite Forall_forall in HPc. exact (HPc _ Hc0).
Qed.

(** Claim C10.  Every weekly record reports the full weekly static leak
    as losses, alone on an inactive week and added to the non-negative
    dynamic losses on an active one.  On an inactive week the inventory is
    the previous record's minus the leak, floored at 0; when the previous
    inventory was below the leak, the recorded losses are strictly more
    than the mass that left the storage. *)
Theorem weekly_losses_include_full_static_leak fr cfg th tn lc pc vc ti
      sched g ts_df cycles g' :
  simulate_facility_timeseries year_of fr cfg th tn lc pc vc ti sched g
    = Some ((ts_df, cycles), g') ->
  exists cap cush g1 leak_year g2,
    _compute_facility_capacity_kg fr cfg th tn g = Some ((cap, cush), g1) /\
    _sample_uniform (static_leak_min_kg_per_year lc)
                    (static_leak_max_kg_per_year lc) g1
      = Some (leak_year, g2) /\
    (forall r, In r ts_df ->
       if ts_is_cycle_active r
       then exists dyn, 0 <= dyn /\ ts_losses_kg r = dyn + leak_year / 52.0
       else ts_losses_kg r = leak_year / 52.0) /\
    (forall k r_prev r,
       nth_error ts_df k = Some r_prev ->
       nth_error ts_df (S k) = Some r ->
       ts_is_cycle_active r = false ->
       ts_working_gas_kg r
       = py_max (ts_working_gas_kg r_prev - leak_year / 52.0) 0 /\
       (ts_working_gas_kg r_prev < leak_year / 52.0 ->
        ts_working_gas_kg r_prev - ts_working_gas_kg r < ts_losses_kg r)).
Proof.
  intros Hrun.
  destruct (simulate_facility_timeseries_inv _ _ _ _ _ _ _ _ _ _ _ _ _ _ Hrun)
    as (cap & cush & g1 & ly & g2 & st & Ecap & Eleak & Eloop & -> & _).
  exists cap, cush, g1, ly, g2. split; [exact Ecap|]. split; [exact Eleak|].
  set (leak := ly / 52.0) in *.
  set (Pr := fun r =>
       if ts_is_cycle_active r
       then exists dyn, 0 <= dyn /\ ts_losses_kg r = dyn + leak
       else ts_losses_kg r = leak).
  set (Adj := fun l : list WeeklyRecord =>
     forall k r_prev r,
       nth_error l k = Some r_prev ->
       nth_error l (S k) = Some r ->
       ts_is_cycle_active r = false ->
       ts_working_gas_kg r = py_max (ts_working_gas_kg r_prev - leak) 0 /\
       (ts_working_gas_kg r_prev < leak ->
        ts_working_gas_kg r_prev - ts_working_gas_kg r < ts_losses_kg r)).
  assert (Hall : (forall r, last_record (st_records st) = Some r ->
                    st_records st <> [] ->
                    ts_working_gas_kg r = st_working_gas_kg st) /\
                 Forall Pr (st_records st) /\ Adj (st_records st)).
  { refine (foldM_invariant _
      (fun s => (forall r, last_record (st_records s) = Some r ->
                    st_records s <> [] ->
                    ts_working_gas_kg r = st_working_gas_kg s) /\
                Forall Pr (st_records s) /\ Adj (st_records s))
      _ _ _ _ _ _ _ Eloop).
    2:{ simpl. split; [intros r _ C; congruence|]. split; [constructor|].
        intros k rp r Hk. destruct k; discriminate. }
    intros [idx ts] s g0 s' g0' _ (Hlast & HPr & HAdj) E.
    destruct (simulate_week_inv _ _ _ _ _ _ _ _ _ _ _ _ _ _ _ _ _ _ _ E)
      as (T & g3 & wv & g4 & p0 & nz & pin & pout & Hwv & _ & ->).
    simpl. split; [|split].
    - intros r Hr _. rewrite last_record_snoc in Hr. injection Hr as <-.
      reflexivity.
    - apply Forall_app. split; [exact HPr|]. constructor; [|constructor].
      unfold Pr. simpl.
      destruct (week_is_active year_of sched idx ts).
      + destruct (active_cycle_inv _ _ _ _ _ _ _ _ _ _ _ _ _ _ Hwv)
          as (mode & tf & inj0 & wdr0 & lf & p_in & p_out & g5 & g6 & g7
              & g8 & _ & _ & _ & _ & ->).
        simpl. eexists. split; [apply compute_cycle_losses_kg_nonneg|].
        reflexivity.
      + subst wv. reflexivity.
    - intros k rp r Hk HSk Hact.
      destruct (nth_error_snoc_pair _ _ _ _ _ Hk HSk)
        as [[A B] | (A & Hne & -> & _)].
      + exact (HAdj _ _ _ A B Hact).
      + simpl in Hact. rewrite Hact in Hwv. subst wv. simpl.
        rewrite (Hlast rp A Hne).
        split; [reflexivity|]. intros Hlt. py_cases; lra. }
  destruct Hall as (_ & HPr & HAdj). split.
  - apply Forall_forall. exact HPr.
  - exact HAdj.
Qed.
End Run.

(* ================================================================== *)
(** ** Proofs: the ramp and the clamp of an active week *)
(* ================================================================== *)

Lemma ramp_cycle_fraction_clipped lo hi md last tf :
  let f := ramp_cycle_fraction lo hi md last tf in
  lo <= f /\ (lo <= hi -> f <= hi) /\ (hi < lo -> f == lo).
Proof. unfold ramp_cycle_fraction. cbv zeta. py_cases; repeat split; intros; lra. Qed.

Lemma ramp_step_bounded lo hi md last tf :
  0 <= md ->
  lo <= last -> (lo <= hi -> last <= hi) -> (hi < lo -> last == lo) ->
  Qabs_py (ramp_cycle_fraction lo hi md last tf - last) <= md.
Proof.
  intros Hmd H1 H2 H3. unfold ramp_cycle_fraction, Qabs_py.
  destruct (Qlt_le_dec hi lo) as [Hc|Hc].
  - specialize (H3 Hc). py_cases; lra.
  - specialize (H2 Hc). py_cases; lra.
Qed.

Lemma ramp_step_bounded_or_reclipped lo hi md last tf :
  0 <= md ->
  Qabs_py (ramp_cycle_fraction lo hi md last tf - last) <= md \/
  ~ ramp_cycle_fraction lo hi md last tf
    == ramp_before_reclip lo hi md last tf.
Proof.
  intros Hmd.
  destruct (Qeq_dec (ramp_cycle_fraction lo hi md last tf)
                    (ramp_before_reclip lo hi md last tf)) as [E|E];
    [left | right; exact E].
  set (d := py_max (- md) (py_min (py_max lo (py_min tf hi) - last) md)).
  assert (Hd : - md <= d <= md) by (unfold d; py_cases; lra).
  assert (E' : ramp_before_reclip lo hi md last tf == last + d)
    by (unfold ramp_before_reclip, d; ring).
  rewrite E' in E. clearbody d.
  set (f := ramp_cycle_fraction lo hi md last tf) in *. clearbody f.
  unfold Qabs_py. destruct (Qlt_bool_spec (f - last) 0); lra.
Qed.

Section Steps.
Context {G : Type} `{Generator G}.
Variable year_of : Z -> Z.

(** Claim C2.  On an active week, with [inj0] and [wdr0] the flows drawn
    by [draw_flows] and [result] the inventory after the net update
    [wg + inj0 - wdr0 - dynamic_losses - static_leak], the recorded values
    are those of the specification's policy [spec_clamp_outcome]: below 0,
    the withdrawal alone loses [min(deficit, withdrawn)] and the inventory
    is 0; above the capacity, the injection alone loses
    [min(excess, injected)] and the inventory is the capacity.  The two
    tests are sequential in the source; they never both fire because the
    capacity computed by [_compute_facility_capacity_kg] is not negative.
    The flows are the ones the cycle draws from its own generator state,
    in the order of the source: mode, target fraction, flows, loss
    fraction. *)
Theorem clamp_order_and_asymmetry fr cfg th tn lc pc mp sl ts T st wg
      g0 cap cush g0' g wv g' :
  _compute_facility_capacity_kg fr cfg th tn g0 = Some ((cap, cush), g0') ->
  active_cycle fr cfg lc pc mp cap sl ts T st wg g = Some (wv, g') ->
  exists mode tf inj0 wdr0 lf g1 g2 g3 g4,
    choice_weighted mode_choices mp g = Some (mode, g1) /\
    rng_lognormal (relative_mean (injection_mass_kg (distributions cfg)))
        (relative_sigma (injection_mass_kg (distributions cfg))) g1
      = Some (tf, g2) /\
    draw_flows mode
      (cap * ramp_cycle_fraction
               (cycle_mass_fraction_min (cycling cfg))
               (cycle_mass_fraction_max (cycling cfg))
               (max_relative_change_per_cycle (cycling cfg))
               (st_last_cycle_fraction st) tf) g2
      = Some ((inj0, wdr0), g3) /\
    sample_loss_fraction lc g3 = Some (lf, g4) /\
    spec_clamp_outcome cap
      (wg + inj0 - wdr0 - compute_cycle_losses_kg wg lf - sl) inj0 wdr0
      (wv_working_gas_kg wv) (wv_h2_injected_kg wv)
      (wv_h2_withdrawn_kg wv).
Proof.
  intros Ecap Hact.
  destruct (capacity_nonneg _ _ _ _ _ _ _ _ Ecap) as [Hcap _].
  destruct (active_cycle_inv _ _ _ _ _ _ _ _ _ _ _ _ _ _ Hact)
    as (mode & tf & inj0 & wdr0 & lf & p_in & p_out & g1 & g2 & g3 & g4
        & Emode & Etf & Hfl & Elf & ->).
  exists mode, tf, inj0, wdr0, lf, g1, g2, g3, g4.
  split; [exact Emode|].
  split; [exact Etf|]. split; [exact Hfl|]. split; [exact Elf|].
  unfold spec_clamp_outcome. simpl.
  set (result := wg + inj0 - wdr0 - compute_cycle_losses_kg wg lf - sl).
  unfold clamp_inventory.
  destruct (Qlt_bool_spec result 0) as [Hneg|Hpos].
  - destruct (Qlt_bool_spec cap 0) as [C|_]; [lra|]. simpl.
    repeat split; intros; try reflexivity; lra.
  - destruct (Qlt_bool_spec cap result) as [Hov|Hin]; simpl;
      repeat split; intros; try reflexivity; lra.
Qed.

(** Claim C5.  With a non-negative [per_cycle] limit, an active week run
    from any state the loop can reach moves the applied fraction by at most
    the limit whenever a cycle has already been applied (two consecutive
    active cycles): the previous fraction then already lies in the clip
    range, so the second clip changes nothing.  Measured against any
    previous value, the seed 0.1 of the first cycle included, the move is
    within the limit unless the clip to [cap_min_frac, cap_max_frac]
    changed the capped value: the exception the claim allows. *)
Theorem cycle_fraction_ramp_bound fr cfg th tn lc pc vc sched mp cap cush
      leak idx ts st g st' g' :
  0 <= max_relative_change_per_cycle (cycling cfg) ->
  loop_reachable year_of fr cfg th tn lc pc vc sched mp cap cush leak st ->
  week_is_active year_of sched idx ts = true ->
  simulate_week year_of fr cfg th tn lc pc vc sched mp cap cush leak
                (idx, ts) st g = Some (st', g') ->
  ((1 <= st_cycle_index st)%Z ->
   Qabs_py (st_last_cycle_fraction st' - st_last_cycle_fraction st)
   <= max_relative_change_per_cycle (cycling cfg)) /\
  exists tf,
    st_last_cycle_fraction st'
    = ramp_cycle_fraction (cycle_mass_fraction_min (cycling cfg))
        (cycle_mass_fraction_max (cycling cfg))
        (max_relative_change_per_cycle (cycling cfg))
        (st_last_cycle_fraction st) tf /\
    (Qabs_py (st_last_cycle_fraction st' - st_last_cycle_fraction st)
     <= max_relative_change_per_cycle (cycling cfg) \/
     ~ st_last_cycle_fraction st'
       == ramp_before_reclip (cycle_mass_fraction_min (cycling cfg))
            (cycle_mass_fraction_max (cycling cfg))
            (max_relative_change_per_cycle (cycling cfg))
            (st_last_cycle_fraction st) tf).
Proof.
  intros Hmd Hreach Hact E.
  set (lo := cycle_mass_fraction_min (cycling cfg)).
  set (hi := cycle_mass_fraction_max (cycling cfg)).
  set (md := max_relative_change_per_cycle (cycling cfg)) in *.
  assert (Hinv : (1 <= st_cycle_index st)%Z ->
            lo <= st_last_cycle_fraction st /\
            (lo <= hi -> st_last_cycle_fraction st <= hi) /\
            (hi < lo -> st_last_cycle_fraction st == lo)).
  { clear E Hact. induction Hreach as [|s [i t] g1 s' g1' Hr IH Es].
    - simpl. lia.
    - destruct (simulate_week_inv _ _ _ _ _ _ _ _ _ _ _ _ _ _ _ _ _ _ _ Es)
        as (T & g3 & wv & g4 & p0 & nz & pin & pout & Hwv & _ & ->).
      simpl. destruct (week_is_active year_of sched i t).
      + destruct (active_cycle_inv _ _ _ _ _ _ _ _ _ _ _ _ _ _ Hwv)
          as (mode & tf & inj0 & wdr0 & lf & p_in & p_out & g5 & g6 & g7
              & g8 & _ & _ & _ & _ & ->).
        simpl. intros _. apply ramp_cycle_fraction_clipped.
      + subst wv. simpl. exact IH. }
  destruct (simulate_week_inv _ _ _ _ _ _ _ _ _ _ _ _ _ _ _ _ _ _ _ E)
    as (T & g3 & wv & g4 & p0 & nz & pin & pout & Hwv & _ & ->).
  rewrite Hact in Hwv.
  destruct (active_cycle_inv _ _ _ _ _ _ _ _ _ _ _ _ _ _ Hwv)
    as (mode & tf & inj0 & wdr0 & lf & p_in & p_out & g5 & g6 & g7
        & g8 & _ & _ & _ & _ & ->).
  simpl. split.
  - intros Hci. destruct (Hinv Hci) as (H1 & H2 & H3).
    apply ramp_step_bounded; assumption.
  - exists tf. split; [reflexivity|].
    apply ramp_step_bounded_or_reclipped. exact Hmd.
Qed.

Lemma foldM_reachable fr cfg th tn lc pc vc sched mp cap cush leak :
  forall items st g st' g',
    loop_reachable year_of fr cfg th tn lc pc vc sched mp cap cush leak st ->
    foldM (simulate_week year_of fr cfg th tn lc pc vc sched mp cap cush
             leak) items st g = Some (st', g') ->
    loop_reachable year_of fr cfg th tn lc pc vc sched mp cap cush leak st'.
Proof.
  induction items as [|it items IH]; intros st g st' g' Hr E; simpl in E.
  - inv_ret E. exact Hr.
  - inv_bind E as s1 g1 E1. apply (IH _ _ _ _ (reach_week _ _ _ _ _ _ _ _ _
      _ _ _ _ _ _ _ _ _ Hr E1) E).
Qed.
End Steps.

(* ================================================================== *)
(** ** Proofs: year dictionaries, sorting and the time index *)
(* ================================================================== *)

(* ---------- dictionaries ---------- *)
Lemma dict_get_In {V} y (d : YearDict V) v :
  dict_get y d = Some v -> In (y, v) d.
Proof.
  induction d as [|[k w] d IH]; simpl; [discriminate|].
  destruct (Z.eqb_spec k y) as [->|Hne].
  - intros [= ->]. left. reflexivity.
  - intros E. right. exact (IH E).
Qed.

Lemma dict_get_set_same {V} y (v : V) d : dict_get y (dict_set y v d) = Some v.
Proof.
  induction d as [|[k w] d IH]; simpl.
  - rewrite Z.eqb_refl. reflexivity.
  - destruct (Z.eqb_spec k y) as [->|Hne]; simpl.
    + rewrite Z.eqb_refl. reflexivity.
    + destruct (Z.eqb_spec k y); [contradiction|]. exact IH.
Qed.

Lemma dict_get_set_other {V} y y' (v : V) d :
  y' <> y -> dict_get y' (dict_set y v d) = dict_get y' d.
Proof.
  intros Hne. induction d as [|[k w] d IH]; simpl.
  - destruct (Z.eqb_spec y y'); [congruence | reflexivity].
  - destruct (Z.eqb_spec k y) as [->|Hk]; simpl.
    + destruct (Z.eqb_spec y y'); [congruence | reflexivity].
    + destruct (Z.eqb_spec k y'); [reflexivity | exact IH].
Qed.

Lemma dict_get_setdefault_same y idx d :
  dict_get y (setdefault_append y idx d)
  = Some (match dict_get y d with Some l => l | None => [] end ++ [idx]).
Proof.
  induction d as [|[k l] d IH]; simpl.
  - rewrite Z.eqb_refl. reflexivity.
  - destruct (Z.eqb_spec k y) as [->|Hk]; simpl.
    + rewrite Z.eqb_refl. reflexivity.
    + destruct (Z.eqb_spec k y); [contradiction|]. exact IH.
Qed.

Lemma dict_get_setdefault_other y y' idx d :
  y' <> y -> dict_get y' (setdefault_append y idx d) = dict_get y' d.
Proof.
  intros Hne. induction d as [|[k l] d IH]; simpl.
  - destruct (Z.eqb_spec y y'); [congruence | reflexivity].
  - destruct (Z.eqb_spec k y) as [->|Hk]; simpl.
    + destruct (Z.eqb_spec y y'); [congruence | reflexivity].
    + destruct (Z.eqb_spec k y'); [reflexivity | exact IH].
Qed.

Lemma setdefault_append_keys y idx d :
  map fst (setdefault_append y idx d) = map fst d \/
  (~ In y (map fst d) /\ map fst (setdefault_append y idx d) = map fst d ++ [y]).
Proof.
  induction d as [|[k l] d IH]; simpl.
  - right. auto.
  - destruct (Z.eqb_spec k y) as [->|Hk]; simpl; [left; reflexivity|].
    destruct IH as [E | [Hn E]]; [left | right]; rewrite E; auto.
    split; [|reflexivity]. intros [C|C]; [congruence | contradiction].
Qed.

Lemma setdefault_append_NoDup y idx d :
  NoDup (map fst d) -> NoDup (map fst (setdefault_append y idx d)).
Proof.
  intros Hnd. destruct (setdefault_append_keys y idx d) as [E | [Hn E]];
    rewrite E; [exact Hnd|].
  apply NoDup_app; [exact Hnd | repeat constructor; intros [] | ].
  intros x Hx [<- | []]. contradiction.
Qed.

Lemma In_dict_get {V} y (d : YearDict V) v :
  NoDup (map fst d) -> In (y, v) d -> dict_get y d = Some v.
Proof.
  induction d as [|[k w] d IH]; simpl; [contradiction|].
  intros Hnd [E | Hin].
  - injection E as -> ->. rewrite Z.eqb_refl. reflexivity.
  - inversion Hnd as [|? ? Hk Hnd']; subst.
    destruct (Z.eqb_spec k y) as [->|Hne]; [|exact (IH Hnd' Hin)].
    exfalso. apply Hk. apply in_map_iff. exists (y, v). auto.
Qed.

(* ---------- sorting ---------- *)
Lemma insert_sorted_perm x l : Permutation (insert_sorted x l) (x :: l).
Proof.
  induction l as [|y l IH]; simpl; [reflexivity|].
  destruct (Nat.leb x y); [reflexivity|].
  rewrite IH. apply perm_swap.
Qed.

Lemma sort_indices_perm l : Permutation (sort_indices l) l.
Proof.
  induction l as [|x l IH]; simpl; [reflexivity|].
  rewrite insert_sorted_perm. constructor. exact IH.
Qed.

Lemma index_in_iff idx l : index_in idx l = true <-> In idx l.
Proof.
  unfold index_in. rewrite existsb_exists. split.
  - intros (x & Hx & E). apply Nat.eqb_eq in E. subst. exact Hx.
  - intros Hin. exists idx. split; [exact Hin | apply Nat.eqb_refl].
Qed.

(* ---------- the time index ---------- *)
Lemma generate_time_index_length start n :
  length (generate_time_index start n) = Z.to_nat (n * 52).
Proof. unfold generate_time_index. rewrite length_map, length_seq. reflexivity. Qed.

Lemma generate_time_index_nth start n idx t :
  nth_error (generate_time_index start n) idx = Some t ->
  t = (start + 7 * Z.of_nat idx)%Z /\ (idx < Z.to_nat (n * 52))%nat.
Proof.
  intros E.
  assert (Hlt : (idx < length (generate_time_index start n))%nat)
    by (apply nth_error_Some; rewrite E; discriminate).
  rewrite generate_time_index_length in Hlt.
  unfold generate_time_index in E.
  split; [|exact Hlt].
  rewrite nth_error_map in E.
  rewrite nth_error_seq in E.
  destruct (Nat.ltb_spec idx (Z.to_nat (n * 52))); [|lia].
  simpl in E. injection E as <-. reflexivity.
Qed.

Lemma generate_time_index_nth_inv start n idx :
  (idx < Z.to_nat (n * 52))%nat ->
  nth_error (generate_time_index start n) idx
  = Some (start + 7 * Z.of_nat idx)%Z.
Proof.
  intros Hlt. unfold generate_time_index.
  rewrite nth_error_map, nth_error_seq.
  destruct (Nat.ltb_spec idx (Z.to_nat (n * 52))); [reflexivity | lia].
Qed.

Lemma enumerate_In {A} (l : list A) idx x :
  In (idx, x) (enumerate l) <-> nth_error l idx = Some x.
Proof.
  unfold enumerate.
  assert (Hgen : forall k, In (idx, x) (combine (seq k (length l)) l) <->
                  (k <= idx)%nat /\ nth_error l (idx - k) = Some x).
  { induction l as [|a l IH]; intros k; simpl.
    - split; [contradiction|]. intros [_ C]. destruct (idx - k)%nat; discriminate.
    - rewrite IH. split.
      + intros [E | [Hle Hn]].
        * injection E as -> ->. rewrite Nat.sub_diag. auto.
        * split; [lia|]. replace (idx - k)%nat with (S (idx - S k)) by lia.
          exact Hn.
      + intros [Hle Hn]. destruct (Nat.eq_dec k idx) as [->|Hne].
        * rewrite Nat.sub_diag in Hn. simpl in Hn. injection Hn as ->. auto.
        * right. split; [lia|].
          replace (idx - k)%nat with (S (idx - S k)) in Hn by lia. exact Hn. }
  rewrite Hgen. rewrite Nat.sub_0_r. split; [tauto|]. split; [lia|assumption].
Qed.

Section Schedule.
Variable year_of : Z -> Z.

(** What [group_by_year] has built after the first [k] weeks. *)
Lemma group_by_year_fold (ti : list Z) :
  forall l k d,
    (forall j t, nth_error l j = Some t -> nth_error ti (k + j) = Some t) ->
    NoDup (map fst d) ->
    (forall y a, dict_get y d = Some a ->
                 NoDup a /\ forall idx, In idx a -> (idx < k)%nat) ->
    (forall idx t, (idx < k)%nat -> nth_error ti idx = Some t ->
                   exists a, dict_get (year_of t) d = Some a /\ In idx a) ->
    let d' := fold_left
                (fun d it => setdefault_append (year_of (snd it)) (fst it) d)
                (combine (seq k (length l)) l) d in
    NoDup (map fst d') /\
    (forall y a, dict_get y d' = Some a ->
                 NoDup a /\ forall idx, In idx a -> (idx < k + length l)%nat) /\
    (forall idx t, (idx < k + length l)%nat -> nth_error ti idx = Some t ->
                   exists a, dict_get (year_of t) d' = Some a /\ In idx a).
Proof.
  induction l as [|t0 l IH]; intros k d Hl Hnd Hlists Hcov; simpl.
  - rewrite Nat.add_0_r. auto.
  - assert (Ht0 : nth_error ti k = Some t0).
    { specialize (Hl 0%nat t0 eq_refl). rewrite Nat.add_0_r in Hl. exact Hl. }
    replace (k + S (length l))%nat with (S k + length l)%nat by lia.
    apply IH.
    + intros j t Hj. replace (S k + j)%nat with (k + S j)%nat by lia.
      apply Hl. exact Hj.
    + apply setdefault_append_NoDup. exact Hnd.
    + intros y a. destruct (Z.eq_dec y (year_of t0)) as [->|Hne].
      * rewrite dict_get_setdefault_same. intros [= <-].
        assert (Hold : NoDup (match dict_get (year_of t0) d with
                              | Some l0 => l0 | None => [] end) /\
                       forall idx, In idx (match dict_get (year_of t0) d with
                              | Some l0 => l0 | None => [] end) -> (idx < k)%nat).
        { destruct (dict_get (year_of t0) d) as [l0|] eqn:E.
          - exact (Hlists _ _ E).
          - split; [constructor | intros ? []]. }
        destruct Hold as [Hnd0 Hlt0]. split.
        -- apply NoDup_app; [exact Hnd0 | repeat constructor; intros [] |].
           intros x Hx [<- | []]. specialize (Hlt0 _ Hx). lia.
        -- intros idx Hin. apply in_app_or in Hin.
           destruct Hin as [Hin | [<- | []]]; [specialize (Hlt0 _ Hin)|]; lia.
      * rewrite dict_get_setdefault_other by exact Hne. intros E.
        destruct (Hlists _ _ E) as [A B]. split; [exact A|].
        intros idx Hin. specialize (B _ Hin). lia.
    + intros idx t Hidx Hn.
      destruct (Nat.eq_dec idx k) as [->|Hne].
      * rewrite Ht0 in Hn. injection Hn as <-.
        rewrite dict_get_setdefault_same. eexists. split; [reflexivity|].
        apply in_or_app. right. left. reflexivity.
      * destruct (Hcov idx t ltac:(lia) Hn) as (a & Ea & Hin).
        destruct (Z.eq_dec (year_of t) (year_of t0)) as [Ey|Hy].
        -- rewrite Ey in *. rewrite dict_get_setdefault_same, Ea.
           eexists. split; [reflexivity|]. apply in_or_app. left. exact Hin.
        -- rewrite dict_get_setdefault_other by exact Hy. eauto.
Qed.

Lemma group_by_year_spec (ti : list Z) :
  let d := group_by_year year_of ti in
  NoDup (map fst d) /\
  (forall y a, dict_get y d = Some a ->
               NoDup a /\ forall idx, In idx a -> (idx < length ti)%nat) /\
  (forall idx t, nth_error ti idx = Some t ->
                 exists a, dict_get (year_of t) d = Some a /\ In idx a).
Proof.
  unfold group_by_year, enumerate.
  destruct (group_by_year_fold ti ti 0%nat []) as (A & B & C); simpl.
  - auto.
  - constructor.
  - discriminate.
  - intros ? ? Hlt. lia.
  - split; [exact A|]. split; [exact B|].
    intros idx t Hn. apply C; [|exact Hn].
    apply nth_error_Some. rewrite Hn. discriminate.
Qed.
End Schedule.

(* ================================================================== *)
(** ** Proofs: the activation schedule *)
(* ================================================================== *)

Section Assign.
Context {G : Type} `{Generator G} `{!GeneratorLaws G}.
Variable year_of : Z -> Z.

Lemma assign_fold_spec (min_c max_c : Z) :
  forall items acc g acc' g',
    foldM (fun (it : Z * list nat) year_active_indices =>
             let '(year, indices) := it in
             bind (rng_integers min_c (max_c + 1)) (fun n_cycles =>
             bind (rng_choice_no_replace indices
                     (Z.min n_cycles (Z.of_nat (length indices))))
                  (fun active =>
             ret (dict_set year (sort_indices active) year_active_indices))))
          items acc g = Some (acc', g') ->
    NoDup (map fst items) ->
    (forall y l, In (y, l) items -> NoDup l) ->
    (forall y, ~ In y (map fst items) -> dict_get y acc' = dict_get y acc) /\
    (forall y l, In (y, l) items ->
       exists a k,
         dict_get y acc' = Some a /\ (min_c <= k <= max_c)%Z /\
         length a = Z.to_nat (Z.min k (Z.of_nat (length l))) /\
         NoDup a /\ incl a l).
Proof.
  induction items as [|[y0 l0] items IH]; intros acc g acc' g' Hrun Hnd Hl.
  - simpl in Hrun. inv_ret Hrun. split; [reflexivity | intros ? ? []].
  - simpl in Hrun. inv_bind Hrun as acc1 g1 Estep.
    inv_bind Estep as k g2 Ek. inv_bind Estep as act g3 Eact.
    inv_ret Estep.
    inversion Hnd as [|? ? Hy0 Hnd']; subst.
    destruct (IH _ _ _ _ Hrun Hnd') as [Hother Hin].
    { intros y l Hyl. apply (Hl y l). right. exact Hyl. }
    apply rng_integers_range in Ek.
    apply rng_choice_no_replace_spec in Eact.
    destruct Eact as (Hsz & Hlen & Hincl & Hnodup).
    pose proof (sort_indices_perm act) as Hperm.
    split.
    + intros y Hy. simpl in Hy. rewrite Hother by tauto.
      apply dict_get_set_other. intros ->. apply Hy. left. reflexivity.
    + intros y l [E | Hyl].
      * injection E as <- <-. exists (sort_indices act), k.
        rewrite (Hother y0 Hy0), dict_get_set_same.
        split; [reflexivity|]. split; [lia|]. split; [|split].
        -- rewrite (Permutation_length Hperm). exact Hlen.
        -- apply (Permutation_NoDup (Permutation_sym Hperm)).
           apply Hnodup. apply (Hl y0 l0). left. reflexivity.
        -- intros x Hx. apply Hincl.
           apply (Permutation_in _ Hperm). exact Hx.
      * exact (Hin y l Hyl).
Qed.

(** The schedule of a run: per year, distinct weeks of that year, as many
    as the drawn count allows. *)
Lemma assign_active_cycles_per_year_spec cfg ti g sched g' :
  assign_active_cycles_per_year year_of cfg ti g = Some (sched, g') ->
  forall y l, dict_get y (group_by_year year_of ti) = Some l ->
    exists a k,
      dict_get y sched = Some a /\
      (min_cycles_per_year (cycling cfg) <= k
       <= max_cycles_per_year (cycling cfg))%Z /\
      length a = Z.to_nat (Z.min k (Z.of_nat (length l))) /\
      NoDup a /\ incl a l.
Proof.
  unfold assign_active_cycles_per_year. intros Hrun y l Hy.
  destruct (group_by_year_spec year_of ti) as (Hnd & Hlists & _).
  eapply (assign_fold_spec _ _ _ _ _ _ _ Hrun Hnd).
  - intros y1 l1 Hin. apply (Hlists y1 l1). apply In_dict_get; assumption.
  - apply dict_get_In. exact Hy.
Qed.

Lemma all_weeks_active cfg ti g sched g' :
  min_cycles_per_year (cycling cfg) = 52%Z ->
  max_cycles_per_year (cycling cfg) = 52%Z ->
  (length ti <= 52)%nat ->
  assign_active_cycles_per_year year_of cfg ti g = Some (sched, g') ->
  forall idx t, nth_error ti idx = Some t ->
                week_is_active year_of sched idx t = true.
Proof.
  intros Hmin Hmax Hlen Hrun idx t Hn.
  destruct (group_by_year_spec year_of ti) as (Hnd & Hlists & Hcov).
  destruct (Hcov idx t Hn) as (l & El & Hin).
  destruct (assign_active_cycles_per_year_spec _ _ _ _ _ Hrun _ _ El)
    as (a & k & Ea & Hk & Hla & Hnda & Hincl).
  destruct (Hlists _ _ El) as [Hndl Hlt].
  assert (Hll : (length l <= length ti)%nat).
  { assert (Hs : (length l <= length (seq 0 (length ti)))%nat).
    { apply NoDup_incl_length; [exact Hndl|].
      intros x Hx. apply in_seq. specialize (Hlt _ Hx). lia. }
    rewrite length_seq in Hs. exact Hs. }
  unfold week_is_active. rewrite Ea. apply index_in_iff.
  assert (Hall : incl l a)
    by (apply (NoDup_length_incl Hnda); [lia | exact Hincl]).
  exact (Hall _ Hin).
Qed.
End Assign.

(* ================================================================== *)
(** ** Proofs: runs in which every week is active *)
(* ================================================================== *)

Lemma mean_singleton p : exists a, mean [p] = Some a /\ a == p.
Proof. eexists. split; [reflexivity|]. simpl. field. Qed.

Lemma filter_none {A} (f : A -> bool) l :
  (forall x, In x l -> f x = false) -> filter f l = [].
Proof.
  induction l as [|a l IH]; intros Hf; simpl; [reflexivity|].
  rewrite (Hf a) by (left; reflexivity). apply IH.
  intros x Hx. apply Hf. right. exact Hx.
Qed.

(** The weekly rows of one cycle, when row [j] carries cycle [base+j+1]. *)
Lemma pressures_of_numbered_rows fid :
  forall (l : list WeeklyRecord) (base : Z),
    (0 <= base)%Z ->
    (forall j r, nth_error l j = Some r ->
       ts_cycle_index r = (base + Z.of_nat j + 1)%Z /\ ts_facility_id r = fid) ->
    forall k rk c,
      nth_error l k = Some rk ->
      cy_cycle_index c = (base + Z.of_nat k + 1)%Z ->
      cy_facility_id c = fid ->
      pressures_of_cycle l c = [ts_pressure_mpa rk].
Proof.
  unfold pressures_of_cycle.
  induction l as [|r0 l IH]; intros base Hb Hl k rk c Hk Hc Hf.
  - destruct k; discriminate.
  - destruct (Hl 0%nat r0 eq_refl) as [Hc0 Hf0]. simpl in Hc0.
    assert (Hl' : forall j r, nth_error l j = Some r ->
              ts_cycle_index r = (base + 1 + Z.of_nat j + 1)%Z /\
              ts_facility_id r = fid).
    { intros j r Hj. destruct (Hl (S j) r Hj) as [A B]. split; [lia|exact B]. }
    simpl filter. destruct k as [|k]; simpl in Hk.
    + injection Hk as <-. simpl in Hc.
      assert (Hp : (0 <? ts_cycle_index r0)%Z
               && (ts_facility_id r0 =? cy_facility_id c)%string
               && (ts_cycle_index r0 =? cy_cycle_index c)%Z = true).
      { rewrite Hf, Hf0, String.eqb_refl.
        replace (ts_cycle_index r0 =? cy_cycle_index c)%Z with true
          by (symmetry; apply Z.eqb_eq; lia).
        replace (0 <? ts_cycle_index r0)%Z with true
          by (symmetry; apply Z.ltb_lt; lia).
        reflexivity. }
      rewrite Hp. simpl.
      rewrite filter_none; [reflexivity|].
      intros x Hx. apply In_nth_error in Hx. destruct Hx as [j Hj].
      destruct (Hl' j x Hj) as [A B].
      replace (ts_cycle_index x =? cy_cycle_index c)%Z with false
        by (symmetry; apply Z.eqb_neq; lia).
      apply andb_false_r.
    + replace ((0 <? ts_cycle_index r0)%Z
               && (ts_facility_id r0 =? cy_facility_id c)%string
               && (ts_cycle_index r0 =? cy_cycle_index c)%Z) with false.
      2:{ symmetry. replace (ts_cycle_index r0 =? cy_cycle_index c)%Z with false
            by (symmetry; apply Z.eqb_neq; lia).
          apply andb_false_r. }
      apply (IH (base + 1)%Z ltac:(lia) Hl' k rk c Hk); [lia | exact Hf].
Qed.

Section Dataset.
Context {G : Type} `{Generator G}.
Variable year_of : Z -> Z.

Lemma foldM_records_length (step : nat * Z -> LoopState -> M G LoopState) :
  (forall it s g s' g', step it s g = Some (s', g') ->
     exists r, st_records s' = st_records s ++ [r]) ->
  forall items st g st' g',
    foldM step items st g = Some (st', g') ->
    length (st_records st') = (length (st_records st) + length items)%nat.
Proof.
  intros Hstep. induction items as [|it items IH]; intros st g st' g' Hrun;
    simpl in Hrun.
  - inv_ret Hrun. simpl. lia.
  - inv_bind Hrun as s1 g1 E1. destruct (Hstep _ _ _ _ _ E1) as [r Er].
    rewrite (IH _ _ _ _ Hrun), Er, length_app. simpl. lia.
Qed.

Lemma enumerate_length {A} (l : list A) : length (enumerate l) = length l.
Proof. unfold enumerate. rewrite length_combine, length_seq. lia. Qed.

Lemma simulate_records_length fr cfg th tn lc pc vc ti sched g
      ts_df cycles g' :
  simulate_facility_timeseries year_of fr cfg th tn lc pc vc ti sched g
    = Some ((ts_df, cycles), g') ->
  length ts_df = length ti.
Proof.
  intros Hrun.
  destruct (simulate_facility_timeseries_inv _ _ _ _ _ _ _ _ _ _ _ _ _ _ Hrun)
    as (cap & cush & g1 & ly & g2 & st & _ & _ & Eloop & -> & _).
  rewrite (fun Hs => foldM_records_length _ Hs _ _ _ _ _ Eloop).
  - simpl. apply enumerate_length.
  - intros [idx ts] s g0 s' g0' E.
    destruct (simulate_week_inv _ _ _ _ _ _ _ _ _ _ _ _ _ _ _ _ _ _ _ E)
      as (T & g3 & wv & g4 & p0 & nz & pin & pout & _ & _ & ->).
    eexists. reflexivity.
Qed.

Lemma simulate_records_schedule fr cfg th tn lc pc vc ti sched g
      ts_df cycles g' :
  simulate_facility_timeseries year_of fr cfg th tn lc pc vc ti sched g
    = Some ((ts_df, cycles), g') ->
  forall r, In r ts_df ->
    exists idx, nth_error ti idx = Some (ts_timestamp r) /\
      ts_is_cycle_active r
      = week_is_active year_of sched idx (ts_timestamp r).
Proof.
  intros Hrun.
  destruct (simulate_facility_timeseries_inv _ _ _ _ _ _ _ _ _ _ _ _ _ _ Hrun)
    as (cap & cush & g1 & ly & g2 & st & _ & _ & Eloop & -> & _).
  apply Forall_forall.
  apply (records_of_run _ (fun _ => True) _ _ _ _ _ _ Eloop);
    [reflexivity | exact I |].
  intros [idx ts] s g0 s' g0' Hin _ E. split; [exact I|].
  destruct (simulate_week_inv _ _ _ _ _ _ _ _ _ _ _ _ _ _ _ _ _ _ _ E)
    as (T & g3 & wv & g4 & p0 & nz & pin & pout & _ & _ & ->).
  eexists. split; [reflexivity|]. simpl. exists idx.
  split; [apply enumerate_In; exact Hin | reflexivity].
Qed.

(** A run in which every week is an active cycle. *)
Lemma simulate_all_active fr cfg th tn lc pc vc ti sched g
      ts_df cycles g' :
  (forall idx t, nth_error ti idx = Some t ->
                 week_is_active year_of sched idx t = true) ->
  simulate_facility_timeseries year_of fr cfg th tn lc pc vc ti sched g
    = Some ((ts_df, cycles), g') ->
  length cycles = length ti /\
  forall k r, nth_error ts_df k = Some r ->
    ts_cycle_index r = (Z.of_nat k + 1)%Z /\
    exists c a, nth_error cycles k = Some c /\
      cy_cycle_index c = (Z.of_nat k + 1)%Z /\
      cy_avg_pressure_mpa c = Some a /\ a == ts_pressure_mpa r.
Proof.
  intros Hact Hrun.
  pose proof (simulate_records_length _ _ _ _ _ _ _ _ _ _ _ _ _ Hrun) as Hlen.
  destruct (simulate_facility_timeseries_inv _ _ _ _ _ _ _ _ _ _ _ _ _ _ Hrun)
    as (cap & cush & g1 & ly & g2 & st & _ & _ & Eloop & -> & ->).
  set (fid := facility_id fr).
  assert (Hinv :
    st_cycle_index st = Z.of_nat (length (st_records st)) /\
    length (st_cycle_records st) = length (st_records st) /\
    (forall k r, nth_error (st_records st) k = Some r ->
       ts_cycle_index r = (0 + Z.of_nat k + 1)%Z /\ ts_facility_id r = fid) /\
    (forall k c, nth_error (st_cycle_records st) k = Some c ->
       cy_cycle_index c = (0 + Z.of_nat k + 1)%Z /\ cy_facility_id c = fid)).
  { refine (foldM_invariant _
      (fun s =>
         st_cycle_index s = Z.of_nat (length (st_records s)) /\
         length (st_cycle_records s) = length (st_records s) /\
         (forall k r, nth_error (st_records s) k = Some r ->
            ts_cycle_index r = (0 + Z.of_nat k + 1)%Z /\
            ts_facility_id r = fid) /\
         (forall k c, nth_error (st_cycle_records s) k = Some c ->
            cy_cycle_index c = (0 + Z.of_nat k + 1)%Z /\
            cy_facility_id c = fid))
      _ _ _ _ _ _ _ Eloop).
    2:{ simpl. split; [reflexivity|]. split; [reflexivity|].
        split; intros k x Hk; destruct k; discriminate. }
    intros [idx ts] s g0 s' g0' Hin (Hci & Hcl & Hr & Hc) E.
    apply enumerate_In in Hin.
    destruct (simulate_week_inv _ _ _ _ _ _ _ _ _ _ _ _ _ _ _ _ _ _ _ E)
      as (T & g3 & wv & g4 & p0 & nz & pin & pout & Hwv & _ & ->).
    rewrite (Hact _ _ Hin) in *.
    destruct (active_cycle_inv _ _ _ _ _ _ _ _ _ _ _ _ _ _ Hwv)
      as (mode & tf & inj0 & wdr0 & lf & p_in & p_out & g5 & g6 & g7
          & g8 & _ & _ & _ & _ & ->).
    simpl. rewrite !length_app. simpl. split; [lia|]. split; [lia|].
    split.
    - intros k r Hk.
      destruct (Nat.lt_ge_cases k (length (st_records s))) as [Hlt|Hge].
      + rewrite nth_error_app1 in Hk by exact Hlt. exact (Hr k r Hk).
      + rewrite nth_error_app2 in Hk by exact Hge.
        destruct (k - length (st_records s))%nat as [|m] eqn:Ek;
          [|destruct m; discriminate].
        simpl in Hk. injection Hk as <-. simpl. split; [lia | reflexivity].
    - intros k c Hk.
      destruct (Nat.lt_ge_cases k (length (st_cycle_records s))) as [Hlt|Hge].
      + rewrite nth_error_app1 in Hk by exact Hlt. exact (Hc k c Hk).
      + rewrite nth_error_app2 in Hk by exact Hge.
        destruct (k - length (st_cycle_records s))%nat as [|m] eqn:Ek;
          [|destruct m; discriminate].
        simpl in Hk. injection Hk as <-. simpl. split; [lia | reflexivity]. }
  destruct Hinv as (Hci & Hcl & Hr & Hc).
  unfold fill_avg_pressure. rewrite length_map. split; [lia|].
  intros k r Hk. destruct (Hr k r Hk) as [A B]. split; [lia|].
  assert (Hk' : (k < length (st_cycle_records st))%nat).
  { rewrite Hcl. apply nth_error_Some. rewrite Hk. discriminate. }
  destruct (nth_error (st_cycle_records st) k) as [c|] eqn:Ec;
    [|apply nth_error_None in Ec; lia].
  destruct (Hc k c Ec) as [C D].
  destruct (mean_singleton (ts_pressure_mpa r)) as (a & Ea & Haq).
  exists (set_avg_pressure c (mean (pressures_of_cycle (st_records st) c))), a.
  split; [rewrite nth_error_map, Ec; reflexivity|].
  split; [simpl; lia|]. split; [|exact Haq]. simpl.
  rewrite (pressures_of_numbered_rows fid (st_records st) 0 ltac:(lia) Hr
             k r c Hk C D).
  exact Ea.
Qed.
End Dataset.

(* ================================================================== *)
(** ** Proofs: the dataset pipeline *)
(* ================================================================== *)

Lemma Forall2_In_right {A B} (R : A -> B -> Prop) l l' y :
  Forall2 R l l' -> In y l' -> exists x, In x l /\ R x y.
Proof.
  induction 1 as [|x y0 l l' Hxy HF IH]; simpl; [contradiction|].
  intros [<- | Hin].
  - exists x. auto.
  - destruct (IH Hin) as (x' & Hx' & HR). exists x'. auto.
Qed.

Section Pipeline.
Context {G : Type} `{Generator G}.
Variable year_of : Z -> Z.

Lemma create_facilities_length cfg g facs g' :
  create_facilities cfg g = Some (facs, g') ->
  length facs = Z.to_nat (n_facilities cfg).
Proof.
  unfold create_facilities.
  set (f := fun (i : nat) (rows : list Facility) => _).
  assert (Hgen : forall l rows g0 rows' g0',
            foldM f l rows g0 = Some (rows', g0') ->
            length rows' = (length rows + length l)%nat).
  { induction l as [|i l IH]; intros rows g0 rows' g0' E; simpl in E.
    - inv_ret E. simpl. lia.
    - inv_bind E as r1 g1 E1. unfold f in E1.
      inv_bind E1 as row g2 Erow. inv_ret E1.
      rewrite (IH _ _ _ _ E), length_app. simpl. lia. }
  intros E. rewrite (Hgen _ _ _ _ _ E), length_seq. reflexivity.
Qed.

(** The per-facility frames collected by the loop of lines 627-641. *)
Lemma facility_frames cfg th tn lc pc vc ti sched :
  forall facs tsf cyf g tsf' cyf' g',
    foldM (fun row (acc : list (list WeeklyRecord)
                          * list (list CycleRecord)) =>
             bind (simulate_facility_timeseries year_of row cfg th tn lc
                     pc vc ti sched)
                  (fun res => ret (fst acc ++ [fst res],
                                   snd acc ++ [snd res])))
          facs (tsf, cyf) g = Some ((tsf', cyf'), g') ->
    exists res,
      tsf' = tsf ++ map fst res /\ cyf' = cyf ++ map snd res /\
      Forall2 (fun fr r => exists g0 g1,
                 simulate_facility_timeseries year_of fr cfg th tn lc pc
                   vc ti sched g0 = Some (r, g1)) facs res.
Proof.
  induction facs as [|fr facs IH]; intros tsf cyf g tsf' cyf' g' E;
    simpl in E.
  - inv_ret E. exists []. simpl. rewrite !app_nil_r. auto.
  - inv_bind E as acc1 g1 E1. inv_bind E1 as r g2 Er. inv_ret E1.
    simpl in E. destruct (IH _ _ _ _ _ _ E) as (res & -> & -> & HF).
    exists (r :: res). simpl. rewrite <- !app_assoc. simpl.
    split; [reflexivity|]. split; [reflexivity|].
    constructor; [eauto | exact HF].
Qed.

Lemma generate_uhs_dataset_inv cfg facs ts cyc :
  generate_uhs_dataset year_of cfg = Some (facs, ts, cyc) ->
  exists g1 sched g2 res,
    create_facilities cfg (default_rng (random_seed cfg)) = Some (facs, g1) /\
    assign_active_cycles_per_year year_of cfg
      (generate_time_index (start_date cfg) (n_years cfg)) g1
      = Some (sched, g2) /\
    Forall2 (fun fr r => exists g0 g3,
               simulate_facility_timeseries year_of fr cfg
                 (build_thermo_config cfg)
                 (build_temperature_noise_config cfg)
                 (build_loss_config cfg) (build_purity_config cfg)
                 (build_validation_config cfg)
                 (generate_time_index (start_date cfg) (n_years cfg))
                 sched g0 = Some (r, g3)) facs res /\
    res <> [] /\
    ts = concat (map fst res) /\ cyc = concat (map snd res).
Proof.
  unfold generate_uhs_dataset. intros E.
  match type of E with
  | option_map fst (?run ?g) = _ => destruct (run g) as [[x gf]|] eqn:Erun
  end; [|discriminate].
  simpl in E. injection E as ->.
  inv_bind Erun as facs' g1 Efac.
  inv_bind Erun as sched g2 Esched.
  inv_bind Erun as frames g3 Eframes.
  destruct frames as [tsf cyf].
  inv_bind Erun as tsdf g4 Ets. apply lift_inv in Ets.
  destruct Ets as [Ets ->]. inv_ret Erun.
  destruct (facility_frames _ _ _ _ _ _ _ _ _ _ _ _ _ _ _ Eframes)
    as (res & -> & -> & HF). simpl in *.
  exists g1, sched, g2, res. split; [exact Efac|]. split; [exact Esched|].
  split; [exact HF|].
  unfold pd_concat in Ets. destruct res as [|r res]; [discriminate|].
  simpl in Ets. injection Ets as <-.
  split; [discriminate|]. split; reflexivity.
Qed.

(** Claim C9.  The schedule is drawn once, from the generator state that
    [create_facilities] leaves, before any facility is simulated; every
    weekly row of every facility is active exactly when its week is in that
    schedule, so two rows of the same week, of whatever facilities, are
    both active or both inactive. *)
Theorem activation_schedule_shared cfg facs ts cyc :
  generate_uhs_dataset year_of cfg = Some (facs, ts, cyc) ->
  exists g1 sched g2,
    create_facilities cfg (default_rng (random_seed cfg)) = Some (facs, g1) /\
    assign_active_cycles_per_year year_of cfg
      (generate_time_index (start_date cfg) (n_years cfg)) g1
      = Some (sched, g2) /\
    (forall r, In r ts ->
       exists idx,
         ts_timestamp r = (start_date cfg + 7 * Z.of_nat idx)%Z /\
         ts_is_cycle_active r
         = week_is_active year_of sched idx (ts_timestamp r)) /\
    (forall r1 r2, In r1 ts -> In r2 ts ->
       ts_timestamp r1 = ts_timestamp r2 ->
       ts_is_cycle_active r1 = ts_is_cycle_active r2).
Proof.
  intros E.
  destruct (generate_uhs_dataset_inv _ _ _ _ E)
    as (g1 & sched & g2 & res & Efac & Esched & HF & _ & -> & _).
  exists g1, sched, g2. split; [exact Efac|]. split; [exact Esched|].
  assert (Hrec : forall r, In r (concat (map fst res)) ->
       exists idx,
         ts_timestamp r = (start_date cfg + 7 * Z.of_nat idx)%Z /\
         ts_is_cycle_active r
         = week_is_active year_of sched idx (ts_timestamp r)).
  { intros r Hr. apply in_concat in Hr. destruct Hr as (frame & Hfr & Hin).
    apply in_map_iff in Hfr. destruct Hfr as ([tsd cyd] & <- & Hres).
    simpl in Hin.
    destruct (Forall2_In_right _ _ _ _ HF Hres) as (fr & _ & g0 & g3 & Esim).
    destruct (simulate_records_schedule _ _ _ _ _ _ _ _ _ _ _ _ _ _ Esim
                r Hin) as (idx & Hidx & Hactive).
    exists idx. split; [|exact Hactive].
    apply generate_time_index_nth in Hidx. tauto. }
  split; [exact Hrec|].
  intros r1 r2 H1 H2 Ets.
  destruct (Hrec r1 H1) as (i1 & T1 & A1).
  destruct (Hrec r2 H2) as (i2 & T2 & A2).
  assert (i1 = i2) by lia. subst i2.
  rewrite A1, A2, Ets. reflexivity.
Qed.

Context `{!GeneratorLaws G}.

(** Claim C6.  With one facility, one year and exactly 52 cycles drawn per
    year, a run that returns has 52 weekly rows, whose cycle indices are
    1, 2, ..., 52 in order (none is 0), and 52 cycle rows; the [k]-th cycle
    row carries the cycle index of the [k]-th week and an average pressure
    equal to that week's pressure. *)
Theorem full_year_single_facility cfg facs ts cyc :
  n_facilities cfg = 1%Z ->
  n_years cfg = 1%Z ->
  min_cycles_per_year (cycling cfg) = 52%Z ->
  max_cycles_per_year (cycling cfg) = 52%Z ->
  generate_uhs_dataset year_of cfg = Some (facs, ts, cyc) ->
  length ts = 52%nat /\
  (forall r, In r ts -> (1 <= ts_cycle_index r <= 52)%Z) /\
  length cyc = 52%nat /\
  (forall k r, nth_error ts k = Some r ->
     ts_cycle_index r = (Z.of_nat k + 1)%Z /\
     exists c a, nth_error cyc k = Some c /\
       cy_cycle_index c = ts_cycle_index r /\
       cy_avg_pressure_mpa c = Some a /\ a == ts_pressure_mpa r).
Proof.
  intros Hn Hy Hmin Hmax E.
  destruct (generate_uhs_dataset_inv _ _ _ _ E)
    as (g1 & sched & g2 & res & Efac & Esched & HF & _ & -> & ->).
  pose proof (create_facilities_length _ _ _ _ Efac) as Hlen.
  rewrite Hn in Hlen. simpl in Hlen.
  destruct facs as [|fr [|? ?]]; try discriminate.
  inversion HF as [|? r0 ? res' (g0 & g3 & Esim) HF']; subst.
  inversion HF'; subst. destruct r0 as [tsd cyd]. simpl.
  rewrite !app_nil_r.
  set (ti := generate_time_index (start_date cfg) (n_years cfg)) in *.
  assert (Hti : length ti = 52%nat).
  { unfold ti. rewrite generate_time_index_length, Hy. reflexivity. }
  assert (Hact : forall idx t, nth_error ti idx = Some t ->
                   week_is_active year_of sched idx t = true).
  { apply (all_weeks_active year_of cfg ti g1 sched g2 Hmin Hmax);
      [lia | exact Esched]. }
  pose proof (simulate_records_length _ _ _ _ _ _ _ _ _ _ _ _ _ _ Esim) as Hl.
  destruct (simulate_all_active _ _ _ _ _ _ _ _ _ _ _ _ _ _ Hact Esim)
    as [Hlc Hrows].
  split; [lia|]. split; [|split; [lia|]].
  - intros r Hr. apply In_nth_error in Hr. destruct Hr as [k Hk].
    destruct (Hrows k r Hk) as [A _].
    assert (k < length tsd)%nat by (apply nth_error_Some; rewrite Hk; discriminate).
    lia.
  - intros k r Hk. destruct (Hrows k r Hk) as (A & c & a & B & C & D & F).
    split; [exact A|]. exists c, a. repeat split; try assumption. lia.
Qed.
End Pipeline.

(* ================================================================== *)
(** ** Proofs: the example generator keeps the laws *)
(* ================================================================== *)

Lemma lcg_unit_range s : 0 <= lcg_unit s /\ lcg_unit s < 1.
Proof.
  unfold lcg_unit, Qle, Qlt. simpl.
  pose proof (Z.mod_pos_bound (s / 2 ^ 56) 256 ltac:(lia)). lia.
Qed.

Lemma rotate_perm {A} k (a : list A) : Permutation (rotate k a) a.
Proof.
  unfold rotate. rewrite Permutation_app_comm, firstn_skipn. reflexivity.
Qed.

Lemma NoDup_firstn_of {A} n (l : list A) : NoDup l -> NoDup (firstn n l).
Proof.
  intros Hnd. rewrite <- (firstn_skipn n l) in Hnd.
  exact (NoDup_app_remove_r _ _ Hnd).
Qed.

#[export] Instance lcg_laws : GeneratorLaws Z.
Proof.
  constructor.
  - intros low high g k g'. simpl.
    destruct (Z.ltb_spec low high); [|discriminate]. intros [= <- <-].
    pose proof (Z.mod_pos_bound (lcg_next g / 2 ^ 32) (high - low) ltac:(lia)).
    lia.
  - intros n p g i g'. simpl. destruct n as [|n]; [discriminate|].
    destruct p as [w|].
    + destruct (valid_probabilities (S n) w); [|discriminate].
      intros [= <- <-]. lia.
    + intros [= <- <-].
      pose proof (Z.mod_pos_bound (lcg_next g / 2 ^ 32) (Z.of_nat (S n))
                    ltac:(lia)). lia.
  - intros a size g l g'. simpl.
    destruct (Z.ltb_spec size 0); [discriminate|].
    destruct (Z.ltb_spec (Z.of_nat (length a)) size); [discriminate|].
    simpl. intros [= <- <-].
    set (k := Z.to_nat ((lcg_next g / Z.pow_pos 2 32)
                        mod Z.of_nat (length a))).
    pose proof (Permutation_length (rotate_perm k a)) as Hl.
    split; [lia|]. split; [|split].
    + rewrite length_firstn. lia.
    + intros x Hx. apply (Permutation_in _ (rotate_perm k a)).
      rewrite <- (firstn_skipn (Z.to_nat size) (rotate k a)).
      apply in_or_app. left. exact Hx.
    + intros Hnd. apply NoDup_firstn_of.
      exact (Permutation_NoDup (Permutation_sym (rotate_perm k a)) Hnd).
  - intros low high g u g'. simpl. intros [= <- <-] Hle.
    pose proof (lcg_unit_range (lcg_next g)) as [H0 H1]. split; nra.
Qed.

(* ================================================================== *)
(** ** The claims on concrete runs *)
(* ================================================================== *)

Ltac concrete := vm_compute; first [reflexivity | discriminate | intro; discriminate].

(** Reads a computed equation [Some (a, b) = Some (x, y)] off as the values
    of [x] and [y]. *)
Ltac read_off E :=
  let E' := fresh E in
  pose proof E as E'; vm_compute in E'; injection E'; clear E'; intros; subst.

(** The amended claim C3 at a mass of 0 and at 1000 kg in 500000 m3. *)
Lemma pressure_from_mass_fixed_point_witness :
  pressure_from_mass 0 20 500000 example_thermo = Some 0 /\
  pressure_from_mass 1000 20 500000 example_thermo
  = pressure_from_mass_spec 1000 20 500000 example_thermo.
Proof.
  destruct (pressure_from_mass_fixed_point 0 20 500000 example_thermo)
    as (A & _ & _).
  destruct (pressure_from_mass_fixed_point 1000 20 500000 example_thermo)
    as (_ & _ & C).
  split; [apply A; right; concrete | apply C; concrete].
Defined.

(** Claim C1 on the short run of the example facility. *)
Lemma working_gas_within_capacity_witness :
  exists ts_df cycles g' cap cush g1,
    example_run = Some ((ts_df, cycles), g') /\
    _compute_facility_capacity_kg example_facility short_config
      (build_thermo_config short_config)
      (build_temperature_noise_config short_config) (default_rng 42)
    = Some ((cap, cush), g1) /\
    forall r, In r ts_df -> 0 <= ts_working_gas_kg r <= cap.
Proof.
  destruct example_run as [[[ts_df cycles] g']|] eqn:E.
  2:{ vm_compute in E. discriminate E. }
  assert (H0 : 0 <= static_leak_min_kg_per_year (build_loss_config short_config))
    by concrete.
  assert (H1 : static_leak_min_kg_per_year (build_loss_config short_config)
               <= static_leak_max_kg_per_year (build_loss_config short_config))
    by concrete.
  destruct (working_gas_within_capacity gregorian_year example_facility
              short_config (build_thermo_config short_config)
              (build_temperature_noise_config short_config)
              (build_loss_config short_config)
              (build_purity_config short_config)
              (build_validation_config short_config)
              example_weeks example_schedule (default_rng 42)
              ts_df cycles g' H0 H1 E)
    as (cap & cush & g1 & Ecap & Hall).
  exists ts_df, cycles, g', cap, cush, g1.
  split; [reflexivity | split; [exact Ecap | exact Hall]].
Defined.

(** Claim C8 on the short run of the example facility. *)
Lemma cushion_gas_constant_witness :
  exists ts_df cycles g' cap cush g1,
    example_run = Some ((ts_df, cycles), g') /\
    _compute_facility_capacity_kg example_facility short_config
      (build_thermo_config short_config)
      (build_temperature_noise_config short_config) (default_rng 42)
    = Some ((cap, cush), g1) /\
    forall r, In r ts_df -> ts_cushion_gas_kg r = cush.
Proof.
  destruct example_run as [[[ts_df cycles] g']|] eqn:E.
  2:{ vm_compute in E. discriminate E. }
  destruct (cushion_gas_constant gregorian_year _ _ _ _ _ _ _ _ _ _ _ _ _ E)
    as (cap & cush & g1 & Ecap & Hall).
  exists ts_df, cycles, g', cap, cush, g1.
  split; [reflexivity | split; [exact Ecap | exact Hall]].
Defined.

(** Claim C7 on the short run of the example facility. *)
Lemma cycle_efficiency_nan_iff_no_injection_witness :
  exists ts_df cycles g',
    example_run = Some ((ts_df, cycles), g') /\
    (forall r, In r ts_df ->
       (ts_cycle_efficiency r = None <-> ts_h2_injected_kg r == 0) /\
       (~ ts_h2_injected_kg r == 0 ->
        ts_cycle_efficiency r
        = Some (ts_h2_withdrawn_kg r / ts_h2_injected_kg r))) /\
    (forall c, In c cycles ->
       (cy_cycle_efficiency c = None <-> cy_total_injected_kg c == 0) /\
       (~ cy_total_injected_kg c == 0 ->
        cy_cycle_efficiency c
        = Some (cy_total_withdrawn_kg c / cy_total_injected_kg c))).
Proof.
  destruct example_run as [[[ts_df cycles] g']|] eqn:E.
  2:{ vm_compute in E. discriminate E. }
  assert (H0 : 0 <= cycle_mass_fraction_min (cycling short_config))
    by concrete.
  exists ts_df, cycles, g'. split; [reflexivity|].
  exact (cycle_efficiency_nan_iff_no_injection gregorian_year _ _ _ _ _ _ _
           _ _ _ _ _ _ H0 E).
Defined.

(** Claim C10 on the short run of the tiny facility, whose working gas is
    below the weekly leak from the first week on. *)
Lemma weekly_losses_include_full_static_leak_witness :
  exists ts_df cycles g' cap cush g1 leak_year g2,
    tiny_run = Some ((ts_df, cycles), g') /\
    _compute_facility_capacity_kg tiny_facility short_config
      (build_thermo_config short_config)
      (build_temperature_noise_config short_config) (default_rng 42)
    = Some ((cap, cush), g1) /\
    _sample_uniform
      (static_leak_min_kg_per_year (build_loss_config short_config))
      (static_leak_max_kg_per_year (build_loss_config short_config)) g1
    = Some (leak_year, g2) /\
    (forall r, In r ts_df ->
       if ts_is_cycle_active r
       then exists dyn, 0 <= dyn /\ ts_losses_kg r = dyn + leak_year / 52.0
       else ts_losses_kg r = leak_year / 52.0) /\
    (forall k r_prev r,
       nth_error ts_df k = Some r_prev ->
       nth_error ts_df (S k) = Some r ->
       ts_is_cycle_active r = false ->
       ts_working_gas_kg r
       = py_max (ts_working_gas_kg r_prev - leak_year / 52.0) 0 /\
       (ts_working_gas_kg r_prev < leak_year / 52.0 ->
        ts_working_gas_kg r_prev - ts_working_gas_kg r < ts_losses_kg r)).
Proof.
  destruct tiny_run as [[[ts_df cycles] g']|] eqn:E.
  2:{ vm_compute in E. discriminate E. }
  destruct (weekly_losses_include_full_static_leak gregorian_year _ _ _ _ _
              _ _ _ _ _ _ _ _ E)
    as (cap & cush & g1 & ly & g2 & Ecap & Eleak & Hall & Hadj).
  exists ts_df, cycles, g', cap, cush, g1, ly, g2.
  split; [reflexivity|]. split; [exact Ecap|]. split; [exact Eleak|].
  split; [exact Hall | exact Hadj].
Defined.

(** Claim C2 on two cycles that are clamped.  The first cycle of the tiny
    cavern (week 1 of its short run) ends below 0, its weekly leak being
    larger than its capacity: the withdrawal is cut and the injection kept.
    The third week of the full-year run of the example cavern ends above
    the capacity: the injection is cut and the withdrawal kept.  In both,
    the drawn flows and the inventory before the clamp are those of the
    run itself. *)
Lemma clamp_order_and_asymmetry_witness :
  (exists st g T gT wv g' mode tf inj0 wdr0 lf g1 g2 g3 g4,
     tiny_state_after 1 = Some (st, g) /\
     compute_temperature_c (depth_m tiny_facility)
       (salt_base_temperature_c (salt_cavern short_config))
       (salt_temperature_gradient_c_per_km (salt_cavern short_config))
       (build_temperature_noise_config short_config) g = Some (T, gT) /\
     active_cycle tiny_facility short_config
       (build_loss_config short_config) (build_purity_config short_config)
       example_mode_probs tiny_cap tiny_leak 19730 T st
       (py_max (st_working_gas_kg st - tiny_leak) 0) gT = Some (wv, g') /\
     choice_weighted mode_choices example_mode_probs gT = Some (mode, g1) /\
     rng_lognormal
       (relative_mean (injection_mass_kg (distributions short_config)))
       (relative_sigma (injection_mass_kg (distributions short_config))) g1
     = Some (tf, g2) /\
     draw_flows mode
       (tiny_cap * ramp_cycle_fraction
          (cycle_mass_fraction_min (cycling short_config))
          (cycle_mass_fraction_max (cycling short_config))
          (max_relative_change_per_cycle (cycling short_config))
          (st_last_cycle_fraction st) tf) g2
     = Some ((inj0, wdr0), g3) /\
     sample_loss_fraction (build_loss_config short_config) g3
     = Some (lf, g4) /\
     let wg := py_max (st_working_gas_kg st - tiny_leak) 0 in
     let result := wg + inj0 - wdr0 - compute_cycle_losses_kg wg lf
                   - tiny_leak in
     result < 0 /\
     wv_working_gas_kg wv = 0 /\
     wv_h2_withdrawn_kg wv = wdr0 - py_min (- result) wdr0 /\
     wv_h2_injected_kg wv = inj0) /\
  (exists st g T gT wv g' mode tf inj0 wdr0 lf g1 g2 g3 g4,
     full_year_state_after 2 = Some (st, g) /\
     compute_temperature_c (depth_m example_facility)
       (salt_base_temperature_c (salt_cavern full_year_config))
       (salt_temperature_gradient_c_per_km (salt_cavern full_year_config))
       (build_temperature_noise_config full_year_config) g = Some (T, gT) /\
     active_cycle example_facility full_year_config
       (build_loss_config full_year_config)
       (build_purity_config full_year_config)
       full_year_mode_probs example_cap example_leak 19737 T st
       (py_max (st_working_gas_kg st - example_leak) 0) gT = Some (wv, g') /\
     choice_weighted mode_choices full_year_mode_probs gT = Some (mode, g1) /\
     rng_lognormal
       (relative_mean (injection_mass_kg (distributions full_year_config)))
       (relative_sigma (injection_mass_kg (distributions full_year_config)))
       g1 = Some (tf, g2) /\
     draw_flows mode
       (example_cap * ramp_cycle_fraction
          (cycle_mass_fraction_min (cycling full_year_config))
          (cycle_mass_fraction_max (cycling full_year_config))
          (max_relative_change_per_cycle (cycling full_year_config))
          (st_last_cycle_fraction st) tf) g2
     = Some ((inj0, wdr0), g3) /\
     sample_loss_fraction (build_loss_config full_year_config) g3
     = Some (lf, g4) /\
     let wg := py_max (st_working_gas_kg st - example_leak) 0 in
     let result := wg + inj0 - wdr0 - compute_cycle_losses_kg wg lf
                   - example_leak in
     example_cap < result /\
     wv_working_gas_kg wv = example_cap /\
     wv_h2_injected_kg wv = inj0 - py_min (result - example_cap) inj0 /\
     wv_h2_withdrawn_kg wv = wdr0).
Proof.
  split.
  - destruct (tiny_state_after 1) as [[st g]|] eqn:Est.
    2:{ vm_compute in Est. discriminate Est. }
    read_off Est.
    match type of Est with
    | _ = Some (?s, ?g) =>
        destruct (compute_temperature_c (depth_m tiny_facility)
                    (salt_base_temperature_c (salt_cavern short_config))
                    (salt_temperature_gradient_c_per_km
                       (salt_cavern short_config))
                    (build_temperature_noise_config short_config) g)
          as [[T gT]|] eqn:ET
    end.
    2:{ vm_compute in ET. discriminate ET. }
    read_off ET.
    match type of ET with
    | _ = Some (?T, ?gT) =>
      match type of Est with
      | _ = Some (?s, _) =>
        destruct (active_cycle tiny_facility short_config
                    (build_loss_config short_config)
                    (build_purity_config short_config)
                    example_mode_probs tiny_cap tiny_leak 19730 T s
                    (py_max (st_working_gas_kg s - tiny_leak) 0) gT)
          as [[wv g']|] eqn:E
      end
    end.
    2:{ vm_compute in E. discriminate E. }
    assert (Ecap : exists g0',
      _compute_facility_capacity_kg tiny_facility short_config
        (build_thermo_config short_config)
        (build_temperature_noise_config short_config) (default_rng 42)
      = Some ((tiny_cap, tiny_cushion), g0')).
    { eexists. vm_compute. reflexivity. }
    destruct Ecap as [g0' Ecap].
    destruct (clamp_order_and_asymmetry _ _ _ _ _ _ _ _ _ _ _ _ _ _ _ _ _ _ _
                Ecap E)
      as (mode & tf & inj0 & wdr0 & lf & g1 & g2 & g3 & g4 & Emode & Etf
          & Efl & Elf & Hdef & _ & _).
    read_off Emode. read_off Etf. read_off Efl. read_off Elf.
    do 15 eexists. split; [reflexivity|]. split; [exact ET|].
    split; [exact E|]. split; [exact Emode|]. split; [exact Etf|].
    split; [exact Efl|]. split; [exact Elf|]. cbv zeta.
    match goal with
    | |- ?P /\ _ => assert (Hneg : P) by concrete;
                    split; [exact Hneg | exact (Hdef Hneg)]
    end.
  - destruct (full_year_state_after 2) as [[st g]|] eqn:Est.
    2:{ vm_compute in Est. discriminate Est. }
    read_off Est.
    match type of Est with
    | _ = Some (?s, ?g) =>
        destruct (compute_temperature_c (depth_m example_facility)
                    (salt_base_temperature_c (salt_cavern full_year_config))
                    (salt_temperature_gradient_c_per_km
                       (salt_cavern full_year_config))
                    (build_temperature_noise_config full_year_config) g)
          as [[T gT]|] eqn:ET
    end.
    2:{ vm_compute in ET. discriminate ET. }
    read_off ET.
    match type of ET with
    | _ = Some (?T, ?gT) =>
      match type of Est with
      | _ = Some (?s, _) =>
        destruct (active_cycle example_facility full_year_config
                    (build_loss_config full_year_config)
                    (build_purity_config full_year_config)
                    full_year_mode_probs example_cap example_leak 19737 T s
                    (py_max (st_working_gas_kg s - example_leak) 0) gT)
          as [[wv g']|] eqn:E
      end
    end.
    2:{ vm_compute in E. discriminate E. }
    assert (Ecap : exists g0',
      _compute_facility_capacity_kg example_facility full_year_config
        (build_thermo_config full_year_config)
        (build_temperature_noise_config full_year_config) (default_rng 42)
      = Some ((example_cap, example_cushion), g0')).
    { eexists. vm_compute. reflexivity. }
    destruct Ecap as [g0' Ecap].
    destruct (clamp_order_and_asymmetry _ _ _ _ _ _ _ _ _ _ _ _ _ _ _ _ _ _ _
                Ecap E)
      as (mode & tf & inj0 & wdr0 & lf & g1 & g2 & g3 & g4 & Emode & Etf
          & Efl & Elf & _ & Hexc & _).
    read_off Emode. read_off Etf. read_off Efl. read_off Elf.
    do 15 eexists. split; [reflexivity|]. split; [exact ET|].
    split; [exact E|]. split; [exact Emode|]. split; [exact Etf|].
    split; [exact Efl|]. split; [exact Elf|]. cbv zeta.
    match goal with
    | |- ?P /\ _ => assert (Hover : P) by concrete;
                    split; [exact Hover | exact (Hexc Hover)]
    end.
Defined.

(** Claim C5 on the third week of the short run, the second of two
    consecutive active weeks. *)
Lemma cycle_fraction_ramp_bound_witness :
  exists st2 g2 st3 g3,
    example_state_after 2 = Some (st2, g2) /\
    example_simulate_week (2%nat, 19737%Z) st2 g2 = Some (st3, g3) /\
    st_cycle_index st2 = 1%Z /\
    Qabs_py (st_last_cycle_fraction st3 - st_last_cycle_fraction st2)
    <= max_relative_change_per_cycle (cycling short_config).
Proof.
  destruct (example_state_after 2) as [[st2 g2]|] eqn:E2.
  2:{ vm_compute in E2. discriminate E2. }
  pose proof E2 as E2'. vm_compute in E2'. injection E2' as <- <-.
  match type of E2 with
  | _ = Some (?s, ?g) =>
      destruct (example_simulate_week (2%nat, 19737%Z) s g)
        as [[st3 g3]|] eqn:E3
  end.
  2:{ vm_compute in E3. discriminate E3. }
  assert (H0 : 0 <= max_relative_change_per_cycle (cycling short_config))
    by concrete.
  pose proof (foldM_reachable gregorian_year _ _ _ _ _ _ _ _ _ _ _ _ _ _ _
                _ _ (reach_init gregorian_year _ _ _ _ _ _ _ _ _ _ _ _) E2)
    as Hreach.
  destruct (cycle_fraction_ramp_bound gregorian_year _ _ _ _ _ _ _ _ _ _ _
              _ 2%nat 19737%Z _ _ _ _ H0 Hreach eq_refl E3) as [Hbound _].
  do 4 eexists. split; [reflexivity|]. split; [exact E3|].
  split; [reflexivity|]. apply Hbound. discriminate.
Defined.

(** Claim C6 on the full-year configuration, from seed 42. *)
Lemma full_year_single_facility_witness :
  exists facs ts cyc,
    generate_uhs_dataset gregorian_year full_year_config
    = Some (facs, ts, cyc) /\
    length ts = 52%nat /\
    (forall r, In r ts -> (1 <= ts_cycle_index r <= 52)%Z) /\
    length cyc = 52%nat /\
    (forall k r, nth_error ts k = Some r ->
       ts_cycle_index r = (Z.of_nat k + 1)%Z /\
       exists c a, nth_error cyc k = Some c /\
         cy_cycle_index c = ts_cycle_index r /\
         cy_avg_pressure_mpa c = Some a /\ a == ts_pressure_mpa r).
Proof.
  destruct (generate_uhs_dataset gregorian_year full_year_config)
    as [[[facs ts] cyc]|] eqn:E.
  2:{ vm_compute in E. discriminate E. }
  exists facs, ts, cyc. split; [reflexivity|].
  exact (full_year_single_facility gregorian_year full_year_config facs ts
           cyc eq_refl eq_refl eq_refl eq_refl E).
Defined.

(** Claim C9 on a run with two facilities. *)
Lemma activation_schedule_shared_witness :
  exists facs ts cyc g1 sched g2,
    generate_uhs_dataset gregorian_year two_facility_config
    = Some (facs, ts, cyc) /\
    length facs = 2%nat /\
    create_facilities two_facility_config
      (default_rng (random_seed two_facility_config)) = Some (facs, g1) /\
    assign_active_cycles_per_year gregorian_year two_facility_config
      (generate_time_index (start_date two_facility_config)
         (n_years two_facility_config)) g1 = Some (sched, g2) /\
    (forall r, In r ts ->
       exists idx,
         ts_timestamp r
         = (start_date two_facility_config + 7 * Z.of_nat idx)%Z /\
         ts_is_cycle_active r
         = week_is_active gregorian_year sched idx (ts_timestamp r)) /\
    (forall r1 r2, In r1 ts -> In r2 ts ->
       ts_timestamp r1 = ts_timestamp r2 ->
       ts_is_cycle_active r1 = ts_is_cycle_active r2).
Proof.
  destruct (generate_uhs_dataset gregorian_year two_facility_config)
    as [[[facs ts] cyc]|] eqn:E.
  2:{ vm_compute in E. discriminate E. }
  destruct (activation_schedule_shared gregorian_year _ _ _ _ E)
    as (g1 & sched & g2 & Efac & Esched & Hrec & Hpair).
  exists facs, ts, cyc, g1, sched, g2. split; [reflexivity|].
  split; [exact (create_facilities_length _ _ _ _ Efac)|].
  split; [exact Efac|]. split; [exact Esched|].
  split; [exact Hrec | exact Hpair].
Defined.

(* ================================================================== *)
(** ** Further properties: the physics helpers *)
(* ================================================================== *)

(** Whether the scan of [get_compressibility_z] stops at a segment. *)
Lemma find_segment_none p segs :
  (forall s, In s segs ->
     ~ (seg_pressure_min_mpa s <= p /\ p < seg_pressure_max_mpa s)) ->
  find_segment p segs = None.
Proof.
  induction segs as [|s rest IH]; intros Hout; simpl; [reflexivity|].
  destruct (Qle_bool_spec (seg_pressure_min_mpa s) p) as [H1|H1];
    destruct (Qlt_bool_spec p (seg_pressure_max_mpa s)) as [H2|H2]; simpl;
    try (apply IH; intros s' Hs'; apply Hout; right; exact Hs').
  exfalso. apply (Hout s); [left; reflexivity | auto].
Qed.

Lemma find_segment_first p pre s post :
  (forall s', In s' pre ->
     ~ (seg_pressure_min_mpa s' <= p /\ p < seg_pressure_max_mpa s')) ->
  seg_pressure_min_mpa s <= p -> p < seg_pressure_max_mpa s ->
  find_segment p (pre ++ s :: post) = Some (seg_Z s).
Proof.
  induction pre as [|s0 pre IH]; intros Hout H1 H2; simpl.
  - destruct (Qle_bool_spec (seg_pressure_min_mpa s) p); [|lra].
    destruct (Qlt_bool_spec p (seg_pressure_max_mpa s)); [reflexivity|lra].
  - destruct (Qle_bool_spec (seg_pressure_min_mpa s0) p) as [A|A];
      destruct (Qlt_bool_spec p (seg_pressure_max_mpa s0)) as [B|B]; simpl;
      try (apply IH; [intros s' Hs'; apply Hout; right; exact Hs' | lra | lra]).
    exfalso. apply (Hout s0); [left; reflexivity | auto].
Qed.

(** X1.  [get_compressibility_z] returns the factor of the first segment
    whose half-open range holds the pressure; when no range holds it, the
    factor of the last segment; on an empty table it raises. *)
Theorem get_compressibility_z_first_match_or_last (p : Q) (th : ThermoConfig) :
  (compressibility_segments th = [] -> get_compressibility_z p th = None) /\
  (forall pre s post,
     compressibility_segments th = pre ++ s :: post ->
     (forall s', In s' pre ->
        ~ (seg_pressure_min_mpa s' <= p /\ p < seg_pressure_max_mpa s')) ->
     seg_pressure_min_mpa s <= p -> p < seg_pressure_max_mpa s ->
     get_compressibility_z p th = Some (seg_Z s)) /\
  (forall front s,
     compressibility_segments th = front ++ [s] ->
     (forall s', In s' (front ++ [s]) ->
        ~ (seg_pressure_min_mpa s' <= p /\ p < seg_pressure_max_mpa s')) ->
     get_compressibility_z p th = Some (seg_Z s)).
Proof.
  unfold get_compressibility_z. split; [|split].
  - intros ->. reflexivity.
  - intros pre s post -> Hout H1 H2.
    rewrite (find_segment_first p pre s post Hout H1 H2). reflexivity.
  - intros front s -> Hout. rewrite (find_segment_none _ _ Hout).
    assert (E : last_segment (front ++ [s]) = Some s).
    { clear Hout. induction front as [|a front IH]; [reflexivity|].
      simpl. destruct (front ++ [s]) eqn:Ef; [|exact IH].
      destruct front; discriminate. }
    rewrite E. reflexivity.
Qed.

(** X2.  [mass_from_pvt] returns 0 for a non-positive volume without
    reading the table, never returns a negative mass, and raises on a
    positive volume when the temperature is absolute zero or the gas
    constant is 0 (the divisor [Z * R * T] vanishes). *)
Theorem mass_from_pvt_edge_cases (P T V : Q) (th : ThermoConfig) :
  (V <= 0 -> mass_from_pvt P T V th = Some 0) /\
  (forall m, mass_from_pvt P T V th = Some m -> 0 <= m) /\
  (0 < V -> T + 273.15 == 0 \/ gas_constant_R_J_per_molK th == 0 ->
   mass_from_pvt P T V th = None).
Proof.
  unfold mass_from_pvt. split; [|split].
  - intros HV. destruct (Qle_bool_spec V 0); [reflexivity | lra].
  - intros m. destruct (Qle_bool_spec V 0); [intros [= <-]; lra|].
    cbv zeta. destruct (get_compressibility_z P th) as [z|]; [|discriminate].
    simpl. destruct (py_div _ _) as [n|]; [|discriminate]. simpl.
    intros [= <-]. py_cases; lra.
  - intros HV Hz. destruct (Qle_bool_spec V 0); [lra|]. cbv zeta.
    destruct (get_compressibility_z P th) as [z|]; [|reflexivity]. simpl.
    unfold py_div.
    destruct (Qeq_bool_spec (z * gas_constant_R_J_per_molK th * (T + 273.15)) 0)
      as [E|E]; [reflexivity|].
    exfalso. apply E. destruct Hz as [Hz|Hz]; rewrite Hz; ring.
Qed.

(** X3.  [pressure_from_mass] raises in exactly two situations, both
    with a positive mass and volume: a molar mass of 0 (the division
    [mass_kg / M]) and an empty compressibility table (the lookup in the
    first update).  In every other case it returns; a non-positive mass
    or volume returns before either is touched.  This says when the call
    raises, not which number it returns. *)
Theorem pressure_from_mass_raises_iff (m T V : Q) (th : ThermoConfig) :
  pressure_from_mass m T V th = None <->
  0 < V /\ 0 < m /\
  (molar_mass_H2_kg_per_mol th == 0 \/ compressibility_segments th = []).
Proof.
  unfold pressure_from_mass. split.
  - destruct (Qle_bool_spec V 0) as [HV|HV]; [discriminate|].
    destruct (Qle_bool_spec m 0) as [Hm|Hm]; [discriminate|].
    simpl orb. cbv iota zeta. intros E.
    split; [exact HV|]. split; [exact Hm|].
    destruct (Qeq_bool_spec (molar_mass_H2_kg_per_mol th) 0) as [HM|HM];
      [left; exact HM|].
    right. destruct (compressibility_segments th) as [|s0 rest] eqn:Eseg;
      [reflexivity|].
    exfalso. rewrite (py_div_nonzero _ _ HM) in E. unfold obind at 1 in E.
    destruct (for_range_pressure_update_total th
                (m / molar_mass_H2_kg_per_mol th) (T + 273.15) V 5
                10000000.0) as (q & Eq).
    { rewrite Eseg. discriminate. }
    rewrite Eq in E. discriminate E.
  - intros (HV & Hm & Hcause).
    destruct (Qle_bool_spec V 0); [lra|].
    destruct (Qle_bool_spec m 0); [lra|]. simpl orb. cbv iota zeta.
    unfold py_div at 1.
    destruct (Qeq_bool_spec (molar_mass_H2_kg_per_mol th) 0) as [HM|HM];
      [reflexivity|].
    destruct Hcause as [HM0 | Hempty]; [contradiction|].
    unfold obind at 1. simpl for_range. unfold pressure_update at 1.
    unfold get_compressibility_z. rewrite Hempty. reflexivity.
Qed.

(** X4.  Cycle losses are 0 for an empty inventory or a non-positive
    fraction, [working_gas * fraction] otherwise, and never more than the
    inventory when the fraction is at most 1. *)
Theorem compute_cycle_losses_kg_bounds (wg lf : Q) :
  (wg <= 0 \/ lf <= 0 -> compute_cycle_losses_kg wg lf = 0) /\
  (0 < wg -> 0 < lf -> compute_cycle_losses_kg wg lf = wg * lf) /\
  (0 <= wg -> lf <= 1 -> 0 <= compute_cycle_losses_kg wg lf <= wg).
Proof.
  unfold compute_cycle_losses_kg. split; [|split].
  - intros [Hw|Hl].
    + destruct (Qle_bool_spec wg 0); [reflexivity | lra].
    + destruct (Qle_bool_spec lf 0); [now rewrite orb_true_r | lra].
  - intros Hw Hl. destruct (Qle_bool_spec wg 0); [lra|].
    destruct (Qle_bool_spec lf 0); [lra|]. simpl.
    unfold py_max. destruct (Qlt_bool_spec (wg * lf) 0); [nra | reflexivity].
  - intros Hw Hl. destruct (Qle_bool_spec wg 0); simpl; [lra|].
    destruct (Qle_bool_spec lf 0); simpl; [lra|].
    unfold py_max. destruct (Qlt_bool_spec (wg * lf) 0); split; nra.
Qed.

Lemma Qabs_py_nonneg x : 0 <= Qabs_py x.
Proof. unfold Qabs_py. destruct (Qlt_bool_spec x 0); lra. Qed.

Lemma Qabs_py_zero_iff x : Qabs_py x == 0 <-> x == 0.
Proof. unfold Qabs_py. destruct (Qlt_bool_spec x 0); split; lra. Qed.

(** X5.  The mass-balance residual is never negative, and it is 0 exactly
    when injected - withdrawn - losses equals the change in storage. *)
Theorem mass_balance_residual_zero_iff (inj wdr losses delta : Q) :
  0 <= mass_balance_residual_fraction inj wdr losses delta /\
  (mass_balance_residual_fraction inj wdr losses delta == 0 <->
   inj - wdr - losses == delta).
Proof.
  unfold mass_balance_residual_fraction. cbv zeta.
  set (num := Qabs_py (inj - wdr - losses - delta)).
  set (den := py_max (Qabs_py inj) 0.000000001).
  assert (Hden : 0 < den) by (unfold den; py_cases; lra).
  assert (Hnum : 0 <= num) by apply Qabs_py_nonneg.
  assert (Hz : num == 0 <-> inj - wdr - losses == delta).
  { unfold num. rewrite Qabs_py_zero_iff. split; lra. }
  split.
  - apply Qle_shift_div_l; lra.
  - rewrite <- Hz. split; intros E.
    + assert (E' : num == num / den * den) by (field; lra).
      rewrite E' , E. ring.
    + rewrite E. field. lra.
Qed.

(* ================================================================== *)
(** ** Further properties: the records of a run *)
(* ================================================================== *)

Lemma clamp_inventory_withdrawn_nonneg cap x i w :
  0 <= w -> 0 <= snd (clamp_inventory cap x i w).
Proof.
  intros Hw. unfold clamp_inventory.
  destruct (Qlt_bool_spec x 0).
  - destruct (Qlt_bool_spec cap 0); simpl; py_cases; lra.
  - destruct (Qlt_bool_spec cap x); simpl; exact Hw.
Qed.

Lemma map_snd_enumerate {A} (l : list A) : map snd (enumerate l) = l.
Proof.
  unfold enumerate. generalize 0%nat.
  induction l as [|a l IH]; intros k; simpl; [reflexivity|].
  rewrite IH. reflexivity.
Qed.

Section RunExtras.
Context {G : Type} `{Generator G}.
Variable year_of : Z -> Z.

(** X7.  Every recorded pressure is at most [pressure_max + margin]; when
    the clamp range is not empty it is also at least
    [pressure_min - margin], so the record passes
    [check_pressure_within_bounds] with the facility's own bounds. *)
Theorem recorded_pressure_within_bounds fr cfg th tn lc pc vc ti sched g
      ts_df cycles g' :
  simulate_facility_timeseries year_of fr cfg th tn lc pc vc ti sched g
    = Some ((ts_df, cycles), g') ->
  forall r, In r ts_df ->
    ts_pressure_mpa r <= pressure_max_mpa fr + pressure_margin_mpa vc /\
    (pressure_min_mpa fr - pressure_margin_mpa vc
     <= pressure_max_mpa fr + pressure_margin_mpa vc ->
     pressure_min_mpa fr - pressure_margin_mpa vc <= ts_pressure_mpa r /\
     check_pressure_within_bounds (ts_pressure_mpa r) (pressure_min_mpa fr)
       (pressure_max_mpa fr) (pressure_margin_mpa vc) = true).
Proof.
  intros Hrun.
  destruct (simulate_facility_timeseries_inv _ _ _ _ _ _ _ _ _ _ _ _ _ _ Hrun)
    as (cap & cush & g1 & ly & g2 & st & _ & _ & Eloop & -> & _).
  apply Forall_forall.
  apply (records_of_run _ (fun _ => True) _ _ _ _ _ _ Eloop);
    [reflexivity | exact I |].
  intros [idx ts] s g0 s' g0' _ _ E. split; [exact I|].
  destruct (simulate_week_inv _ _ _ _ _ _ _ _ _ _ _ _ _ _ _ _ _ _ _ E)
    as (T & g3 & wv & g4 & p0 & nz & pin & pout & _ & _ & ->).
  eexists. split; [reflexivity|]. simpl.
  unfold check_pressure_within_bounds.
  set (lo := pressure_min_mpa fr - pressure_margin_mpa vc).
  set (hi := pressure_max_mpa fr + pressure_margin_mpa vc).
  split; [py_cases; lra|]. intros Hlh.
  assert (Hb : lo <= py_min hi (py_max lo (p0 + nz)) <= hi)
    by (py_cases; lra).
  split; [tauto|].
  destruct (Qle_bool_spec lo (py_min hi (py_max lo (p0 + nz)))); [|lra].
  destruct (Qle_bool_spec (py_min hi (py_max lo (p0 + nz))) hi); [|lra].
  reflexivity.
Qed.

Lemma foldM_timestamps (step : nat * Z -> LoopState -> M G LoopState) fid :
  (forall it s g s' g', step it s g = Some (s', g') ->
     exists r, st_records s' = st_records s ++ [r] /\
               ts_timestamp r = snd it /\ ts_facility_id r = fid) ->
  forall items st g st' g',
    foldM step items st g = Some (st', g') ->
    Forall (fun r => ts_facility_id r = fid) (st_records st) ->
    map ts_timestamp (st_records st')
    = map ts_timestamp (st_records st) ++ map snd items /\
    Forall (fun r => ts_facility_id r = fid) (st_records st').
Proof.
  intros Hstep. induction items as [|it items IH];
    intros st g st' g' Hrun Hfid; simpl in Hrun.
  - inv_ret Hrun. simpl. rewrite app_nil_r. auto.
  - inv_bind Hrun as s1 g1 E1.
    destruct (Hstep _ _ _ _ _ E1) as (r & Er & Et & Ef).
    destruct (IH _ _ _ _ Hrun) as [A B].
    { rewrite Er. apply Forall_app. split; [exact Hfid|].
      constructor; [exact Ef | constructor]. }
    split; [|exact B]. rewrite A, Er, map_app. simpl.
    rewrite Et, <- app_assoc. reflexivity.
Qed.

(** A run appends one record per week of the time index, in order, each
    with the facility's identifier. *)
Lemma run_row_keys fr cfg th tn lc pc vc ti sched g ts_df cycles g' :
  simulate_facility_timeseries year_of fr cfg th tn lc pc vc ti sched g
    = Some ((ts_df, cycles), g') ->
  map ts_timestamp ts_df = ti /\
  Forall (fun r => ts_facility_id r = facility_id fr) ts_df.
Proof.
  intros Hrun.
  destruct (simulate_facility_timeseries_inv _ _ _ _ _ _ _ _ _ _ _ _ _ _ Hrun)
    as (cap & cush & g1 & ly & g2 & st & _ & _ & Eloop & -> & _).
  destruct (fun Hs => foldM_timestamps _ (facility_id fr) Hs _ _ _ _ _ Eloop
                        (Forall_nil _)) as [A B].
  - intros [idx ts] s g0 s' g0' E.
    destruct (simulate_week_inv _ _ _ _ _ _ _ _ _ _ _ _ _ _ _ _ _ _ _ E)
      as (T & g3 & wv & g4 & p0 & nz & pin & pout & _ & _ & ->).
    eexists. split; [reflexivity|]. split; reflexivity.
  - simpl in A. rewrite map_snd_enumerate in A. split; [exact A | exact B].
Qed.

(** X13.  The mass balance of an active week, measured as the code
    measures it at lines 486-491 (injected - withdrawn - total losses
    against the change of inventory since the week's leak), with the
    recorded flows.  It closes when no clamp fired; when the inventory
    fell below 0 it is off by the part of the deficit the withdrawal
    could not cover, and when it rose above the capacity by the part of
    the excess the injection could not cover.  These are identities of
    exact arithmetic; the code's floats satisfy them up to rounding. *)
Theorem active_cycle_mass_balance fr cfg lc pc mp cap sl ts T st wg
      g wv g' :
  0 <= cap ->
  active_cycle fr cfg lc pc mp cap sl ts T st wg g = Some (wv, g') ->
  exists mode tf inj0 wdr0 lf g1 g2 g3 g4,
    choice_weighted mode_choices mp g = Some (mode, g1) /\
    rng_lognormal (relative_mean (injection_mass_kg (distributions cfg)))
        (relative_sigma (injection_mass_kg (distributions cfg))) g1
      = Some (tf, g2) /\
    draw_flows mode
      (cap * ramp_cycle_fraction
               (cycle_mass_fraction_min (cycling cfg))
               (cycle_mass_fraction_max (cycling cfg))
               (max_relative_change_per_cycle (cycling cfg))
               (st_last_cycle_fraction st) tf) g2
      = Some ((inj0, wdr0), g3) /\
    sample_loss_fraction lc g3 = Some (lf, g4) /\
    let result := wg + inj0 - wdr0 - compute_cycle_losses_kg wg lf - sl in
    let imbalance :=
      wv_h2_injected_kg wv - wv_h2_withdrawn_kg wv
      - wv_total_cycle_losses_kg wv - (wv_working_gas_kg wv - wg) in
    (0 <= result -> result <= cap -> imbalance == 0) /\
    (result < 0 -> imbalance == result + py_min (- result) wdr0) /\
    (cap < result ->
     imbalance == result - cap - py_min (result - cap) inj0).
Proof.
  intros Hcap Hact.
  destruct (active_cycle_inv _ _ _ _ _ _ _ _ _ _ _ _ _ _ Hact)
    as (mode & tf & inj0 & wdr0 & lf & p_in & p_out & g1 & g2 & g3 & g4
        & Emode & Etf & Efl & Elf & ->).
  exists mode, tf, inj0, wdr0, lf, g1, g2, g3, g4.
  split; [exact Emode|]. split; [exact Etf|]. split; [exact Efl|].
  split; [exact Elf|]. simpl.
  set (dyn := compute_cycle_losses_kg wg lf).
  set (result := wg + inj0 - wdr0 - dyn - sl).
  unfold clamp_inventory.
  destruct (Qlt_bool_spec result 0) as [Hneg|Hpos].
  - destruct (Qlt_bool_spec cap 0) as [C|_]; [lra|]. simpl.
    split; [intros; lra|]. split; [|intros; lra].
    intros _. unfold result. ring.
  - destruct (Qlt_bool_spec cap result) as [Hov|Hin]; simpl.
    + split; [intros; lra|]. split; [intros; lra|].
      intros _. unfold result. ring.
    + split; [|split; intros; lra].
      intros _ _. unfold result. ring.
Qed.

(** X14.  [_compute_facility_capacity_kg] splits the gas mass at the
    maximum pressure: both parts are non-negative, and for a working
    fraction between 0 and 1 the working capacity is that fraction of the
    total and working capacity plus cushion gas is the total. *)
Theorem capacity_split_conserves_mass fr cfg th tn g cap cush g' :
  _compute_facility_capacity_kg fr cfg th tn g = Some ((cap, cush), g') ->
  let salt := String.eqb (facility_type fr) "salt_cavern" in
  let frac := if salt
              then salt_working_gas_fraction_of_total (salt_cavern cfg)
              else porous_working_gas_fraction_of_pore_volume
                     (porous_reservoir cfg) in
  let pmax := if salt then salt_pressure_max_mpa (salt_cavern cfg)
              else porous_pressure_max_mpa (porous_reservoir cfg) in
  exists T total,
    mass_from_pvt pmax T (cavern_volume_m3 fr) th = Some total /\
    0 <= total /\ 0 <= cap /\ 0 <= cush /\
    (0 <= frac -> frac <= 1 ->
     cap == total * frac /\ cap + cush == total).
Proof.
  unfold _compute_facility_capacity_kg. intros H0. cbv zeta.
  destruct (String.eqb (facility_type fr) "salt_cavern");
    inv_bind H0 as T g1 ET; inv_bind H0 as tot g2 Etot;
    apply lift_inv in Etot; destruct Etot as [Etot ->]; inv_ret H0;
    exists T, tot;
    (split; [exact Etot|]);
    (assert (Htot : 0 <= tot)
       by (revert Etot; unfold mass_from_pvt;
           destruct (Qle_bool _ 0);
           [intros E; injection E as <-; lra|];
           destruct (get_compressibility_z _ _); [|discriminate];
           cbv zeta; unfold obind, py_div;
           destruct (Qeq_bool _ 0); [discriminate|];
           intros E; injection E as <-; py_cases; lra));
    (split; [exact Htot|]);
    (split; [py_cases; lra|]); (split; [py_cases; lra|]);
    intros Hf0 Hf1; split; py_cases; nra.
Qed.

Context `{!GeneratorLaws G}.

(** X12.  No weekly record carries a negative injected or withdrawn
    mass, provided the lower clip bound of the cycle fraction is not
    negative; weeks without a cycle record 0 for both. *)
Theorem recorded_flows_nonneg fr cfg th tn lc pc vc ti sched g
      ts_df cycles g' :
  0 <= cycle_mass_fraction_min (cycling cfg) ->
  simulate_facility_timeseries year_of fr cfg th tn lc pc vc ti sched g
    = Some ((ts_df, cycles), g') ->
  forall r, In r ts_df ->
    0 <= ts_h2_injected_kg r /\ 0 <= ts_h2_withdrawn_kg r /\
    (ts_is_cycle_active r = false ->
     ts_h2_injected_kg r = 0 /\ ts_h2_withdrawn_kg r = 0).
Proof.
  intros Hmin Hrun.
  destruct (simulate_facility_timeseries_inv _ _ _ _ _ _ _ _ _ _ _ _ _ _ Hrun)
    as (cap & cush & g1 & ly & g2 & st & Ecap & _ & Eloop & -> & _).
  destruct (capacity_nonneg _ _ _ _ _ _ _ _ Ecap) as [Hcap _].
  apply Forall_forall.
  apply (records_of_run _ (fun _ => True) _ _ _ _ _ _ Eloop);
    [reflexivity | exact I |].
  intros [idx ts] s g0 s' g0' _ _ E. split; [exact I|].
  destruct (simulate_week_inv _ _ _ _ _ _ _ _ _ _ _ _ _ _ _ _ _ _ _ E)
    as (T & g3 & wv & g4 & p0 & nz & pin & pout & Ewv & _ & ->).
  eexists. split; [reflexivity|]. simpl.
  destruct (week_is_active year_of sched idx ts).
  - destruct (active_cycle_inv _ _ _ _ _ _ _ _ _ _ _ _ _ _ Ewv)
      as (mode & tf & inj0 & wdr0 & lf & p_in & p_out & h1 & h2 & h3 & h4
          & _ & _ & Eflows & _ & ->).
    simpl.
    assert (Hcf : 0 <= cap * ramp_cycle_fraction
              (cycle_mass_fraction_min (cycling cfg))
              (cycle_mass_fraction_max (cycling cfg))
              (max_relative_change_per_cycle (cycling cfg))
              (st_last_cycle_fraction s) tf).
    { pose proof (ramp_cycle_fraction_lower
                    (cycle_mass_fraction_min (cycling cfg))
                    (cycle_mass_fraction_max (cycling cfg))
                    (max_relative_change_per_cycle (cycling cfg))
                    (st_last_cycle_fraction s) tf) as Hl.
      nra. }
    destruct (draw_flows_nonneg _ _ _ _ _ _ Hcf Eflows) as [Hi Hw].
    split; [apply clamp_inventory_injected_nonneg; exact Hi|].
    split; [apply clamp_inventory_withdrawn_nonneg; exact Hw|].
    discriminate.
  - subst wv. simpl. split; [lra|]. split; [lra|]. split; reflexivity.
Qed.

End RunExtras.

(* ================================================================== *)
(** ** Further properties: cycle rows and purity *)
(* ================================================================== *)

Lemma last_record_in l r : last_record l = Some r -> In r l.
Proof. unfold last_record. apply nth_error_In. Qed.

Lemma filter_app_one {A} (f : A -> bool) l x :
  filter f (l ++ [x]) = filter f l ++ (if f x then [x] else []).
Proof. rewrite filter_app. reflexivity. Qed.

Lemma filter_filter_implied {A} (p q : A -> bool) l :
  (forall x, In x l -> p x = true -> q x = true) ->
  filter p l = filter p (filter q l).
Proof.
  induction l as [|a l IH]; intros Hpq; simpl; [reflexivity|].
  assert (IH' := IH (fun x Hx => Hpq x (or_intror Hx))).
  destruct (q a) eqn:Eq; simpl.
  - rewrite IH'. reflexivity.
  - destruct (p a) eqn:Ep; [|exact IH'].
    rewrite (Hpq a (or_introl eq_refl) Ep) in Eq. discriminate.
Qed.

Lemma Forall2_nth_error_l {A B} (R : A -> B -> Prop) l1 l2 :
  Forall2 R l1 l2 ->
  forall j a, nth_error l1 j = Some a ->
    exists b, nth_error l2 j = Some b /\ R a b.
Proof.
  induction 1 as [|x y l1 l2 Hxy _ IH]; intros j a Hj.
  - destruct j; discriminate.
  - destruct j as [|j]; simpl in Hj.
    + injection Hj as <-. exists y. split; [reflexivity | exact Hxy].
    + apply IH. exact Hj.
Qed.

Lemma Forall2_of_nth_error {A B} (R : A -> B -> Prop) :
  forall l1 l2,
    length l1 = length l2 ->
    (forall j a b, nth_error l1 j = Some a -> nth_error l2 j = Some b ->
       R a b) ->
    Forall2 R l1 l2.
Proof.
  induction l1 as [|a l1 IH]; intros [|b l2] Hlen Hnth; try discriminate.
  - constructor.
  - constructor.
    + apply (Hnth 0%nat); reflexivity.
    + apply IH; [simpl in Hlen; lia|].
      intros j x y Hx Hy. apply (Hnth (S j)); assumption.
Qed.

Lemma nth_error_snoc_cases {A} (l : list A) x j a :
  nth_error (l ++ [x]) j = Some a ->
  nth_error l j = Some a \/ (j = length l /\ a = x).
Proof.
  intros Hj. destruct (Nat.lt_ge_cases j (length l)) as [Hlt|Hge].
  - left. rewrite nth_error_app1 in Hj by exact Hlt. exact Hj.
  - right. rewrite nth_error_app2 in Hj by exact Hge.
    destruct (j - length l)%nat as [|k] eqn:Ek; simpl in Hj.
    + injection Hj as <-. split; [lia | reflexivity].
    + destruct k; discriminate.
Qed.

Section RunRows.
Context {G : Type} `{Generator G}.
Variable year_of : Z -> Z.

(** The purity columns of the record a week appends. *)
Lemma simulate_week_purity fr cfg th tn lc pc vc sched mp cap cush leak
      it st g st' g' :
  simulate_week year_of fr cfg th tn lc pc vc sched mp cap cush leak
                it st g = Some (st', g') ->
  exists r, st_records st' = st_records st ++ [r] /\
    ((exists v n,
        ts_purity_in_pct r = py_min (inlet_max pc) (py_max (inlet_min pc) v) /\
        ts_purity_out_pct r
        = py_min (inlet_max pc)
            (py_max (inlet_min pc)
               (py_min 100 (py_max 0 (ts_purity_in_pct r + n))))) \/
     (exists r0, last_record (st_records st) = Some r0 /\
        ts_purity_in_pct r = ts_purity_in_pct r0 /\
        ts_purity_out_pct r = ts_purity_out_pct r0) \/
     (st_records st = [] /\
      ts_purity_in_pct r = inlet_mean pc /\
      ts_purity_out_pct r = inlet_mean pc)).
Proof.
  unfold simulate_week. destruct it as [idx ts]. intros H0.
  destruct (if String.eqb (facility_type fr) "salt_cavern" then _ else _)
    as [base_T grad].
  inv_bind H0 as T g1 ET. inv_bind H0 as wv g2 Ewv.
  inv_bind H0 as p0 g3 Ep. inv_bind H0 as noise g4 En.
  destruct (week_is_active year_of sched idx ts).
  - unfold active_cycle in Ewv.
    inv_bind Ewv as mode h1 Emode. inv_bind Ewv as tf h2 Etf.
    inv_bind Ewv as flows h3 Eflows. destruct flows as [inj0 wdr0].
    inv_bind Ewv as lf h4 Elf.
    destruct (clamp_inventory _ _ _ _) as [[wg' inj'] wdr'].
    inv_bind Ewv as p_in h5 Ein. inv_bind Ewv as p_out h6 Eout.
    inv_ret Ewv. simpl in H0. inv_ret H0.
    unfold sample_inlet_purity_pct in Ein. inv_bind Ein as v k1 Ev.
    inv_ret Ein.
    unfold update_purity_out_pct in Eout. inv_bind Eout as n k2 Ek.
    inv_ret Eout.
    eexists. split; [reflexivity|]. left. exists v, n. simpl.
    split; reflexivity.
  - inv_ret Ewv. simpl in H0.
    destruct (last_record (st_records st)) as [r0|] eqn:El; inv_ret H0;
      (eexists; split; [reflexivity|]); right; simpl.
    + left. exists r0. auto.
    + right. split; [|split; reflexivity].
      unfold last_record in El. apply nth_error_None in El.
      destruct (st_records st); [reflexivity | simpl in El; lia].
Qed.

(** X11.  With [inlet_min <= inlet_mean <= inlet_max], both purity columns
    of every weekly record lie in [inlet_min, inlet_max]: drawn and
    clipped on an active week, carried over from the previous record
    otherwise, [inlet_mean] before the first cycle. *)
Theorem recorded_purity_within_inlet_bounds fr cfg th tn lc pc vc ti sched
      g ts_df cycles g' :
  inlet_min pc <= inlet_mean pc -> inlet_mean pc <= inlet_max pc ->
  simulate_facility_timeseries year_of fr cfg th tn lc pc vc ti sched g
    = Some ((ts_df, cycles), g') ->
  forall r, In r ts_df ->
    inlet_min pc <= ts_purity_in_pct r <= inlet_max pc /\
    inlet_min pc <= ts_purity_out_pct r <= inlet_max pc /\
    (purity_min_pct vc <= inlet_min pc ->
     inlet_max pc <= purity_max_pct vc ->
     check_purity_range (ts_purity_in_pct r) vc = true /\
     check_purity_range (ts_purity_out_pct r) vc = true).
Proof.
  intros Hlo Hhi Hrun.
  assert (Hcheck : forall r,
            inlet_min pc <= ts_purity_in_pct r <= inlet_max pc /\
            inlet_min pc <= ts_purity_out_pct r <= inlet_max pc ->
            inlet_min pc <= ts_purity_in_pct r <= inlet_max pc /\
            inlet_min pc <= ts_purity_out_pct r <= inlet_max pc /\
            (purity_min_pct vc <= inlet_min pc ->
             inlet_max pc <= purity_max_pct vc ->
             check_purity_range (ts_purity_in_pct r) vc = true /\
             check_purity_range (ts_purity_out_pct r) vc = true)).
  { intros r [A B]. split; [exact A|]. split; [exact B|].
    intros H1 H2. unfold check_purity_range.
    destruct (Qle_bool_spec (purity_min_pct vc) (ts_purity_in_pct r));
      [|lra].
    destruct (Qle_bool_spec (ts_purity_in_pct r) (purity_max_pct vc));
      [|lra].
    destruct (Qle_bool_spec (purity_min_pct vc) (ts_purity_out_pct r));
      [|lra].
    destruct (Qle_bool_spec (ts_purity_out_pct r) (purity_max_pct vc));
      [|lra].
    split; reflexivity. }
  intros r Hr. apply Hcheck. revert r Hr.
  destruct (simulate_facility_timeseries_inv _ _ _ _ _ _ _ _ _ _ _ _ _ _ Hrun)
    as (cap & cush & g1 & ly & g2 & st & _ & _ & Eloop & -> & _).
  apply Forall_forall.
  set (P := fun r : WeeklyRecord =>
              inlet_min pc <= ts_purity_in_pct r <= inlet_max pc /\
              inlet_min pc <= ts_purity_out_pct r <= inlet_max pc).
  refine (foldM_invariant _ (fun s => Forall P (st_records s)) _ _
            _ _ _ _ _ Eloop).
  - intros it s g0 s' g0' _ Hs E.
    destruct (simulate_week_purity _ _ _ _ _ _ _ _ _ _ _ _ _ _ _ _ _ E)
      as (r & -> & Hr).
    apply Forall_app. split; [exact Hs|]. constructor; [|constructor].
    destruct Hr as [(v & n & Ein & Eout) | [(r0 & El & Ein & Eout)
                                           | (_ & Ein & Eout)]].
    + unfold P. rewrite Eout. rewrite Ein. split; py_cases; lra.
    + apply last_record_in in El.
      pose proof (proj1 (Forall_forall _ _) Hs r0 El) as [A B].
      unfold P. rewrite Ein, Eout. split; assumption.
    + unfold P. rewrite Ein, Eout. split; lra.
  - constructor.
Qed.
(** What the loop keeps true of its two lists of rows. *)
Lemma loop_cycle_rows fr cfg th tn lc pc vc sched mp cap cush leak :
  forall items st g st' g',
    foldM (simulate_week year_of fr cfg th tn lc pc vc sched mp cap cush
             leak) items st g = Some (st', g') ->
    st_records st = [] -> st_cycle_records st = [] ->
    st_cycle_index st = 0%Z ->
    st_cycle_index st' = Z.of_nat (length (st_cycle_records st')) /\
    Forall2 cycle_row_of_week
      (filter ts_is_cycle_active (st_records st')) (st_cycle_records st') /\
    (forall j c, nth_error (st_cycle_records st') j = Some c ->
       cy_cycle_index c = (Z.of_nat j + 1)%Z) /\
    Forall (fun r => ts_facility_id r = facility_id fr /\
                     (ts_is_cycle_active r = false ->
                      ts_cycle_index r = 0%Z /\
                      ts_cycle_efficiency r = None))
           (st_records st').
Proof.
  intros items st g st' g' Eloop E1 E2 E3.
  refine (foldM_invariant _
    (fun s =>
       st_cycle_index s = Z.of_nat (length (st_cycle_records s)) /\
       Forall2 cycle_row_of_week
         (filter ts_is_cycle_active (st_records s)) (st_cycle_records s) /\
       (forall j c, nth_error (st_cycle_records s) j = Some c ->
          cy_cycle_index c = (Z.of_nat j + 1)%Z) /\
       Forall (fun r => ts_facility_id r = facility_id fr /\
                        (ts_is_cycle_active r = false ->
                         ts_cycle_index r = 0%Z /\
                         ts_cycle_efficiency r = None))
              (st_records s)) _ _ _ _ _ _ _ Eloop).
  - intros [idx ts] s g0 s' g0' _ (Ia & Ib & Ic & Id) E.
    destruct (simulate_week_inv _ _ _ _ _ _ _ _ _ _ _ _ _ _ _ _ _ _ _ E)
      as (T & g3 & wv & g4 & p0 & nz & pin & pout & Ewv & _ & ->).
    destruct (week_is_active year_of sched idx ts).
    + destruct (active_cycle_inv _ _ _ _ _ _ _ _ _ _ _ _ _ _ Ewv)
        as (mode & tf & inj0 & wdr0 & lf & p_in & p_out & h1 & h2 & h3 & h4
            & _ & _ & _ & _ & ->).
      simpl. rewrite filter_app_one. simpl.
      split; [rewrite length_app; simpl; lia|].
      split; [apply Forall2_app; [exact Ib|];
              constructor; [|constructor];
              unfold cycle_row_of_week; simpl; repeat split|].
      split.
      * intros j c Hj. apply nth_error_snoc_cases in Hj.
        destruct Hj as [Hj | [-> ->]]; [exact (Ic j c Hj)|].
        simpl. lia.
      * apply Forall_app. split; [exact Id|].
        constructor; [|constructor]. simpl. split; [reflexivity|].
        discriminate.
    + subst wv. simpl. rewrite filter_app_one. simpl. rewrite app_nil_r.
      split; [exact Ia|]. split; [exact Ib|]. split; [exact Ic|].
      apply Forall_app. split; [exact Id|].
      constructor; [|constructor]. simpl. split; [reflexivity|].
      intros _. split; reflexivity.
  - rewrite E1, E2, E3. simpl.
    split; [reflexivity|]. split; [constructor|].
    split; [intros [|j] c Hj; discriminate | constructor].
Qed.

(** X9.  Cycles are numbered 1, 2, 3, ... in the order of their weeks and
    the count never restarts with a new year: the j-th cycle row and the
    j-th active weekly row both carry index j+1, there is one cycle row
    per active week, and a week without a cycle carries index 0 and no
    efficiency. *)
Theorem cycle_indices_count_active_weeks fr cfg th tn lc pc vc ti sched g
      ts_df cycles g' :
  simulate_facility_timeseries year_of fr cfg th tn lc pc vc ti sched g
    = Some ((ts_df, cycles), g') ->
  length cycles = length (filter ts_is_cycle_active ts_df) /\
  (forall j c, nth_error cycles j = Some c ->
     cy_cycle_index c = (Z.of_nat j + 1)%Z) /\
  (forall j r, nth_error (filter ts_is_cycle_active ts_df) j = Some r ->
     ts_cycle_index r = (Z.of_nat j + 1)%Z) /\
  (forall r, In r ts_df -> ts_is_cycle_active r = false ->
     ts_cycle_index r = 0%Z /\ ts_cycle_efficiency r = None).
Proof.
  intros Hrun.
  destruct (simulate_facility_timeseries_inv _ _ _ _ _ _ _ _ _ _ _ _ _ _ Hrun)
    as (cap & cush & g1 & ly & g2 & st & _ & _ & Eloop & -> & ->).
  destruct (loop_cycle_rows _ _ _ _ _ _ _ _ _ _ _ _ _ _ _ _ _ Eloop
              eq_refl eq_refl eq_refl) as (_ & Ib & Ic & Id).
  unfold fill_avg_pressure.
  split; [rewrite length_map; symmetry; exact (Forall2_length Ib)|].
  split.
  { intros j c Hj. rewrite nth_error_map in Hj.
    destruct (nth_error (st_cycle_records st) j) as [c0|] eqn:E0;
      [|discriminate].
    injection Hj as <-. simpl. exact (Ic j c0 E0). }
  split.
  { intros j r Hj.
    destruct (Forall2_nth_error_l _ _ _ Ib j r Hj) as (c & Hc & Hrc).
    destruct Hrc as (_ & Eci & _). rewrite <- Eci. exact (Ic j c Hc). }
  intros r Hr Hina.
  exact (proj2 (proj1 (Forall_forall _ _) Id r Hr) Hina).
Qed.

(** X10.  Each row of the cycle summary describes exactly one active
    week: it copies that week's facility, index, start, flows, losses,
    temperature and efficiency, ends seven days after its start, and its
    average pressure is the pressure of that single week. *)
Theorem cycle_summary_copies_its_week fr cfg th tn lc pc vc ti sched g
      ts_df cycles g' :
  simulate_facility_timeseries year_of fr cfg th tn lc pc vc ti sched g
    = Some ((ts_df, cycles), g') ->
  Forall2 (fun r c =>
             cycle_row_of_week r c /\
             exists a, cy_avg_pressure_mpa c = Some a /\
                       a == ts_pressure_mpa r)
          (filter ts_is_cycle_active ts_df) cycles.
Proof.
  intros Hrun.
  destruct (simulate_facility_timeseries_inv _ _ _ _ _ _ _ _ _ _ _ _ _ _ Hrun)
    as (cap & cush & g1 & ly & g2 & st & _ & _ & Eloop & -> & ->).
  destruct (loop_cycle_rows _ _ _ _ _ _ _ _ _ _ _ _ _ _ _ _ _ Eloop
              eq_refl eq_refl eq_refl) as (_ & Ib & Ic & Id).
  set (A := filter ts_is_cycle_active (st_records st)) in *.
  assert (HA : forall j r, nth_error A j = Some r ->
            ts_cycle_index r = (0 + Z.of_nat j + 1)%Z /\
            ts_facility_id r = facility_id fr).
  { intros j r Hj.
    destruct (Forall2_nth_error_l _ _ _ Ib j r Hj) as (c & Hc & Hrc).
    destruct Hrc as (_ & Eci & _). rewrite <- Eci, (Ic j c Hc).
    split; [lia|].
    apply nth_error_In in Hj. apply filter_In in Hj.
    exact (proj1 (proj1 (Forall_forall _ _) Id r (proj1 Hj))). }
  apply Forall2_of_nth_error.
  { unfold fill_avg_pressure. rewrite length_map. exact (Forall2_length Ib). }
  intros j r c' Hr Hc'. unfold fill_avg_pressure in Hc'.
  rewrite nth_error_map in Hc'.
  destruct (nth_error (st_cycle_records st) j) as [c|] eqn:Ec;
    [|discriminate].
  injection Hc' as <-.
  destruct (Forall2_nth_error_l _ _ _ Ib j r Hr) as (c1 & Hc1 & Hrc).
  rewrite Ec in Hc1. injection Hc1 as <-.
  split; [exact Hrc|]. simpl.
  assert (Ep : pressures_of_cycle (st_records st) c = [ts_pressure_mpa r]).
  { transitivity (pressures_of_cycle A c).
    - unfold pressures_of_cycle, A. f_equal.
      apply filter_filter_implied. intros x Hx Hp.
      destruct (ts_is_cycle_active x) eqn:Ea; [reflexivity|].
      destruct (proj2 (proj1 (Forall_forall _ _) Id x Hx) Ea) as [E0 _].
      rewrite E0 in Hp. discriminate.
    - apply (pressures_of_numbered_rows (facility_id fr) A 0%Z
               ltac:(lia) HA j r c Hr).
      + rewrite (Ic j c Ec). lia.
      + destruct Hrc as (Ef & _). rewrite Ef. exact (proj2 (HA j r Hr)). }
  rewrite Ep. apply mean_singleton.
Qed.
End RunRows.

(* ================================================================== *)
(** ** Further properties: years, schedule and temperature *)
(* ================================================================== *)

Lemma StronglySorted_lt_snoc (a : list nat) (k : nat) :
  StronglySorted lt a -> (forall x, In x a -> (x < k)%nat) ->
  StronglySorted lt (a ++ [k]).
Proof.
  induction 1 as [|x a Hs IH Hx]; intros Hlt; simpl.
  - constructor; constructor.
  - constructor.
    + apply IH. intros y Hy. apply Hlt. right. exact Hy.
    + apply Forall_app. split; [exact Hx|].
      constructor; [|constructor]. apply Hlt. left. reflexivity.
Qed.

Lemma insert_sorted_sorted x l :
  StronglySorted le l -> StronglySorted le (insert_sorted x l).
Proof.
  induction 1 as [|y l Hs IH Hy]; simpl.
  - constructor; constructor.
  - destruct (Nat.leb_spec x y) as [Hle|Hgt].
    + constructor; [constructor; assumption|].
      constructor; [exact Hle|].
      eapply Forall_impl; [|exact Hy]. intros z Hz. simpl in Hz. lia.
    + constructor; [exact IH|].
      apply Forall_forall. intros z Hz.
      apply (Permutation_in _ (insert_sorted_perm x l)) in Hz.
      destruct Hz as [<- | Hz]; [lia|].
      exact (proj1 (Forall_forall _ _) Hy z Hz).
Qed.

Lemma sort_indices_sorted l : StronglySorted le (sort_indices l).
Proof.
  induction l as [|x l IH]; simpl; [constructor|].
  apply insert_sorted_sorted. exact IH.
Qed.

Lemma sorted_le_NoDup_lt (l : list nat) :
  StronglySorted le l -> NoDup l -> StronglySorted lt l.
Proof.
  induction 1 as [|x l Hs IH Hx]; intros Hnd; [constructor|].
  inversion Hnd as [|? ? Hnin Hnd']; subst.
  constructor; [exact (IH Hnd')|].
  apply Forall_forall. intros z Hz.
  pose proof (proj1 (Forall_forall _ _) Hx z Hz) as Hle.
  assert (z <> x) by (intros ->; contradiction). lia.
Qed.

Section Schedule.
Context {G : Type} `{Generator G}.
Variable year_of : Z -> Z.

(** The lists [group_by_year] has built after the first [k] weeks hold
    weeks of their own year, in increasing order. *)
Lemma group_by_year_fold_years (ti : list Z) :
  forall l k d,
    (forall j t, nth_error l j = Some t -> nth_error ti (k + j) = Some t) ->
    (forall y a, dict_get y d = Some a ->
       a <> [] /\ StronglySorted lt a /\
       forall idx, In idx a ->
         (idx < k)%nat /\
         exists t, nth_error ti idx = Some t /\ year_of t = y) ->
    let d' := fold_left
                (fun d it => setdefault_append (year_of (snd it)) (fst it) d)
                (combine (seq k (length l)) l) d in
    forall y a, dict_get y d' = Some a ->
      a <> [] /\ StronglySorted lt a /\
      forall idx, In idx a ->
        exists t, nth_error ti idx = Some t /\ year_of t = y.
Proof.
  induction l as [|t0 l IH]; intros k d Hl Hd; simpl.
  - intros y a E. destruct (Hd y a E) as (A & B & C).
    split; [exact A|]. split; [exact B|].
    intros idx Hin. exact (proj2 (C idx Hin)).
  - assert (Ht0 : nth_error ti k = Some t0).
    { specialize (Hl 0%nat t0 eq_refl). rewrite Nat.add_0_r in Hl. exact Hl. }
    apply IH.
    + intros j t Hj. replace (S k + j)%nat with (k + S j)%nat by lia.
      apply Hl. exact Hj.
    + intros y a. destruct (Z.eq_dec y (year_of t0)) as [->|Hne].
      * rewrite dict_get_setdefault_same. intros [= <-].
        set (old := match dict_get (year_of t0) d with
                    | Some l0 => l0 | None => [] end).
        assert (Hold : StronglySorted lt old /\
                       forall idx, In idx old ->
                         (idx < k)%nat /\
                         exists t, nth_error ti idx = Some t /\
                                   year_of t = year_of t0).
        { unfold old. destruct (dict_get (year_of t0) d) as [l0|] eqn:E.
          - destruct (Hd _ _ E) as (_ & B & C). auto.
          - split; [constructor | intros ? []]. }
        destruct Hold as [Hs Hin].
        split; [intros C; apply app_eq_nil in C; destruct C; discriminate|].
        split.
        -- apply StronglySorted_lt_snoc; [exact Hs|].
           intros x Hx. exact (proj1 (Hin x Hx)).
        -- intros idx Hidx. apply in_app_or in Hidx.
           destruct Hidx as [Hidx | [<- | []]].
           ++ destruct (Hin idx Hidx) as [A B]. split; [lia | exact B].
           ++ split; [lia|]. exists t0. auto.
      * rewrite dict_get_setdefault_other by exact Hne. intros E.
        destruct (Hd _ _ E) as (A & B & C).
        split; [exact A|]. split; [exact B|].
        intros idx Hin. destruct (C idx Hin) as [D F]. split; [lia | exact F].
Qed.

Lemma group_by_year_years (ti : list Z) y a :
  dict_get y (group_by_year year_of ti) = Some a ->
  a <> [] /\ StronglySorted lt a /\
  forall idx, In idx a ->
    exists t, nth_error ti idx = Some t /\ year_of t = y.
Proof.
  unfold group_by_year, enumerate.
  apply (group_by_year_fold_years ti ti 0%nat []).
  - auto.
  - discriminate.
Qed.

(** Every list the schedule loop stores has been sorted. *)
Lemma assign_fold_sorted (min_c max_c : Z) :
  forall items acc g acc' g',
    foldM (fun (it : Z * list nat) year_active_indices =>
             let '(year, indices) := it in
             bind (rng_integers min_c (max_c + 1)) (fun n_cycles =>
             bind (rng_choice_no_replace indices
                     (Z.min n_cycles (Z.of_nat (length indices))))
                  (fun active =>
             ret (dict_set year (sort_indices active) year_active_indices))))
          items acc g = Some (acc', g') ->
    (forall y a, dict_get y acc = Some a -> StronglySorted le a) ->
    forall y a, dict_get y acc' = Some a -> StronglySorted le a.
Proof.
  induction items as [|[y0 l0] items IH]; intros acc g0 acc' g0' E Hacc.
  - simpl in E. inv_ret E. exact Hacc.
  - simpl in E. inv_bind E as acc1 g1 Estep.
    inv_bind Estep as k g2 Ek. inv_bind Estep as act g3 Eact.
    inv_ret Estep. refine (IH _ _ _ _ E _).
    intros y1 a1. destruct (Z.eq_dec y1 y0) as [->|Hne].
    + rewrite dict_get_set_same. intros [= <-].
      apply sort_indices_sorted.
    + rewrite dict_get_set_other by exact Hne. apply Hacc.
Qed.

(** X17.  [group_by_year] sorts the weeks of the time index by calendar
    year: the list stored for a year holds exactly the positions whose
    date falls in that year, in increasing order and never empty, and a
    year with no entry has no week. *)
Theorem group_by_year_partitions_weeks (ti : list Z) (y : Z) :
  match dict_get y (group_by_year year_of ti) with
  | Some a =>
      a <> [] /\ StronglySorted lt a /\
      forall idx, In idx a <->
                  exists t, nth_error ti idx = Some t /\ year_of t = y
  | None => forall idx t, nth_error ti idx = Some t -> year_of t <> y
  end.
Proof.
  destruct (group_by_year_spec year_of ti) as (_ & _ & Hcov).
  destruct (dict_get y (group_by_year year_of ti)) as [a|] eqn:E.
  - destruct (group_by_year_years ti y a E) as (A & B & C).
    split; [exact A|]. split; [exact B|].
    intros idx. split; [apply C|].
    intros (t & Ht & <-). destruct (Hcov idx t Ht) as (a' & Ea & Hin).
    rewrite E in Ea. injection Ea as <-. exact Hin.
  - intros idx t Ht Hy. destruct (Hcov idx t Ht) as (a' & Ea & _).
    rewrite Hy, E in Ea. discriminate.
Qed.

(** X15.  With no facility to simulate, [generate_uhs_dataset] does not
    return empty tables: it raises, at the latest where the list of
    weekly frames is concatenated. *)
Theorem generate_uhs_dataset_needs_a_facility cfg :
  (n_facilities cfg <= 0)%Z -> generate_uhs_dataset year_of cfg = None.
Proof.
  intros Hn. unfold generate_uhs_dataset.
  match goal with
  | |- option_map fst (?run ?g) = None =>
      destruct (run g) as [[x gf]|] eqn:Erun; [|reflexivity]
  end.
  exfalso.
  inv_bind Erun as facs g1 Efac.
  inv_bind Erun as sched g2 Esched.
  inv_bind Erun as frames g3 Eframes.
  destruct frames as [tsf cyf].
  inv_bind Erun as tsdf g4 Ets. apply lift_inv in Ets.
  destruct Ets as [Ets _].
  unfold create_facilities in Efac.
  replace (Z.to_nat (n_facilities cfg)) with 0%nat in Efac by lia.
  simpl in Efac. inv_ret Efac.
  simpl in Eframes. inv_ret Eframes.
  discriminate.
Qed.

(** The temperature column of the record a week appends. *)
Lemma simulate_week_temperature fr cfg th tn lc pc vc sched mp cap cush
      leak it st g st' g' :
  simulate_week year_of fr cfg th tn lc pc vc sched mp cap cush leak
                it st g = Some (st', g') ->
  exists r g1, st_records st' = st_records st ++ [r] /\
    compute_temperature_c (depth_m fr)
      (if String.eqb (facility_type fr) "salt_cavern"
       then salt_base_temperature_c (salt_cavern cfg)
       else porous_base_temperature_c (porous_reservoir cfg))
      (if String.eqb (facility_type fr) "salt_cavern"
       then salt_temperature_gradient_c_per_km (salt_cavern cfg)
       else porous_temperature_gradient_c_per_km (porous_reservoir cfg))
      tn g = Some (ts_temperature_c r, g1).
Proof.
  destruct it as [idx ts].
  unfold simulate_week. intros H0.
  destruct (if String.eqb (facility_type fr) "salt_cavern" then _ else _)
    as [base_T grad] eqn:Ebg.
  inv_bind H0 as T g1 ET. inv_bind H0 as wv g2 Ewv.
  inv_bind H0 as p0 g3 Ep. inv_bind H0 as noise g4 En.
  assert (Et : compute_temperature_c (depth_m fr)
            (if String.eqb (facility_type fr) "salt_cavern"
             then salt_base_temperature_c (salt_cavern cfg)
             else porous_base_temperature_c (porous_reservoir cfg))
            (if String.eqb (facility_type fr) "salt_cavern"
             then salt_temperature_gradient_c_per_km (salt_cavern cfg)
             else porous_temperature_gradient_c_per_km
                    (porous_reservoir cfg))
            tn g = Some (T, g1))
    by (destruct (String.eqb (facility_type fr) "salt_cavern");
        injection Ebg as <- <-; exact ET).
  destruct (wv_purity_in_pct wv); [destruct (wv_purity_out_pct wv)|];
    try destruct (last_record (st_records st));
    inv_ret H0; eexists; exists g1; (split; [reflexivity|]); exact Et.
Qed.

(** X19.  When the temperature noise is not configured as "normal", the
    temperature column of a facility is constant: every week records
    base temperature plus gradient times depth in km, for the facility's
    type. *)
Theorem temperature_constant_without_noise fr cfg th tn lc pc vc ti sched
      g ts_df cycles g' :
  tn_distribution tn <> "normal"%string ->
  simulate_facility_timeseries year_of fr cfg th tn lc pc vc ti sched g
    = Some ((ts_df, cycles), g') ->
  forall r, In r ts_df ->
    ts_temperature_c r
    == if String.eqb (facility_type fr) "salt_cavern"
       then salt_base_temperature_c (salt_cavern cfg)
            + salt_temperature_gradient_c_per_km (salt_cavern cfg)
              * (depth_m fr / 1000.0)
       else porous_base_temperature_c (porous_reservoir cfg)
            + porous_temperature_gradient_c_per_km (porous_reservoir cfg)
              * (depth_m fr / 1000.0).
Proof.
  intros Hn Hrun.
  destruct (simulate_facility_timeseries_inv _ _ _ _ _ _ _ _ _ _ _ _ _ _ Hrun)
    as (cap & cush & g1 & ly & g2 & st & _ & _ & Eloop & -> & _).
  apply Forall_forall.
  refine (foldM_invariant _ (fun s => Forall _ (st_records s)) _ _
            _ _ _ _ _ Eloop); [|constructor].
  intros it s g0 s' g0' _ Hs E.
  destruct (simulate_week_temperature _ _ _ _ _ _ _ _ _ _ _ _ _ _ _ _ _ E)
    as (r & k1 & -> & ET).
  apply Forall_app. split; [exact Hs|]. constructor; [|constructor].
  unfold compute_temperature_c in ET.
  apply String.eqb_neq in Hn. rewrite Hn in ET.
  inv_bind ET as nz k2 Enz. inv_ret Enz. inv_ret ET.
  match goal with H1 : ts_temperature_c r = _ |- _ => rewrite H1 end.
  destruct (String.eqb (facility_type fr) "salt_cavern"); ring.
Qed.

Context `{!GeneratorLaws G}.

(** X18.  The activation schedule stores, for a year, weeks of that year
    only, each at most once and in increasing order, and no more of them
    than [max_cycles_per_year] (when that is not negative). *)
Theorem activation_schedule_sorted_weeks_of_year cfg ti g sched g' :
  assign_active_cycles_per_year year_of cfg ti g = Some (sched, g') ->
  forall y a, dict_get y sched = Some a ->
    StronglySorted lt a /\
    (forall idx, In idx a ->
       exists t, nth_error ti idx = Some t /\ year_of t = y) /\
    (Z.of_nat (length a) <= Z.max 0 (max_cycles_per_year (cycling cfg)))%Z.
Proof.
  intros Hrun y a Ea.
  destruct (group_by_year_spec year_of ti) as (Hnd & Hlists & _).
  unfold assign_active_cycles_per_year in Hrun.
  destruct (assign_fold_spec year_of _ _ _ _ _ _ _ Hrun Hnd) as [Hother Hin].
  { intros y1 l1 H1. apply (Hlists y1 l1). apply In_dict_get; assumption. }
  destruct (in_dec Z.eq_dec y (map fst (group_by_year year_of ti)))
    as [Hy|Hy]; [|rewrite (Hother y Hy) in Ea; discriminate].
  apply in_map_iff in Hy. destruct Hy as ([y' l] & Ey & Hyl).
  simpl in Ey. subst y'.
  destruct (Hin y l Hyl) as (a' & k & Ea' & Hk & Hlen & Hnda & Hincl).
  rewrite Ea in Ea'. injection Ea' as <-.
  assert (El : dict_get y (group_by_year year_of ti) = Some l)
    by (apply In_dict_get; assumption).
  destruct (group_by_year_years ti y l El) as (_ & _ & Hyears).
  split; [|split].
  - apply sorted_le_NoDup_lt; [|exact Hnda].
    apply (assign_fold_sorted _ _ _ _ _ _ _ Hrun ltac:(discriminate) y a Ea).
  - intros idx Hidx. apply Hyears. apply Hincl. exact Hidx.
  - assert (Hle : (length a <= Z.to_nat k)%nat) by lia.
    lia.
Qed.
End Schedule.

(* ================================================================== *)
(** ** Further properties: the tables of the dataset *)
(* ================================================================== *)

Lemma map_constant {A B} (f : A -> B) (c : B) (l : list A) :
  Forall (fun x => f x = c) l -> map f l = repeat c (length l).
Proof.
  induction 1 as [|x l Hx _ IH]; simpl; [reflexivity|].
  rewrite Hx, IH. reflexivity.
Qed.

Section Tables.
Context {G : Type} `{Generator G}.
Variable year_of : Z -> Z.

(** X8.  The weekly table is laid out facility by facility, in the order
    of the facility table, and inside a facility week by week: its
    timestamps are the time index repeated once per facility, and its
    facility column repeats each identifier once per week. *)
Theorem weekly_table_layout cfg facs ts cyc :
  generate_uhs_dataset year_of cfg = Some (facs, ts, cyc) ->
  let ti := generate_time_index (start_date cfg) (n_years cfg) in
  map ts_timestamp ts = concat (map (fun _ => ti) facs) /\
  map ts_facility_id ts
  = flat_map (fun f => repeat (facility_id f) (length ti)) facs /\
  length ts = (Z.to_nat (n_facilities cfg) * Z.to_nat (n_years cfg * 52))%nat.
Proof.
  intros Hrun ti.
  destruct (generate_uhs_dataset_inv _ _ _ _ _ Hrun)
    as (g1 & sched & g2 & res & Efac & _ & HF & _ & -> & _).
  apply create_facilities_length in Efac.
  assert (Hlay : map ts_timestamp (concat (map fst res))
                 = concat (map (fun _ => ti) facs) /\
                 map ts_facility_id (concat (map fst res))
                 = flat_map (fun f => repeat (facility_id f) (length ti))
                     facs).
  { clear Efac Hrun. induction HF as [|fr r facs res Hr _ IH]; simpl;
      [split; reflexivity|].
    destruct Hr as (g0 & g3 & Hr). destruct r as [ts_df cycles].
    destruct (run_row_keys _ _ _ _ _ _ _ _ _ _ _ _ _ _ Hr) as [A B].
    destruct IH as [IH1 IH2]. simpl. rewrite !map_app, IH1, IH2.
    fold ti in A.
    assert (Hl : length ts_df = length ti)
      by (rewrite <- A, length_map; reflexivity).
    rewrite A, (map_constant _ _ _ B), Hl. split; reflexivity. }
  destruct Hlay as [A B]. split; [exact A|]. split; [exact B|].
  rewrite <- (length_map ts_timestamp), A, <- Efac.
  unfold ti. clear. induction facs as [|f facs IH]; simpl; [reflexivity|].
  rewrite length_app, IH, generate_time_index_length. reflexivity.
Qed.

(** What one pass of the facility loop appends. *)
Lemma create_facility_inv cfg tp i g f g' :
  create_facility cfg tp i g = Some (f, g') ->
  facility_id f = format_facility_id (i + 1) /\
  In (facility_type f) (map fst (facility_type_weights cfg)) /\
  In (country_code f) countries /\ In (region f) regions /\
  (exists g1 g2, rng_uniform (-60.0) 60.0 g1 = Some (latitude f, g2)) /\
  (exists g1 g2, rng_uniform (-180.0) 180.0 g1 = Some (longitude f, g2)) /\
  ln_min (salt_cavern_volume_m3 (salt_cavern cfg)) <= cavern_volume_m3 f /\
  (if String.eqb (facility_type f) "salt_cavern"
   then porosity f = None /\ permeability_mD f = None /\
        pressure_min_mpa f = salt_pressure_min_mpa (salt_cavern cfg) /\
        pressure_max_mpa f = salt_pressure_max_mpa (salt_cavern cfg)
   else (exists po pe, porosity f = Some po /\
                       permeability_mD f = Some pe /\
                       ln_min (porous_permeability_mD (porous_reservoir cfg))
                       <= pe) /\
        pressure_min_mpa f = porous_pressure_min_mpa (porous_reservoir cfg) /\
        pressure_max_mpa f = porous_pressure_max_mpa (porous_reservoir cfg)).
Proof.
  unfold create_facility. intros H0.
  inv_bind H0 as ft g1 Eft. inv_bind H0 as cc g2 Ecc.
  inv_bind H0 as rg g3 Erg. inv_bind H0 as lat g4 Elat.
  inv_bind H0 as lon g5 Elon.
  assert (Hft : In ft (map fst (facility_type_weights cfg))).
  { unfold choice_weighted in Eft. destruct tp; [|discriminate].
    inv_bind Eft as k h1 Ek. apply lift_inv in Eft.
    destruct Eft as [Eft _]. exact (nth_error_In _ _ Eft). }
  assert (Hcc : In cc countries).
  { unfold choice_uniform in Ecc. inv_bind Ecc as k h1 Ek.
    apply lift_inv in Ecc. destruct Ecc as [Ecc _].
    exact (nth_error_In _ _ Ecc). }
  assert (Hrg : In rg regions).
  { unfold choice_uniform in Erg. inv_bind Erg as k h1 Ek.
    apply lift_inv in Erg. destruct Erg as [Erg _].
    exact (nth_error_In _ _ Erg). }
  destruct (String.eqb ft "salt_cavern") eqn:Esalt.
  - inv_bind H0 as depth g6 Ed. inv_bind H0 as vol g7 Ev. inv_ret H0.
    unfold _sample_lognormal_bounded in Ev. inv_bind Ev as v h1 Ev1.
    inv_ret Ev. simpl. rewrite Esalt.
    repeat split; eauto. py_cases; lra.
  - inv_bind H0 as depth g6 Ed. inv_bind H0 as po g7 Epo.
    inv_bind H0 as pe g8 Epe. inv_bind H0 as vol g9 Ev. inv_ret H0.
    unfold _sample_lognormal_bounded in Ev, Epe.
    inv_bind Ev as v h1 Ev1. inv_ret Ev.
    inv_bind Epe as w h2 Ew. inv_ret Epe. simpl. rewrite Esalt.
    repeat split; eauto; try (py_cases; lra).
    eexists. eexists. split; [reflexivity|]. split; [reflexivity|].
    py_cases; lra.
Qed.

Lemma create_facilities_fold cfg tp (P : nat -> Facility -> Prop) :
  (forall i g f g', create_facility cfg tp i g = Some (f, g') -> P i f) ->
  forall n k rows g rows' g',
    foldM (fun i rows => bind (create_facility cfg tp i)
                           (fun row => ret (rows ++ [row])))
          (seq k n) rows g = Some (rows', g') ->
    length rows = k ->
    (forall i f, nth_error rows i = Some f -> P i f) ->
    forall i f, nth_error rows' i = Some f -> P i f.
Proof.
  intros HP. induction n as [|n IH]; intros k rows g rows' g' E Hlen Hrows;
    simpl in E.
  - inv_ret E. exact Hrows.
  - inv_bind E as rows1 g1 E1. inv_bind E1 as f0 g2 Ef. inv_ret E1.
    refine (IH _ _ _ _ _ E _ _).
    + rewrite length_app. simpl. lia.
    + intros i f Hi.
      destruct (Nat.lt_ge_cases i (length rows)) as [Hlt|Hge].
      * rewrite nth_error_app1 in Hi by exact Hlt. exact (Hrows i f Hi).
      * rewrite nth_error_app2 in Hi by exact Hge.
        destruct (i - length rows)%nat as [|j] eqn:Ej; simpl in Hi.
        -- injection Hi as <-.
           replace i with (length rows) by lia. exact (HP _ _ _ _ Ef).
        -- destruct j; discriminate.
Qed.

Context `{!GeneratorLaws G}.

(** X16.  The facility table has [n_facilities] rows; row i is named
    UHS_ followed by i+1 on three digits, lies between 60 degrees south
    and north and 180 degrees west and east, and has a type, country and
    region of the configured lists.  A salt cavern has no porosity or
    permeability and the pressure limits of the salt configuration; any
    other type has both, the permeability at least its configured
    minimum, and the limits of the porous configuration.  Both draw their
    volume from the salt cavern volume distribution. *)
Theorem facility_table_rows cfg g facs g' :
  create_facilities cfg g = Some (facs, g') ->
  length facs = Z.to_nat (n_facilities cfg) /\
  forall i f, nth_error facs i = Some f ->
    facility_id f = format_facility_id (i + 1) /\
    In (facility_type f) (map fst (facility_type_weights cfg)) /\
    In (country_code f) countries /\ In (region f) regions /\
    -60.0 <= latitude f <= 60.0 /\ -180.0 <= longitude f <= 180.0 /\
    ln_min (salt_cavern_volume_m3 (salt_cavern cfg)) <= cavern_volume_m3 f /\
    (if String.eqb (facility_type f) "salt_cavern"
     then porosity f = None /\ permeability_mD f = None /\
          pressure_min_mpa f = salt_pressure_min_mpa (salt_cavern cfg) /\
          pressure_max_mpa f = salt_pressure_max_mpa (salt_cavern cfg)
     else (exists po pe, porosity f = Some po /\
                         permeability_mD f = Some pe /\
                         ln_min (porous_permeability_mD
                                   (porous_reservoir cfg)) <= pe) /\
          pressure_min_mpa f
          = porous_pressure_min_mpa (porous_reservoir cfg) /\
          pressure_max_mpa f
          = porous_pressure_max_mpa (porous_reservoir cfg)).
Proof.
  intros E. split; [exact (create_facilities_length _ _ _ _ E)|].
  unfold create_facilities in E.
  refine (create_facilities_fold cfg _ _ _ _ _ _ _ _ _ E eq_refl _);
    [|intros [|i] f Hi; discriminate].
  intros i g0 f g0' Ef.
  destruct (create_facility_inv _ _ _ _ _ _ Ef)
    as (A & B & C & D & (h1 & h2 & Elat) & (h3 & h4 & Elon) & F & K).
  apply rng_uniform_range in Elat; [|lra].
  apply rng_uniform_range in Elon; [|lra].
  repeat (split; [assumption||tauto|]). exact K.
Qed.
End Tables.

(* ================================================================== *)
(** ** The further properties on concrete inputs *)
(* ================================================================== *)

(** X1 on the example table: 12 MPa falls in the second segment, 55 MPa in
    none, so the last segment answers. *)
Lemma get_compressibility_z_first_match_or_last_witness :
  get_compressibility_z 12 example_thermo = Some 1.06 /\
  get_compressibility_z 55 example_thermo = Some 1.13.
Proof.
  destruct (get_compressibility_z_first_match_or_last 12 example_thermo)
    as (_ & A & _).
  destruct (get_compressibility_z_first_match_or_last 55 example_thermo)
    as (_ & _ & B).
  split.
  - apply (A [mkSegment 0 10 1.0] (mkSegment 10 20 1.06)
             [mkSegment 20 40 1.13] eq_refl).
    + intros s' [<- | []]. simpl. intros [_ C]. revert C. concrete.
    + concrete.
    + concrete.
  - apply (B [mkSegment 0 10 1.0; mkSegment 10 20 1.06]
             (mkSegment 20 40 1.13) eq_refl).
    intros s' [<- | [<- | [<- | []]]]; simpl; intros [_ C]; revert C;
      concrete.
Defined.

(** X2 on the example table: an empty volume holds no mass, and absolute
    zero makes the division fail. *)
Lemma mass_from_pvt_edge_cases_witness :
  mass_from_pvt 10 20 0 example_thermo = Some 0 /\
  mass_from_pvt 10 (-273.15) 500000 example_thermo = None.
Proof.
  destruct (mass_from_pvt_edge_cases 10 20 0 example_thermo) as (A & _ & _).
  destruct (mass_from_pvt_edge_cases 10 (-273.15) 500000 example_thermo)
    as (_ & _ & C).
  split; [apply A; concrete | apply C; [concrete | left; concrete]].
Defined.

(** X3 on the example table, which lets the call return, and on the same
    table with a zero molar mass, which makes it raise. *)
Lemma pressure_from_mass_raises_iff_witness :
  pressure_from_mass 1000 20 500000 example_thermo <> None /\
  pressure_from_mass 1000 20 500000
    (mkThermoConfig 8.314 0 (compressibility_segments example_thermo)) = None.
Proof.
  split.
  - intros E.
    apply (pressure_from_mass_raises_iff 1000 20 500000 example_thermo) in E.
    destruct E as (_ & _ & [HM | Hempty]); [revert HM; concrete|].
    discriminate Hempty.
  - apply (pressure_from_mass_raises_iff 1000 20 500000
             (mkThermoConfig 8.314 0
                (compressibility_segments example_thermo))).
    split; [concrete|]. split; [concrete|]. left. concrete.
Defined.

(** X4 for an empty inventory and for 1000 kg at a loss fraction of 1 %. *)
Lemma compute_cycle_losses_kg_bounds_witness :
  compute_cycle_losses_kg 0 0.01 = 0 /\
  compute_cycle_losses_kg 1000 0.01 = 1000 * 0.01 /\
  0 <= compute_cycle_losses_kg 1000 0.01 <= 1000.
Proof.
  destruct (compute_cycle_losses_kg_bounds 0 0.01) as (A & _ & _).
  destruct (compute_cycle_losses_kg_bounds 1000 0.01) as (_ & B & C).
  split; [apply A; left; concrete|].
  split; [apply B; concrete | apply C; concrete].
Defined.

(** X5 for a balance that closes: 100 - 40 - 5 = 55. *)
Lemma mass_balance_residual_zero_iff_witness :
  mass_balance_residual_fraction 100 40 5 55 == 0.
Proof.
  destruct (mass_balance_residual_zero_iff 100 40 5 55) as (_ & A).
  apply A. concrete.
Defined.

(** X7 on the short run of the example facility. *)
Lemma recorded_pressure_within_bounds_witness :
  exists ts_df cycles g',
    example_run = Some ((ts_df, cycles), g') /\
    forall r, In r ts_df ->
      check_pressure_within_bounds (ts_pressure_mpa r)
        (pressure_min_mpa example_facility)
        (pressure_max_mpa example_facility)
        (pressure_margin_mpa (build_validation_config short_config)) = true.
Proof.
  destruct example_run as [[[ts_df cycles] g']|] eqn:E.
  2:{ vm_compute in E. discriminate E. }
  exists ts_df, cycles, g'. split; [reflexivity|]. intros r Hr.
  destruct (recorded_pressure_within_bounds gregorian_year _ _ _ _ _ _ _ _
              _ _ _ _ _ E r Hr) as [_ A].
  apply A. concrete.
Defined.

(** X8 on the dataset of two facilities over one year. *)
Lemma weekly_table_layout_witness :
  exists facs ts cyc,
    generate_uhs_dataset gregorian_year two_facility_config
    = Some (facs, ts, cyc) /\
    map ts_timestamp ts
    = concat (map (fun _ => generate_time_index 19723 1) facs) /\
    map ts_facility_id ts
    = flat_map (fun f => repeat (facility_id f) 52) facs /\
    length ts = 104%nat.
Proof.
  destruct (generate_uhs_dataset gregorian_year two_facility_config)
    as [[[facs ts] cyc]|] eqn:E.
  2:{ vm_compute in E. discriminate E. }
  exists facs, ts, cyc. split; [reflexivity|].
  exact (weekly_table_layout gregorian_year two_facility_config facs ts cyc E).
Defined.

(** X9 on the short run of the example facility. *)
Lemma cycle_indices_count_active_weeks_witness :
  exists ts_df cycles g',
    example_run = Some ((ts_df, cycles), g') /\
    length cycles = length (filter ts_is_cycle_active ts_df) /\
    (forall j c, nth_error cycles j = Some c ->
       cy_cycle_index c = (Z.of_nat j + 1)%Z) /\
    (forall j r, nth_error (filter ts_is_cycle_active ts_df) j = Some r ->
       ts_cycle_index r = (Z.of_nat j + 1)%Z) /\
    (forall r, In r ts_df -> ts_is_cycle_active r = false ->
       ts_cycle_index r = 0%Z /\ ts_cycle_efficiency r = None).
Proof.
  destruct example_run as [[[ts_df cycles] g']|] eqn:E.
  2:{ vm_compute in E. discriminate E. }
  exists ts_df, cycles, g'. split; [reflexivity|].
  exact (cycle_indices_count_active_weeks gregorian_year _ _ _ _ _ _ _ _ _
           _ _ _ _ E).
Defined.

(** X10 on the short run of the example facility. *)
Lemma cycle_summary_copies_its_week_witness :
  exists ts_df cycles g',
    example_run = Some ((ts_df, cycles), g') /\
    Forall2 (fun r c =>
               cycle_row_of_week r c /\
               exists a, cy_avg_pressure_mpa c = Some a /\
                         a == ts_pressure_mpa r)
            (filter ts_is_cycle_active ts_df) cycles.
Proof.
  destruct example_run as [[[ts_df cycles] g']|] eqn:E.
  2:{ vm_compute in E. discriminate E. }
  exists ts_df, cycles, g'. split; [reflexivity|].
  exact (cycle_summary_copies_its_week gregorian_year _ _ _ _ _ _ _ _ _ _ _
           _ _ E).
Defined.

(** X11 on the short run of the example facility. *)
Lemma recorded_purity_within_inlet_bounds_witness :
  exists ts_df cycles g',
    example_run = Some ((ts_df, cycles), g') /\
    forall r, In r ts_df ->
      99.5 <= ts_purity_in_pct r <= 100 /\
      99.5 <= ts_purity_out_pct r <= 100 /\
      check_purity_range (ts_purity_in_pct r)
        (build_validation_config short_config) = true /\
      check_purity_range (ts_purity_out_pct r)
        (build_validation_config short_config) = true.
Proof.
  destruct example_run as [[[ts_df cycles] g']|] eqn:E.
  2:{ vm_compute in E. discriminate E. }
  exists ts_df, cycles, g'. split; [reflexivity|]. intros r Hr.
  assert (H0 : inlet_min (build_purity_config short_config)
               <= inlet_mean (build_purity_config short_config)) by concrete.
  assert (H1 : inlet_mean (build_purity_config short_config)
               <= inlet_max (build_purity_config short_config)) by concrete.
  destruct (recorded_purity_within_inlet_bounds gregorian_year _ _ _ _ _ _
              _ _ _ _ _ _ _ H0 H1 E r Hr) as (A & B & C).
  split; [exact A|]. split; [exact B|]. apply C; concrete.
Defined.

(** X12 on the short run of the example facility. *)
Lemma recorded_flows_nonneg_witness :
  exists ts_df cycles g',
    example_run = Some ((ts_df, cycles), g') /\
    forall r, In r ts_df ->
      0 <= ts_h2_injected_kg r /\ 0 <= ts_h2_withdrawn_kg r /\
      (ts_is_cycle_active r = false ->
       ts_h2_injected_kg r = 0 /\ ts_h2_withdrawn_kg r = 0).
Proof.
  destruct example_run as [[[ts_df cycles] g']|] eqn:E.
  2:{ vm_compute in E. discriminate E. }
  assert (H0 : 0 <= cycle_mass_fraction_min (cycling short_config))
    by concrete.
  exists ts_df, cycles, g'. split; [reflexivity|].
  exact (recorded_flows_nonneg gregorian_year _ _ _ _ _ _ _ _ _ _ _ _ _
           H0 E).
Defined.

(** X13 on the first cycle of the short run, which no clamp touches, and
    on the first cycle of the tiny cavern, where the withdrawal cannot
    cover the deficit. *)
Lemma active_cycle_mass_balance_witness :
  (exists wv g',
     example_active_cycle = Some (wv, g') /\
     wv_h2_injected_kg wv - wv_h2_withdrawn_kg wv
     - wv_total_cycle_losses_kg wv
     - (wv_working_gas_kg wv - py_max (example_cap * 0.5 - example_leak) 0)
     == 0) /\
  (exists wv g',
     active_cycle tiny_facility short_config
       (build_loss_config short_config) (build_purity_config short_config)
       example_mode_probs tiny_cap tiny_leak 19730 51
       (mkLoopState (tiny_cap * 0.5) 0.1 0 [] [])
       (py_max (tiny_cap * 0.5 - tiny_leak) 0) tiny_g0 = Some (wv, g') /\
     wv_h2_injected_kg wv - wv_h2_withdrawn_kg wv
     - wv_total_cycle_losses_kg wv
     - (wv_working_gas_kg wv - py_max (tiny_cap * 0.5 - tiny_leak) 0)
     < 0).
Proof.
  split.
  - destruct example_active_cycle as [[wv g']|] eqn:E.
    2:{ vm_compute in E. discriminate E. }
    assert (Hcap : 0 <= example_cap) by concrete.
    destruct (active_cycle_mass_balance _ _ _ _ _ _ _ _ _ _ _ _ _ _
                Hcap E)
      as (mode & tf & inj0 & wdr0 & lf & g1 & g2 & g3 & g4 & Emode & Etf
          & Efl & Elf & Hin & _ & _).
    read_off Emode. read_off Etf. read_off Efl. read_off Elf.
    exists wv, g'. split; [reflexivity|]. apply Hin; concrete.
  - destruct (active_cycle tiny_facility short_config
                (build_loss_config short_config)
                (build_purity_config short_config)
                example_mode_probs tiny_cap tiny_leak 19730 51
                (mkLoopState (tiny_cap * 0.5) 0.1 0 [] [])
                (py_max (tiny_cap * 0.5 - tiny_leak) 0) tiny_g0)
      as [[wv g']|] eqn:E.
    2:{ vm_compute in E. discriminate E. }
    assert (Hcap : 0 <= tiny_cap) by concrete.
    destruct (active_cycle_mass_balance _ _ _ _ _ _ _ _ _ _ _ _ _ _
                Hcap E)
      as (mode & tf & inj0 & wdr0 & lf & g1 & g2 & g3 & g4 & Emode & Etf
          & Efl & Elf & _ & Hdef & _).
    read_off Emode. read_off Etf. read_off Efl. read_off Elf.
    exists wv, g'. split; [reflexivity|].
    rewrite Hdef by concrete. concrete.
Defined.

(** X14 for the example salt cavern, whose working fraction is 0.6. *)
Lemma capacity_split_conserves_mass_witness :
  exists cap cush g',
    _compute_facility_capacity_kg example_facility short_config
      (build_thermo_config short_config)
      (build_temperature_noise_config short_config) (default_rng 42)
    = Some ((cap, cush), g') /\
    exists T total,
      mass_from_pvt 18 T 500000 (build_thermo_config short_config)
      = Some total /\
      cap == total * 0.6 /\ cap + cush == total.
Proof.
  destruct (_compute_facility_capacity_kg example_facility short_config
              (build_thermo_config short_config)
              (build_temperature_noise_config short_config) (default_rng 42))
    as [[[cap cush] g']|] eqn:E.
  2:{ vm_compute in E. discriminate E. }
  exists cap, cush, g'. split; [reflexivity|].
  destruct (capacity_split_conserves_mass _ _ _ _ _ _ _ _ E)
    as (T & total & Em & _ & _ & _ & Hsplit).
  exists T, total. split; [exact Em|]. apply Hsplit; concrete.
Defined.

(** X15 for the example configuration with no facility. *)
Lemma generate_uhs_dataset_needs_a_facility_witness :
  generate_uhs_dataset gregorian_year
    (example_config 0 (mkCyclingCfg 3 5 0.05 0.05 0.4 0.4 0.4 0.2)
       example_noise (mkLossConfig 0 0 100 1000)) = None.
Proof.
  apply (generate_uhs_dataset_needs_a_facility (G := Z)). concrete.
Defined.

(** X16 on the facility table of two facilities. *)
Lemma facility_table_rows_witness :
  exists facs g',
    create_facilities two_facility_config (default_rng 42) = Some (facs, g') /\
    length facs = 2%nat /\
    forall i f, nth_error facs i = Some f ->
      facility_id f = format_facility_id (i + 1) /\
      -60.0 <= latitude f <= 60.0 /\ -180.0 <= longitude f <= 180.0 /\
      100000 <= cavern_volume_m3 f.
Proof.
  destruct (create_facilities two_facility_config (default_rng 42))
    as [[facs g']|] eqn:E.
  2:{ vm_compute in E. discriminate E. }
  exists facs, g'. split; [reflexivity|].
  destruct (facility_table_rows _ _ _ _ E) as [A B].
  split; [exact A|]. intros i f Hi.
  destruct (B i f Hi) as (C & _ & _ & _ & D & F & K & _).
  split; [exact C|]. split; [exact D|]. split; [exact F | exact K].
Defined.

(** X18 on the schedule drawn for one year, three to five cycles. *)
Lemma activation_schedule_sorted_weeks_of_year_witness :
  exists sched g',
    assign_active_cycles_per_year gregorian_year short_config
      (generate_time_index 19723 1) (default_rng 42) = Some (sched, g') /\
    forall y a, dict_get y sched = Some a ->
      StronglySorted lt a /\
      (forall idx, In idx a ->
         exists t, nth_error (generate_time_index 19723 1) idx = Some t /\
                   gregorian_year t = y) /\
      (Z.of_nat (length a) <= 5)%Z.
Proof.
  destruct (assign_active_cycles_per_year gregorian_year short_config
              (generate_time_index 19723 1) (default_rng 42))
    as [[sched g']|] eqn:E.
  2:{ vm_compute in E. discriminate E. }
  exists sched, g'. split; [reflexivity|].
  exact (activation_schedule_sorted_weeks_of_year gregorian_year _ _ _ _ _ E).
Defined.

(** X19 on the short run without temperature noise: 15 C at the surface,
    30 C per km, 1200 m deep. *)
Lemma temperature_constant_without_noise_witness :
  exists ts_df cycles g',
    simulate_facility_timeseries gregorian_year example_facility short_config
      (build_thermo_config short_config)
      (mkTemperatureNoiseConfig "none" 0 0)
      (build_loss_config short_config) (build_purity_config short_config)
      (build_validation_config short_config)
      example_weeks example_schedule (default_rng 42)
    = Some ((ts_df, cycles), g') /\
    forall r, In r ts_df -> ts_temperature_c r == 15 + 30 * (1200 / 1000.0).
Proof.
  destruct (simulate_facility_timeseries gregorian_year example_facility
              short_config (build_thermo_config short_config)
              (mkTemperatureNoiseConfig "none" 0 0)
              (build_loss_config short_config)
              (build_purity_config short_config)
              (build_validation_config short_config)
              example_weeks example_schedule (default_rng 42))
    as [[[ts_df cycles] g']|] eqn:E.
  2:{ vm_compute in E. discriminate E. }
  assert (Hn : tn_distribution (mkTemperatureNoiseConfig "none" 0 0)
               <> "normal"%string) by discriminate.
  exists ts_df, cycles, g'. split; [reflexivity|]. intros r Hr.
  pose proof (temperature_constant_without_noise gregorian_year _ _ _ _ _ _
                _ _ _ _ _ _ _ Hn E r Hr) as A.
  exact A.
Defined.
